(** * A shallow embedding of the python-sandbox service

    The development follows the layout of the repository:

    - [Py]        the few Python built-ins the code relies on
                  (str methods, exceptions, struct.pack);
    - [Ast]       the syntax trees of the [ast] module and [ast.walk];
    - [Config]    app/config.py;
    - [Validator] app/core/validator.py;
    - [Service]   app/core/service.py;
    - [Docker]    app/executors/docker.py;
    - [Factory]   app/executors/factory.py;
    - [Agent]     firecracker-guest-agent/agent.py.

    Definitions come first, the properties proved about them follow. *)

From Stdlib Require Import ZArith String Ascii List DecimalString Lia.
From Stdlib Require Import Permutation.
From stdpp Require Import base gmap strings list.
Import ListNotations.

Set Warnings "-register-all".

Open Scope string_scope.
Open Scope list_scope.
Open Scope Z_scope.

(* ===================================================================== *)
(** * Python built-ins *)
(* ===================================================================== *)

Module Py.

(** A Python [str] is a Rocq string, one character per code point: [len]
    and slicing count characters. *)

(** Exceptions of app/core/exceptions.py, docker's [ContainerError], and
    any other exception. *)
Inductive exn :=
| ValidationError (msg : string)
| ExecutionError (msg : string)
| DockerError (msg : string)
| ContainerError (exit_status : Z) (msg : string)
| OtherError (msg : string).

(** The result of a call that either returns or raises. *)
Inductive result (A : Type) :=
| Return (a : A)
| Raise (e : exn).
Arguments Return {A} a.
Arguments Raise {A} e.

(** [str(e)] of an exception. *)
Definition str_exn (e : exn) : string :=
  match e with
  | ValidationError m | ExecutionError m | DockerError m
  | ContainerError _ m | OtherError m => m
  end.

(** Sequencing of calls that may raise. *)
Definition bind {A B : Type} (r : result A) (k : A -> result B) : result B :=
  match r with
  | Return a => k a
  | Raise e => Raise e
  end.

Notation "x <- r ;; k" := (bind r (fun x => k))
  (at level 100, r at next level, right associativity).

(** [len(s)] *)
Definition len (s : string) : Z := Z.of_nat (String.length s).

(** [len(b)] of a bytes object or a list. *)
Definition size_of {A : Type} (l : list A) : Z := Z.of_nat (List.length l).

(** The line feed. *)
Definition LF : string := String (ascii_of_nat 10) EmptyString.

(** [str(n)] for an integer. *)
Definition str_int (z : Z) : string := NilZero.string_of_int (Z.to_int z).

(** [s.startswith(p)] *)
Definition startswith (s p : string) : bool := String.prefix p s.

(** [sep.join(l)] *)
Definition join (sep : string) (l : list string) : string :=
  String.concat sep l.

(** [sub in s] *)
Fixpoint contains (sub s : string) : bool :=
  String.prefix sub s ||
  match s with
  | EmptyString => false
  | String _ s' => contains sub s'
  end.

(** [s.split(c)] for a one-character separator. *)
Fixpoint split (c : ascii) (s : string) : list string :=
  match s with
  | EmptyString => [EmptyString]
  | String a s' =>
      if Ascii.eqb a c then EmptyString :: split c s'
      else match split c s' with
           | h :: t => String a h :: t
           | [] => [String a EmptyString]
           end
  end.

(** [c.isspace()] on the code points below 256. *)
Definition isspace (c : ascii) : bool :=
  let n := nat_of_ascii c in
  ((9 <=? n) && (n <=? 13) || (28 <=? n) && (n <=? 32)
   || (n =? 133) || (n =? 160))%nat.

Fixpoint lstrip (s : string) : string :=
  match s with
  | String a s' => if isspace a then lstrip s' else s
  | EmptyString => EmptyString
  end.

Fixpoint rstrip (s : string) : string :=
  match s with
  | String a s' =>
      match rstrip s' with
      | EmptyString => if isspace a then EmptyString else String a EmptyString
      | r => String a r
      end
  | EmptyString => EmptyString
  end.

(** [s.strip()] *)
Definition strip (s : string) : string := rstrip (lstrip s).

(** [c.lower()] on the code points below 256. *)
Definition lower_char (c : ascii) : ascii :=
  let n := nat_of_ascii c in
  if ((65 <=? n) && (n <=? 90)
      || (192 <=? n) && (n <=? 222) && negb (n =? 215))%nat
  then ascii_of_nat (n + 32) else c.

(** [s.lower()] *)
Fixpoint lower (s : string) : string :=
  match s with
  | EmptyString => EmptyString
  | String a s' => String (lower_char a) (lower s')
  end.

(** [s[:n]] *)
Definition slice_to (s : string) (n : Z) : string :=
  if 0 <=? n then String.substring 0 (Z.to_nat n) s
  else String.substring 0 (Z.to_nat (len s + n)) s.

(** Truthiness of a str. *)
Definition nonempty (s : string) : bool :=
  match s with EmptyString => false | _ => true end.

(** [sorted(l)] on strings: insertion into an ordered list, by code point. *)
Fixpoint insert_sorted (x : string) (l : list string) : list string :=
  match l with
  | [] => [x]
  | y :: l' => if String.leb x y then x :: l else y :: insert_sorted x l'
  end.

Definition sorted (l : list string) : list string :=
  fold_right insert_sorted [] l.

(** [struct.pack('!I', n)]: four bytes, most significant first; raises
    [struct.error] outside the range of an unsigned 32-bit integer. *)
Definition byte_of (z : Z) : Byte.byte :=
  match Byte.of_N (Z.to_N (Z.land z 255)) with
  | Some b => b
  | None => Byte.x00
  end.

Definition pack_I (n : Z) : option (list Byte.byte) :=
  if (0 <=? n) && (n <? 2 ^ 32)
  then Some [byte_of (Z.shiftr n 24); byte_of (Z.shiftr n 16);
             byte_of (Z.shiftr n 8); byte_of n]
  else None.

(** [struct.unpack('!I', b)[0]] on exactly four bytes. *)
Definition unpack_I (b : list Byte.byte) : option Z :=
  match b with
  | [b3; b2; b1; b0] =>
      let v (x : Byte.byte) := Z.of_N (Byte.to_N x) in
      Some (Z.lor (Z.shiftl (v b3) 24)
             (Z.lor (Z.shiftl (v b2) 16) (Z.lor (Z.shiftl (v b1) 8) (v b0))))
  | _ => None
  end.

End Py.

Export Py.

(* ===================================================================== *)
(** * Syntax trees: the part of the [ast] module the validator inspects *)
(* ===================================================================== *)

Module Ast.

(** The value of an [ast.Constant]. *)
Inductive constant :=
| CNone
| CBool (b : bool)
| CInt (z : Z)
| CStr (s : string)
| COther (repr : string).

(** [ast.alias(name, asname)] *)
Record alias := { alias_name : string; asname : option string }.

(** Nodes.  The classes the validator tests for carry their own fields;
    every other class is [Other cls children], [children] being its child
    nodes in field order. *)
Inductive node :=
| Module (body type_ignores : list node)
| Import (names : list alias)
| ImportFrom (module : option string) (names : list alias) (level : Z)
| If (test : node) (body orelse : list node)
| While (test : node) (body orelse : list node)
| For (target iter : node) (body orelse : list node)
| ExceptHandler (type : option node) (name : option string) (body : list node)
| BoolOp (op : node) (values : list node)
| ListComp (elt : node) (generators : list node)
| SetComp (elt : node) (generators : list node)
| DictComp (key value : node) (generators : list node)
| Call (func : node) (args keywords : list node)
| Name (id : string) (ctx : node)
| Constant (value : constant)
| Alias (a : alias)
| Other (cls : string) (children : list node).

Definition opt_node (o : option node) : list node :=
  match o with Some n => [n] | None => [] end.

(** [ast.iter_child_nodes(node)]: the child nodes, in field order. *)
Definition iter_child_nodes (n : node) : list node :=
  match n with
  | Module body type_ignores => body ++ type_ignores
  | Import names => List.map Alias names
  | ImportFrom _ names _ => List.map Alias names
  | If test body orelse => test :: body ++ orelse
  | While test body orelse => test :: body ++ orelse
  | For target iter body orelse => target :: iter :: body ++ orelse
  | ExceptHandler type _ body => opt_node type ++ body
  | BoolOp op values => op :: values
  | ListComp elt generators => elt :: generators
  | SetComp elt generators => elt :: generators
  | DictComp key value generators => key :: value :: generators
  | Call func args keywords => func :: args ++ keywords
  | Name _ ctx => [ctx]
  | Constant _ => []
  | Alias _ => []
  | Other _ children => children
  end.

(** Number of nodes of a tree. *)
Fixpoint size (n : node) : nat :=
  let sizes l := list_sum (List.map size l) in
  S match n with
    | Module body type_ignores => sizes body + sizes type_ignores
    | Import names => List.length names
    | ImportFrom _ names _ => List.length names
    | If test body orelse => size test + (sizes body + sizes orelse)
    | While test body orelse => size test + (sizes body + sizes orelse)
    | For target iter body orelse =>
        size target + (size iter + (sizes body + sizes orelse))
    | ExceptHandler type _ body =>
        match type with Some t => size t | None => 0 end + sizes body
    | BoolOp op values => size op + sizes values
    | ListComp elt generators => size elt + sizes generators
    | SetComp elt generators => size elt + sizes generators
    | DictComp key value generators =>
        size key + (size value + sizes generators)
    | Call func args keywords => size func + (sizes args + sizes keywords)
    | Name _ ctx => size ctx
    | Constant _ => 0
    | Alias _ => 0
    | Other _ children => sizes children
    end%nat.

(** The nodes of a tree, the node itself first, then each child's nodes
    in turn (depth first). *)
Fixpoint descendants (n : node) : list node :=
  let all l := List.flat_map descendants l in
  n :: match n with
       | Module body type_ignores => all body ++ all type_ignores
       | Import names => List.map Alias names
       | ImportFrom _ names _ => List.map Alias names
       | If test body orelse => descendants test ++ all body ++ all orelse
       | While test body orelse => descendants test ++ all body ++ all orelse
       | For target iter body orelse =>
           descendants target ++ descendants iter ++ all body ++ all orelse
       | ExceptHandler type _ body =>
           match type with Some t => descendants t | None => [] end ++ all body
       | BoolOp op values => descendants op ++ all values
       | ListComp elt generators => descendants elt ++ all generators
       | SetComp elt generators => descendants elt ++ all generators
       | DictComp key value generators =>
           descendants key ++ descendants value ++ all generators
       | Call func args keywords =>
           descendants func ++ all args ++ all keywords
       | Name _ ctx => descendants ctx
       | Constant _ => []
       | Alias _ => []
       | Other _ children => all children
       end.

(** [ast.walk(node)]: pop the first node of the queue, push its children
    at the end, yield it.  The queue shrinks by one tree node per round,
    so [size] rounds empty it. *)
Fixpoint walk_todo (rounds : nat) (todo : list node) : list node :=
  match rounds, todo with
  | S rounds', node :: todo' =>
      node :: walk_todo rounds' (todo' ++ iter_child_nodes node)
  | _, _ => []
  end.

Definition walk (tree : node) : list node := walk_todo (size tree) [tree].

(** What [ast.parse(code)] does: a tree, a [SyntaxError] with its [lineno]
    and [msg], or some other exception. *)
Inductive parse_outcome :=
| Parsed (tree : node)
| SyntaxError (lineno : option Z) (msg : string)
| ParseFailure (e : string).

End Ast.

Export Ast.

(* ===================================================================== *)
(** * app/config.py *)
(* ===================================================================== *)

Module Config.

(** The options of [Settings] read by the modelled code. *)
Record Settings := {
  FORBIDDEN_IMPORTS : gset string;
  MAX_CODE_LENGTH : Z;
  MAX_COMPLEXITY : Z;
  MAX_OUTPUT_SIZE : Z;
  MAX_FILE_SIZE : Z;
  MAX_TOTAL_SIZE : Z;
  MAX_FILE_COUNT : Z;
  EXECUTOR_PROVIDER : string;
  EXECUTOR_FALLBACK_PROVIDERS : string
}.

(** The defaults of the class body. *)
Definition default_settings : Settings := {|
  FORBIDDEN_IMPORTS :=
    {[ "os"; "subprocess"; "socket"; "sys"; "importlib"; "ctypes";
       "__builtin__"; "builtins"; "multiprocessing"; "threading" ]};
  MAX_CODE_LENGTH := 50000;
  MAX_COMPLEXITY := 20;
  MAX_OUTPUT_SIZE := 10240;
  MAX_FILE_SIZE := 10485760;
  MAX_TOTAL_SIZE := 52428800;
  MAX_FILE_COUNT := 10;
  EXECUTOR_PROVIDER := "docker";
  EXECUTOR_FALLBACK_PROVIDERS := "docker"
|}.

End Config.

Export Config.

(* ===================================================================== *)
(** * app/core/validator.py *)
(* ===================================================================== *)

Module Validator.

Section CodeValidator.

(** [settings], read once by [__init__]. *)
Variable settings : Settings.

(** [ast.parse], CPython's parser. *)
Variable ast_parse : string -> parse_outcome.

Definition forbidden_imports := FORBIDDEN_IMPORTS settings.
Definition max_code_length := MAX_CODE_LENGTH settings.
Definition max_complexity := MAX_COMPLEXITY settings.

(** [name.split('.')[0]] *)
Definition top_level (name : string) : string :=
  match split "." name with
  | module_name :: _ => module_name
  | [] => EmptyString
  end.

(** What one round of the loop of [_check_imports] appends. *)
Definition imports_of_node (node : node) : list string :=
  match node with
  | Import names =>
      List.flat_map
        (fun alias =>
           if bool_decide (top_level (alias_name alias) ∈ forbidden_imports)
           then [alias_name alias] else [])
        names
  | ImportFrom (Some module) _ _ =>
      if nonempty module
      then if bool_decide (top_level module ∈ forbidden_imports)
           then [module] else []
      else []
  | _ => []
  end.

Definition _check_imports (tree : node) : list string :=
  fold_left
    (fun forbidden_found node => forbidden_found ++ imports_of_node node)
    (walk tree) [].

Definition dangerous_builtins : list string :=
  ["eval"; "exec"; "compile"; "__import__"].

(** What one round of the loop of [_check_patterns] appends. *)
Definition patterns_of_node (node : node) : list string :=
  match node with
  | While (Constant (CBool true)) _ _ =>
      ["Potential infinite loop detected (while True)"]
  | Call (Name id _) _ _ =>
      if bool_decide (id ∈ dangerous_builtins)
      then ["Dangerous builtin usage: " +:+ id] else []
  | _ => []
  end.

Definition _check_patterns (tree : node) : list string :=
  fold_left (fun warnings node => warnings ++ patterns_of_node node)
    (walk tree) [].

(** One round of the loop of [_calculate_complexity]. *)
Definition complexity_step (complexity : Z) (node : node) : Z :=
  match node with
  | If _ _ _ | While _ _ _ | For _ _ _ _ | ExceptHandler _ _ _ =>
      complexity + 1
  | BoolOp _ values => complexity + (Z.of_nat (List.length values) - 1)
  | ListComp _ generators | SetComp _ generators | DictComp _ _ generators =>
      complexity + Z.of_nat (List.length generators)
  | _ => complexity
  end.

Definition _calculate_complexity (tree : node) : Z :=
  fold_left complexity_step (walk tree) 1.

(** [f"{e.lineno}"]: the line number, or [None]. *)
Definition str_lineno (lineno : option Z) : string :=
  match lineno with Some n => str_int n | None => "None" end.

(** [validate(code)]: the pair [(is_valid, errors)]. *)
Definition validate (code : string) : bool * list string :=
  (* Check 1: Code length *)
  if len code >? max_code_length then
    (false, ["Code exceeds maximum length of " +:+ str_int max_code_length
             +:+ " characters"])
  else
  (* Check 2: Syntax validation *)
  match ast_parse code with
  | SyntaxError lineno msg =>
      (false, ["Syntax error at line " +:+ str_lineno lineno +:+ ": " +:+ msg])
  | ParseFailure e => (false, ["Failed to parse code: " +:+ e])
  | Parsed tree =>
      (* Check 3: Forbidden imports *)
      let forbidden_found := _check_imports tree in
      match forbidden_found with
      | _ :: _ =>
          (false, List.map (fun imp => "Forbidden import: " +:+ imp)
                    forbidden_found)
      | [] =>
          (* Check 4: Dangerous patterns (warnings, not errors) *)
          let warnings := _check_patterns tree in
          let errors := List.map (fun w => "Warning: " +:+ w) warnings in
          (* Check 5: Complexity *)
          let complexity := _calculate_complexity tree in
          if complexity >? max_complexity then
            (false, errors ++
                    ["Code complexity " +:+ str_int complexity
                     +:+ " exceeds maximum " +:+ str_int max_complexity])
          else
            (* All checks passed *)
            (true, errors)
      end
  end.

End CodeValidator.

End Validator.

Export Validator.

(* ===================================================================== *)
(** * app/executors/base.py *)
(* ===================================================================== *)

Module Base.

(** The dict an executor returns.  The key [execution_time], a reading of
    the wall clock, is left out. *)
Record ExecutionResult := {
  success : bool;
  stdout : string;
  stderr : string;
  exit_code : Z;
  error : option string;
  files : list string
}.

(** An instance of a [BaseExecutor] subclass, seen through its methods;
    [instance] tells two objects apart, [health_check] is what the call
    returns or raises while one request is served. *)
Record BaseExecutor := {
  instance : nat;
  get_name : string;
  execute : string -> Z -> result ExecutionResult;
  health_check : result bool
}.

End Base.

Export Base.

(* ===================================================================== *)
(** * app/core/service.py *)
(* ===================================================================== *)

Module Service.

(** The state [execute_code] works on: the [_executor] attribute of the
    service and, to observe the backend, the calls [execute] received. *)
Record state := {
  _executor : option BaseExecutor;
  backend_calls : list (string * Z)
}.

Section ExecutionService.

Variable settings : Settings.
Variable ast_parse : string -> parse_outcome.

(** [get_executor()] of app/executors/docker.py, at the time the
    [executor] property first needs it: an instance, or the [DockerError]
    of the constructor. *)
Variable get_executor : result BaseExecutor.

(** The [executor] property: lazy-load on first access. *)
Definition executor (st : state) : result BaseExecutor * state :=
  match _executor st with
  | Some ex => (Return ex, st)
  | None =>
      match get_executor with
      | Return ex =>
          (Return ex,
           {| _executor := Some ex; backend_calls := backend_calls st |})
      | Raise e => (Raise e, st)
      end
  end.

Definition execute_code (code : string) (timeout : Z) (st : state)
  : result ExecutionResult * state :=
  (* Step 1: Validate code *)
  let '(is_valid, errors) := validate settings ast_parse code in
  if negb is_valid then
    let error_msgs :=
      List.filter (fun err => negb (startswith err "Warning:")) errors in
    (Raise (ValidationError ("Validation failed: " +:+ join "; " error_msgs)),
     st)
  else
    (* Step 2: Execute code *)
    match executor st with
    | (Return ex, st') =>
        (execute ex code timeout,
         {| _executor := _executor st';
            backend_calls := backend_calls st' ++ [(code, timeout)] |})
    | (Raise e, st') => (Raise e, st')
    end.

End ExecutionService.

End Service.

(* ===================================================================== *)
(** * app/executors/docker.py *)
(* ===================================================================== *)

Module Docker.

(** A member of the archive of [/tmp/output], as [tarfile] presents it.
    [data] is what [tar.extractfile(member).read()] returns for a regular
    file, and [member.size] is its length. *)
Record TarInfo := {
  name : string;
  isfile : bool;
  data : list Byte.byte
}.

Definition size (member : TarInfo) : Z := size_of (data member).

(** A container returned by [client.containers.run(..., detach=True)],
    seen through the calls [execute] makes on it. *)
Record Container := {
  (** [container.wait(timeout=timeout)['StatusCode']] *)
  wait : Z -> result Z;
  (** [container.logs(stdout=True, stderr=False).decode('utf-8')] *)
  logs_stdout : result string;
  (** [container.logs(stdout=False, stderr=True).decode('utf-8')] *)
  logs_stderr : result string;
  (** [container.get_archive('/tmp/output')], read through
      [tarfile.open] and [tar.getmembers()] *)
  get_archive : result (list TarInfo)
}.

(** The [metadata] argument of [save_file]. *)
Record Metadata := { meta_size : Z; original_path : string }.

(** The storage manager of app/storage, an external collaborator. *)
Record StorageManager := {
  is_enabled : bool;
  save_file :
    list Byte.byte -> string -> string -> Metadata -> result (option string);
  generate_presigned_url : string -> Z -> result string
}.

(** [Path(s).name]: the last component of a POSIX path, empty and [.]
    components dropped. *)
Definition path_name (s : string) : string :=
  List.last
    (List.filter
       (fun part => negb (String.eqb part EmptyString || String.eqb part "."))
       (split "/" s))
    EmptyString.

(** The variables of the extraction loop. *)
Record extraction := {
  total_size : Z;
  file_count : Z;
  file_urls : list string
}.

(** How one round of a [for] loop ends: on to the next member ([continue]
    or the end of the body), or out of the loop ([break]). *)
Inductive flow :=
| Next (vars : extraction)
| Break (vars : extraction).

Section DockerExecutor.

Variable settings : Settings.

(** [get_storage_manager()] *)
Variable storage_manager : option StorageManager.

(** [self.client.containers.run(image, ["python", "-c", code], ...)] *)
Variable containers_run : string -> result Container.

(** [str(uuid.uuid4())] of the request. *)
Variable execution_id : string.

(** The [try] block that saves one file: the presigned URL it appends to
    [file_urls], if it gets that far. *)
Definition upload (sm : StorageManager) (filename : string)
    (member : TarInfo) : option string :=
  let file_content := data member in
  let saved :=
    file_url <- save_file sm file_content filename execution_id
                  {| meta_size := size_of file_content;
                     original_path := name member |} ;;
    match file_url with
    | Some file_url =>
        if nonempty file_url then
          (* Generate presigned URL with 5-hour expiration *)
          presigned_url <- generate_presigned_url sm file_url 18000 ;;
          Return (Some presigned_url)
        else Return None
    | None => Return None
    end in
  match saved with
  | Return appended => appended
  | Raise _ => None
  end.

(** The body of the loop over [tar.getmembers()]. *)
Definition extract_member (sm : StorageManager) (vars : extraction)
    (member : TarInfo) : flow :=
  (* Skip directories and special files *)
  if negb (isfile member) then Next vars else
  (* Skip hidden files and system files *)
  let filename := path_name (name member) in
  if startswith filename "." then Next vars else
  (* Check file count limit *)
  if file_count vars >=? MAX_FILE_COUNT settings then Break vars else
  (* Check individual file size limit *)
  if size member >? MAX_FILE_SIZE settings then Next vars else
  (* Check total size limit *)
  if total_size vars + size member >? MAX_TOTAL_SIZE settings
  then Break vars else
  (* Extract file content *)
  let file_content := data member in
  (* Skip empty files *)
  if size_of file_content =? 0 then Next vars else
  Next {| total_size := total_size vars + size_of file_content;
          file_count := file_count vars + 1;
          (* Save to storage *)
          file_urls := match upload sm filename member with
                       | Some presigned_url =>
                           file_urls vars ++ [presigned_url]
                       | None => file_urls vars
                       end |}.

Fixpoint extract_members (sm : StorageManager) (vars : extraction)
    (members : list TarInfo) : extraction :=
  match members with
  | [] => vars
  | member :: members' =>
      match extract_member sm vars member with
      | Next vars' => extract_members sm vars' members'
      | Break vars' => vars'
      end
  end.

Definition _extract_and_save_files (container : Container) : list string :=
  match storage_manager with
  | None => []
  | Some sm =>
      (* Skip if storage is not enabled *)
      if negb (is_enabled sm) then [] else
      match get_archive container with
      | Return members =>
          file_urls
            (extract_members sm
               {| total_size := 0; file_count := 0; file_urls := [] |}
               members)
      | Raise _ => []
      end
  end.

Definition truncation_marker (max_size : Z) : string :=
  LF +:+ LF +:+ "[Output truncated - exceeded " +:+ str_int max_size
  +:+ " bytes]".

Definition _truncate_output (output : string) : string :=
  let max_size := MAX_OUTPUT_SIZE settings in
  if len output >? max_size then
    slice_to output max_size +:+ truncation_marker max_size
  else output.

(** [execute(code, timeout)].  The [finally] clause, which removes the
    container, does not change what is returned. *)
Definition execute (code : string) (timeout : Z) : ExecutionResult :=
  let attempt :=
    (* Create and run container *)
    container <- containers_run code ;;
    (* Wait for completion with timeout *)
    status_code <- wait container timeout ;;
    (* Get output *)
    stdout <- logs_stdout container ;;
    stderr <- logs_stderr container ;;
    (* Truncate large outputs *)
    let stdout := _truncate_output stdout in
    let stderr := _truncate_output stderr in
    (* Extract and save files *)
    let file_urls := _extract_and_save_files container in
    Return {| success := true;
              stdout := stdout;
              stderr := stderr;
              exit_code := status_code;
              error := None;
              files := file_urls |} in
  match attempt with
  | Return r => r
  | Raise (ContainerError exit_status msg) =>
      (* Container exited with non-zero code *)
      {| success := false;
         stdout := EmptyString;
         stderr := msg;
         exit_code := exit_status;
         error := Some "Container error";
         files := [] |}
  | Raise e =>
      (* Timeout or other errors *)
      let error_type :=
        if contains "timeout" (lower (str_exn e))
           || contains "timed out" (lower (str_exn e))
        then "Execution timeout" else "Execution failed" in
      {| success := false;
         stdout := EmptyString;
         stderr := str_exn e;
         exit_code := -1;
         error := Some error_type;
         files := [] |}
  end.

End DockerExecutor.

End Docker.

(* ===================================================================== *)
(** * app/executors/factory.py *)
(* ===================================================================== *)

Module Factory.

(** A registered executor class, seen through its constructor call
    [executor_class()]: an instance, or an exception. *)
Definition executor_class := result BaseExecutor.

(** [ExecutorRegistry._registry], a dict in insertion order. *)
Definition registry := list (string * executor_class).

Definition keys (reg : registry) : list string := List.map fst reg.

(** [provider in cls._registry] *)
Definition has_provider (reg : registry) (provider : string) : bool :=
  bool_decide (provider ∈ keys reg).

(** [cls._registry[provider]] for a registered provider. *)
Fixpoint registry_lookup (reg : registry) (provider : string)
  : option executor_class :=
  match reg with
  | [] => None
  | (k, c) :: reg' =>
      if String.eqb k provider then Some c else registry_lookup reg' provider
  end.

(** [cls._registry[provider] = executor_class]: a known key keeps its
    place, a new one goes last. *)
Fixpoint register (provider : string) (c : executor_class) (reg : registry)
  : registry :=
  match reg with
  | [] => [(provider, c)]
  | (k, c') :: reg' =>
      if String.eqb k provider then (k, c) :: reg'
      else (k, c') :: register provider c reg'
  end.

(** [ExecutorRegistry.get(provider)] *)
Definition get (reg : registry) (provider : string) : result executor_class :=
  match registry_lookup reg provider with
  | Some c => Return c
  | None =>
      let available :=
        let joined := join ", " (keys reg) in
        if nonempty joined then joined else "none" in
      Raise (ExecutionError
               ("Unknown executor provider '" +:+ provider +:+ "'. "
                +:+ "Available providers: " +:+ available))
  end.

(** [ExecutorRegistry.list_providers()] *)
Definition list_providers (reg : registry) : list string := sorted (keys reg).

Section ExecutorFactory.

Variable settings : Settings.

(** [ExecutorRegistry._registry]; the factory only reads it. *)
Variable reg : registry.

(** [ExecutorFactory.create_executor(provider)], on the cache
    [ExecutorFactory._instances]. *)
Definition create_executor (provider : option string)
    (_instances : gmap string BaseExecutor)
  : result BaseExecutor * gmap string BaseExecutor :=
  let provider_type :=
    match provider with
    | Some p => if nonempty p then p else EXECUTOR_PROVIDER settings
    | None => EXECUTOR_PROVIDER settings
    end in
  (* Return cached instance if available *)
  match _instances !! provider_type with
  | Some cached => (Return cached, _instances)
  | None =>
      (* Get executor class from registry *)
      match get reg provider_type with
      | Raise e => (Raise e, _instances)
      | Return executor_class =>
          (* Create instance *)
          match executor_class with
          | Return executor =>
              (Return executor, <[provider_type := executor]> _instances)
          | Raise e =>
              (Raise (ExecutionError
                        ("Failed to initialize executor '" +:+ provider_type
                         +:+ "': " +:+ str_exn e)),
               _instances)
          end
      end
  end.

(** [ExecutorFactory._parse_fallback_providers(fallback_config)] for the
    comma-separated string of the settings. *)
Definition _parse_fallback_providers (fallback_config : string)
  : list string :=
  List.map strip
    (List.filter (fun p => nonempty (strip p)) (split "," fallback_config)).

(** [create_executor(provider)] followed by [health_check()], inside one
    [try]: the executor when it could be had and is healthy. *)
Definition try_provider (provider : string)
    (_instances : gmap string BaseExecutor)
  : option BaseExecutor * gmap string BaseExecutor :=
  match create_executor (Some provider) _instances with
  | (Return executor, _instances') =>
      match health_check executor with
      | Return true => (Some executor, _instances')
      | Return false => (None, _instances')
      | Raise _ => (None, _instances')
      end
  | (Raise _, _instances') => (None, _instances')
  end.

(** The loop over the fallback providers. *)
Fixpoint try_fallbacks (primary_provider : string) (providers : list string)
    (_instances : gmap string BaseExecutor)
  : option BaseExecutor * gmap string BaseExecutor :=
  match providers with
  | [] => (None, _instances)
  | provider :: providers' =>
      (* Skip if it's the same as primary (already tried) *)
      if String.eqb provider primary_provider
      then try_fallbacks primary_provider providers' _instances
      (* Skip if provider not registered *)
      else if negb (has_provider reg provider)
      then try_fallbacks primary_provider providers' _instances
      else
        match try_provider provider _instances with
        | (Some executor, _instances') => (Some executor, _instances')
        | (None, _instances') =>
            try_fallbacks primary_provider providers' _instances'
        end
  end.

(** [ExecutorFactory.get_healthy_executor()] *)
Definition get_healthy_executor (_instances : gmap string BaseExecutor)
  : result BaseExecutor * gmap string BaseExecutor :=
  (* Try primary provider *)
  let primary_provider := EXECUTOR_PROVIDER settings in
  match try_provider primary_provider _instances with
  | (Some executor, _instances') => (Return executor, _instances')
  | (None, _instances') =>
      (* Try fallback providers *)
      let fallback_providers :=
        _parse_fallback_providers (EXECUTOR_FALLBACK_PROVIDERS settings) in
      match try_fallbacks primary_provider fallback_providers _instances' with
      | (Some executor, _instances'') => (Return executor, _instances'')
      | (None, _instances'') =>
          (* No healthy executor found *)
          let all_providers := primary_provider :: fallback_providers in
          (Raise (ExecutionError
                    ("No healthy executor available. "
                     +:+ "Tried: " +:+ join ", " all_providers +:+ ". "
                     +:+ "Registered providers: "
                     +:+ join ", " (list_providers reg))),
           _instances'')
      end
  end.

End ExecutorFactory.

End Factory.

(* ===================================================================== *)
(** * firecracker-guest-agent/agent.py *)
(* ===================================================================== *)

Module Agent.

(** A decoded JSON value. *)
Inductive json :=
| JNull
| JBool (b : bool)
| JInt (z : Z)
| JFloat (repr : string)
| JStr (s : string)
| JList (items : list json)
| JDict (items : list (string * json)).

(** [d.get(key, default)] *)
Fixpoint dict_get (d : list (string * json)) (key : string) (default : json)
  : json :=
  match d with
  | [] => default
  | (k, v) :: d' => if String.eqb k key then v else dict_get d' key default
  end.

(** The guest's file system, seen through the [pathlib] calls made. *)
Record FileSystem := {
  exists_ : string -> result bool;
  is_file : string -> result bool;
  read_bytes : string -> result (list Byte.byte);
  (** [[f.name for f in path.iterdir() if f.is_file()]] *)
  iterdir_files : string -> result (list string)
}.

(** What [subprocess.run(..., timeout=timeout)] does. *)
Inductive run_outcome :=
| Completed (returncode : Z) (out err : string)
| TimeoutExpired
| RunFailed (e : exn).

(** One connection: the bytes the host still sends, the bytes sent to
    it, and whether the host still takes them. *)
Record socket := {
  inbox : list Byte.byte;
  outbox : list Byte.byte;
  writable : bool
}.

(** [recv_exact(sock, length)]: [length] bytes, or fewer when the host
    closes before. *)
Definition recv_exact (sock : socket) (length : Z)
  : list Byte.byte * socket :=
  (List.firstn (Z.to_nat length) (inbox sock),
   {| inbox := List.skipn (Z.to_nat length) (inbox sock);
      outbox := outbox sock;
      writable := writable sock |}).

(** [sock.sendall(data)] *)
Definition sendall (sock : socket) (data : list Byte.byte)
  : result unit * socket :=
  if writable sock then
    (Return tt,
     {| inbox := inbox sock;
        outbox := outbox sock ++ data;
        writable := true |})
  else (Raise (OtherError "Broken pipe"), sock).

(** [struct.pack('!I', 0)] *)
Definition zero_length : list Byte.byte :=
  [Byte.x00; Byte.x00; Byte.x00; Byte.x00].

(** The dict [handle_execute] returns. *)
Record execute_response := {
  r_success : bool;
  r_stdout : string;
  r_stderr : string;
  r_exit_code : Z
}.

Definition response_dict (r : execute_response) : json :=
  JDict [("success", JBool (r_success r)); ("stdout", JStr (r_stdout r));
         ("stderr", JStr (r_stderr r)); ("exit_code", JInt (r_exit_code r))].

Section GuestAgent.

(** [json.loads(data.decode('utf-8'))] *)
Variable json_loads : list Byte.byte -> result json.

(** [json.dumps(response).encode('utf-8')] *)
Variable json_dumps : json -> list Byte.byte.

(** [str(v)] of a decoded value, as an f-string prints it. *)
Variable str_value : json -> string.

(** [subprocess.run([sys.executable, '-c', code], timeout=timeout, ...)] *)
Variable subprocess_run : json -> json -> run_outcome.

Variable fs : FileSystem.

(** [send_response(sock, response)] *)
Definition send_response (sock : socket) (response : json)
  : result unit * socket :=
  let response_data := json_dumps response in
  match pack_I (size_of response_data) with
  | Some prefix => sendall sock (prefix ++ response_data)
  | None => (Raise (OtherError "struct.error"), sock)
  end.

Definition handle_execute (request : list (string * json))
  : execute_response :=
  let code := dict_get request "code" (JStr EmptyString) in
  let timeout := dict_get request "timeout" (JInt 30) in
  match subprocess_run code timeout with
  | Completed returncode out err =>
      {| r_success := returncode =? 0;
         r_stdout := out;
         r_stderr := err;
         r_exit_code := returncode |}
  | TimeoutExpired =>
      {| r_success := false;
         r_stdout := EmptyString;
         r_stderr := "Execution timeout after " +:+ str_value timeout
                     +:+ " seconds";
         r_exit_code := -1 |}
  | RunFailed e =>
      {| r_success := false;
         r_stdout := EmptyString;
         r_stderr := str_exn e;
         r_exit_code := -1 |}
  end.

(** [handle_list_files(request)]; [Path(...)] raises on a value that is
    not a str. *)
Definition handle_list_files (request : list (string * json)) : result json :=
  match dict_get request "path" (JStr "/tmp/output") with
  | JStr path =>
      let listing :=
        present <- exists_ fs path ;;
        if negb present then Return [] else iterdir_files fs path in
      match listing with
      | Return files => Return (JDict [("files", JList (List.map JStr files))])
      | Raise e =>
          Return (JDict [("error", JStr (str_exn e)); ("files", JList [])])
      end
  | _ => Raise (OtherError "TypeError")
  end.

(** [handle_get_file(request, sock)].  [Path(...)] is evaluated before the
    [try]; the body of the [try] reads what is to be sent. *)
Definition handle_get_file (request : list (string * json)) (sock : socket)
  : result unit * socket :=
  match dict_get request "path" (JStr EmptyString) with
  | JStr file_path =>
      let message :=
        present <- exists_ fs file_path ;;
        if negb present then Return zero_length else
        regular <- is_file fs file_path ;;
        if negb regular then Return zero_length else
        (* Read and send file content *)
        content <- read_bytes fs file_path ;;
        match pack_I (size_of content) with
        | Some prefix => Return (prefix ++ content)
        | None => Raise (OtherError "struct.error")
        end in
      match message with
      | Return bytes =>
          match sendall sock bytes with
          | (Return _, sock') => (Return tt, sock')
          | (Raise _, sock') => sendall sock' zero_length
          end
      | Raise _ => sendall sock zero_length
      end
  | _ => (Raise (OtherError "TypeError"), sock)
  end.

Definition is_empty (b : list Byte.byte) : bool :=
  match b with [] => true | _ => false end.

(** [handle_request(sock)]: [True] to go on with the connection. *)
Definition handle_request (sock : socket) : bool * socket :=
  (* Receive request length *)
  let '(length_data, sock) := recv_exact sock 4 in
  if is_empty length_data then (false, sock) else
  match unpack_I length_data with
  | None => (false, sock)
  | Some request_length =>
      (* Receive request data *)
      let '(request_data, sock) := recv_exact sock request_length in
      if is_empty request_data then (false, sock) else
      match json_loads request_data with
      | Return (JDict request) =>
          let action := dict_get request "action" (JStr EmptyString) in
          (* Handle different actions *)
          let '(sent, sock) :=
            match action with
            | JStr "execute" =>
                send_response sock (response_dict (handle_execute request))
            | JStr "list_files" =>
                match handle_list_files request with
                | Return response => send_response sock response
                | Raise e => (Raise e, sock)
                end
            | JStr "get_file" => handle_get_file request sock
            | _ =>
                send_response sock
                  (JDict [("error",
                           JStr ("Unknown action: " +:+ str_value action))])
            end in
          match sent with
          | Return _ => (true, sock)
          | Raise _ => (false, sock)
          end
      | Return _ => (false, sock)
      | Raise _ => (false, sock)
      end
  end.

(** The loop [while self.handle_request(conn): pass].  A round that goes
    on has taken bytes from the inbox, so as many rounds as the inbox has
    bytes end the loop. *)
Fixpoint serve (rounds : nat) (conn : socket) : socket :=
  match rounds with
  | O => conn
  | S rounds' =>
      match handle_request conn with
      | (true, conn') => serve rounds' conn'
      | (false, conn') => conn'
      end
  end.

Definition serve_connection (conn : socket) : socket :=
  serve (List.length (inbox conn)) conn.

End GuestAgent.

End Agent.

(* ===================================================================== *)
(** * app/executors/docker.py: the life of the executor *)
(* ===================================================================== *)

Module DockerClient.

(** What [client.images.get(image)] does: the image, [ImageNotFound], or
    another exception. *)
Inductive image_lookup :=
| ImageFound
| ImageNotFound
| ImageError (e : exn).

(** The client [docker.from_env()] returns, seen through the calls made
    on it. *)
Record Client := {
  ping : result unit;
  images_get : string -> image_lookup
}.

(** The attributes of a [DockerExecutor]. *)
Record DockerExecutor := {
  client : Client;
  image : string
}.

Section Life.

(** [settings.DOCKER_IMAGE] *)
Variable DOCKER_IMAGE : string.

(** [docker.from_env()] *)
Variable from_env : result Client.

(** [_verify_image()] *)
Definition _verify_image (client : Client) (image : string) : result unit :=
  match images_get client image with
  | ImageFound => Return tt
  | ImageNotFound =>
      Raise (DockerError
               ("Sandbox image '" +:+ image +:+ "' not found. "
                +:+ "Please build it first: docker build -t " +:+ image
                +:+ " sandbox-image/"))
  | ImageError e => Raise e
  end.

(** [DockerExecutor()] *)
Definition __init__ : result DockerExecutor :=
  let attempt :=
    client <- from_env ;;
    let image := DOCKER_IMAGE in
    _ <- _verify_image client image ;;
    Return {| client := client; image := image |} in
  match attempt with
  | Return self => Return self
  | Raise e =>
      Raise (DockerError
               ("Failed to initialize Docker client: " +:+ str_exn e))
  end.

(** [health_check()] *)
Definition health_check (self : DockerExecutor) : bool :=
  match ping (client self) with
  | Return _ =>
      match images_get (client self) (image self) with
      | ImageFound => true
      | ImageNotFound => false
      | ImageError _ => false
      end
  | Raise _ => false
  end.

(** [get_name()] *)
Definition get_name (self : DockerExecutor) : string := "docker".

(** [get_executor()], on the module variable [_executor_instance]. *)
Definition get_executor (_executor_instance : option DockerExecutor)
  : result DockerExecutor * option DockerExecutor :=
  match _executor_instance with
  | Some instance => (Return instance, Some instance)
  | None =>
      match __init__ with
      | Return instance => (Return instance, Some instance)
      | Raise e => (Raise e, None)
      end
  end.

End Life.

End DockerClient.

(* ===================================================================== *)
(** * app/executors/firecracker.py: the exchange with the guest agent *)
(* ===================================================================== *)

Module Firecracker.

(** How a call on the host's socket ends: it returns, it raises
    [socket.timeout], or it raises something else. *)
Inductive io (A : Type) :=
| Done (a : A)
| SocketTimeout
| Failed (e : exn).
Arguments Done {A} a.
Arguments SocketTimeout {A}.
Arguments Failed {A} e.

Definition io_bind {A B : Type} (r : io A) (k : A -> io B) : io B :=
  match r with
  | Done a => k a
  | SocketTimeout => SocketTimeout
  | Failed e => Failed e
  end.

(** The guest side of the vsock of one VM, seen from the host. *)
Record vsock := {
  (** whether [_wait_for_guest_agent] finds the agent in time *)
  agent_ready : bool;
  (** [sock.connect(vsock_path)] *)
  connect : io unit;
  (** [sock.sendall(data)] on a socket whose timeout is the second
      argument, then the reads: all the guest sends back before the host
      closes the socket, or [socket.timeout] when a read waits longer
      than the timeout allows *)
  exchange : list Byte.byte -> Z -> io (list Byte.byte)
}.

(** The dict [_execute_code_in_vm] returns; [vm_error] is the key
    [error], which only the failures have. *)
Record vm_result := {
  vm_success : Agent.json;
  vm_stdout : Agent.json;
  vm_stderr : Agent.json;
  vm_exit_code : Agent.json;
  vm_error : option string
}.

Section Exchange.

(** [json.dumps(request).encode('utf-8')] and
    [json.loads(data.decode('utf-8'))], on the host. *)
Variable json_dumps : Agent.json -> list Byte.byte.
Variable json_loads : list Byte.byte -> result Agent.json.

(** The exceptions of the library calls, whose [str()] goes into the
    result: what [struct.pack('!I', n)] raises for an [n] out of range,
    what [struct.unpack('!I', b)] raises for a [b] that has not four
    bytes, and what [response.get] raises on a decoded value that is no
    object. *)
Variable pack_error : Z -> exn.
Variable unpack_error : list Byte.byte -> exn.
Variable get_error : Agent.json -> exn.

Variable guest : vsock.

(** [_execute_code_in_vm(vm_id, code, timeout)] *)
Definition _execute_code_in_vm (code : string) (timeout : Z) : vm_result :=
  let attempt :=
    (* Wait for guest agent to be ready *)
    if negb (agent_ready guest)
    then Failed (ExecutionError "Guest agent not ready") else
    (* Connect to vsock *)
    io_bind (connect guest) (fun _ =>
    (* Send execution request *)
    let request :=
      Agent.JDict [("action", Agent.JStr "execute");
                   ("code", Agent.JStr code);
                   ("timeout", Agent.JInt timeout)] in
    let request_data := json_dumps request in
    match pack_I (size_of request_data) with
    | None => Failed (pack_error (size_of request_data))
    | Some prefix =>
        io_bind (exchange guest (prefix ++ request_data) timeout)
          (fun stream =>
        (* Receive response with timeout *)
        let response_length_data := List.firstn 4 stream in
        if Agent.is_empty response_length_data
        then Failed (ExecutionError "Failed to receive response length") else
        match unpack_I response_length_data with
        | None => Failed (unpack_error response_length_data)
        | Some response_length =>
            let response_data :=
              List.firstn (Z.to_nat response_length) (List.skipn 4 stream) in
            if Agent.is_empty response_data
            then Failed (ExecutionError "Failed to receive response data")
            else
              match json_loads response_data with
              | Return (Agent.JDict response) =>
                  Done {| vm_success :=
                            Agent.dict_get response "success"
                              (Agent.JBool false);
                          vm_stdout :=
                            Agent.dict_get response "stdout"
                              (Agent.JStr EmptyString);
                          vm_stderr :=
                            Agent.dict_get response "stderr"
                              (Agent.JStr EmptyString);
                          vm_exit_code :=
                            Agent.dict_get response "exit_code"
                              (Agent.JInt (-1));
                          vm_error := None |}
              | Return value => Failed (get_error value)
              | Raise e => Failed e
              end
        end)
    end) in
  match attempt with
  | Done r => r
  | SocketTimeout =>
      {| vm_success := Agent.JBool false;
         vm_stdout := Agent.JStr EmptyString;
         vm_stderr :=
           Agent.JStr ("Execution timeout after " +:+ str_int timeout
                       +:+ " seconds");
         vm_exit_code := Agent.JInt (-1);
         vm_error := Some "Execution timeout" |}
  | Failed e =>
      {| vm_success := Agent.JBool false;
         vm_stdout := Agent.JStr EmptyString;
         vm_stderr := Agent.JStr (str_exn e);
         vm_exit_code := Agent.JInt (-1);
         vm_error := Some ("Code execution failed: " +:+ str_exn e) |}
  end.

End Exchange.

End Firecracker.

(* ===================================================================== *)
(** * app/storage/r2.py: the R2 storage provider *)
(* ===================================================================== *)

Module R2.

(** [s.lstrip(c)], [s.rstrip(c)] and [s.strip(c)] for one character. *)
Fixpoint lstrip_char (c : ascii) (s : string) : string :=
  match s with
  | String a s' => if Ascii.eqb a c then lstrip_char c s' else s
  | EmptyString => EmptyString
  end.

Fixpoint rstrip_char (c : ascii) (s : string) : string :=
  match s with
  | String a s' =>
      match rstrip_char c s' with
      | EmptyString =>
          if Ascii.eqb a c then EmptyString else String a EmptyString
      | r => String a r
      end
  | EmptyString => EmptyString
  end.

Definition strip_char (c : ascii) (s : string) : string :=
  rstrip_char c (lstrip_char c s).

(** [s[n:]] *)
Fixpoint drop (n : nat) (s : string) : string :=
  match n, s with
  | O, _ => s
  | S n', String _ s' => drop n' s'
  | S _, EmptyString => EmptyString
  end.

Definition slice_from (s : string) (n : Z) : string :=
  if 0 <=? n then drop (Z.to_nat n) s
  else drop (Z.to_nat (len s + n)) s.

(** [s.split(c, 1)] for a one-character separator. *)
Fixpoint split_once (c : ascii) (s : string) : list string :=
  match s with
  | EmptyString => [EmptyString]
  | String a s' =>
      if Ascii.eqb a c then [EmptyString; s']
      else match split_once c s' with
           | h :: t => String a h :: t
           | [] => [String a EmptyString]
           end
  end.

(** [s.replace(c, d)] for one-character strings. *)
Fixpoint replace_char (c d : ascii) (s : string) : string :=
  match s with
  | EmptyString => EmptyString
  | String a s' =>
      String (if Ascii.eqb a c then d else a) (replace_char c d s')
  end.

(** [d[key] = value] on a dict of strings, in insertion order. *)
Fixpoint dict_set (d : list (string * string)) (key value : string)
  : list (string * string) :=
  match d with
  | [] => [(key, value)]
  | (k, v) :: d' =>
      if String.eqb k key then (k, value) :: d'
      else (k, v) :: dict_set d' key value
  end.

(** The double quote. *)
Definition quote : string := String (ascii_of_nat 34) EmptyString.

(** The S3 client of boto3, seen through the calls made on it:
    [put_object(Bucket, Key, Body, Metadata)],
    [delete_object(Bucket, Key)] and
    [generate_presigned_url('get_object', Params={Bucket, Key,
    ResponseContentDisposition}, ExpiresIn)]. *)
Record S3Client := {
  put_object :
    string -> string -> list Byte.byte -> list (string * string)
    -> result unit;
  delete_object : string -> string -> result unit;
  s3_generate_presigned_url :
    string -> string -> string -> Z -> result string
}.

(** What [import boto3] followed by [boto3.client('s3', ...)] does. *)
Inductive boto3_outcome :=
| Boto3Client (c : S3Client)
| Boto3ImportError
| Boto3Error (e : exn).

(** The attributes of an [R2StorageProvider]. *)
Record R2StorageProvider := {
  bucket_name : string;
  account_id : string;
  prefix : string;
  public_url : option string;
  s3_client : S3Client
}.

Section Provider.

(** [boto3.client('s3', endpoint_url=..., aws_access_key_id=...,
    aws_secret_access_key=..., region_name='auto')] *)
Variable boto3_client : string -> string -> string -> boto3_outcome.

(** [datetime.utcnow().isoformat()] *)
Variable utcnow : string.

(** [R2StorageProvider(bucket_name, account_id, access_key_id,
    secret_access_key, prefix, public_url)] *)
Definition __init__ (bucket_name account_id access_key_id
    secret_access_key prefix : string) (public_url : option string)
  : result R2StorageProvider :=
  let prefix := strip_char "/" prefix in
  let public_url :=
    match public_url with
    | Some url => if nonempty url then Some (rstrip_char "/" url) else None
    | None => None
    end in
  (* R2 endpoint URL *)
  let endpoint_url :=
    "https://" +:+ account_id +:+ ".r2.cloudflarestorage.com" in
  (* Initialize S3 client for R2 *)
  match boto3_client endpoint_url access_key_id secret_access_key with
  | Boto3Client c =>
      Return {| bucket_name := bucket_name;
                account_id := account_id;
                prefix := prefix;
                public_url := public_url;
                s3_client := c |}
  | Boto3ImportError =>
      Raise (ExecutionError
               ("boto3 is required for R2 storage. "
                +:+ "Install with: pip install boto3"))
  | Boto3Error e =>
      Raise (ExecutionError
               ("Failed to initialize R2 client: " +:+ str_exn e))
  end.

(** [_get_s3_key(execution_id, filename)] *)
Definition _get_s3_key (self : R2StorageProvider)
    (execution_id filename : string) : string :=
  prefix self +:+ "/executions/" +:+ execution_id +:+ "/" +:+ filename.

(** [_get_public_url(key)] *)
Definition _get_public_url (self : R2StorageProvider) (key : string)
  : option string :=
  match public_url self with
  | Some url => if nonempty url then Some (url +:+ "/" +:+ key) else None
  | None => None
  end.

(** [save_file(file_content, filename, execution_id, metadata)]; the
    values of [metadata] are given by their [str()]. *)
Definition save_file (self : R2StorageProvider)
    (file_content : list Byte.byte) (filename execution_id : string)
    (metadata : option (list (string * string))) : result string :=
  let r2_key := _get_s3_key self execution_id filename in
  (* Prepare metadata *)
  let r2_metadata :=
    [("execution-id", execution_id); ("saved-at", utcnow)] in
  let r2_metadata :=
    match metadata with
    | Some items =>
        List.fold_left
          (fun d item =>
             let safe_key := replace_char "_" "-" (lower (fst item)) in
             dict_set d safe_key (snd item))
          items r2_metadata
    | None => r2_metadata
    end in
  (* Upload file *)
  match put_object (s3_client self) (bucket_name self) r2_key file_content
          r2_metadata with
  | Return _ =>
      (* Return public URL if available, otherwise R2 URI *)
      match _get_public_url self r2_key with
      | Some url =>
          if nonempty url then Return url
          else Return ("r2://" +:+ bucket_name self +:+ "/" +:+ r2_key)
      | None => Return ("r2://" +:+ bucket_name self +:+ "/" +:+ r2_key)
      end
  | Raise e =>
      Raise (ExecutionError ("Failed to save file to R2: " +:+ str_exn e))
  end.

(** The block [delete_file] and [generate_presigned_url] both start
    with: the bucket and the key of an r2:// URI, of a public URL or of a
    plain key; [None] where the source leaves the block, for a public URL
    it cannot parse. *)
Definition locate (self : R2StorageProvider) (file_path : string)
  : option (string * string) :=
  if startswith file_path "r2://" then
    (* Parse r2://bucket/key *)
    let parts := split_once "/" (slice_from file_path 5) in
    let bucket := List.nth 0 parts EmptyString in
    let key :=
      if size_of parts >? 1 then List.nth 1 parts EmptyString
      else EmptyString in
    Some (bucket, key)
  else if startswith file_path "http://" || startswith file_path "https://"
  then
    (* Extract key from public URL *)
    match public_url self with
    | Some url =>
        if nonempty url && startswith file_path url then
          let key := lstrip_char "/" (slice_from file_path (len url)) in
          Some (bucket_name self, key)
        else None
    | None => None
    end
  else Some (bucket_name self, file_path).

(** [delete_file(file_path)] *)
Definition delete_file (self : R2StorageProvider) (file_path : string)
  : bool :=
  match locate self file_path with
  | Some (bucket, key) =>
      match delete_object (s3_client self) bucket key with
      | Return _ => true
      | Raise _ => false
      end
  | None => false
  end.

(** [generate_presigned_url(file_path, expiration)] *)
Definition generate_presigned_url (self : R2StorageProvider)
    (file_path : string) (expiration : Z) : result string :=
  let attempt :=
    match locate self file_path with
    | Some (bucket, key) =>
        (* Extract filename from key for Content-Disposition header *)
        let filename := List.last (split "/" key) EmptyString in
        s3_generate_presigned_url (s3_client self) bucket key
          ("attachment; filename=" +:+ quote +:+ filename +:+ quote)
          expiration
    | None =>
        Raise (ExecutionError ("Cannot parse public URL: " +:+ file_path))
    end in
  match attempt with
  | Return presigned_url => Return presigned_url
  | Raise e =>
      Raise (ExecutionError
               ("Failed to generate presigned URL: " +:+ str_exn e))
  end.

(** [get_provider_name()] *)
Definition get_provider_name (self : R2StorageProvider) : string := "r2".

End Provider.

End R2.

(* ===================================================================== *)
(** * app/storage/manager.py: the storage manager *)
(* ===================================================================== *)

Module Storage.

(** A [StorageManager]: its provider, [None] when storage is disabled. *)
Record StorageManager := { provider : option R2.R2StorageProvider }.

Section Manager.

(** [datetime.utcnow().isoformat()] *)
Variable utcnow : string.

(** [is_enabled()] *)
Definition is_enabled (self : StorageManager) : bool :=
  match provider self with Some _ => true | None => false end.

(** [save_file(file_content, filename, execution_id, **kwargs)] *)
Definition save_file (self : StorageManager) (file_content : list Byte.byte)
    (filename execution_id : string)
    (metadata : option (list (string * string)))
  : result (option string) :=
  match provider self with
  | None => Return None
  | Some p =>
      url <- R2.save_file utcnow p file_content filename execution_id
               metadata ;;
      Return (Some url)
  end.

(** [delete_file(file_path)] *)
Definition delete_file (self : StorageManager) (file_path : string)
  : bool :=
  match provider self with
  | None => false
  | Some p => R2.delete_file p file_path
  end.

(** [generate_presigned_url(file_path, expiration)] *)
Definition generate_presigned_url (self : StorageManager)
    (file_path : string) (expiration : Z) : result string :=
  match provider self with
  | None => Raise (ExecutionError "Storage is disabled")
  | Some p => R2.generate_presigned_url p file_path expiration
  end.

(** The manager as the Docker executor calls it, with the metadata
    [{'size': ..., 'original_path': ...}] the executor passes. *)
Definition for_executor (self : StorageManager) : Docker.StorageManager :=
  {| Docker.is_enabled := is_enabled self;
     Docker.save_file := fun file_content filename execution_id metadata =>
       save_file self file_content filename execution_id
         (Some [("size", str_int (Docker.meta_size metadata));
                ("original_path", Docker.original_path metadata)]);
     Docker.generate_presigned_url := generate_presigned_url self |}.

End Manager.

End Storage.

(* ===================================================================== *)
(** * The specification's wording, as definitions *)
(* ===================================================================== *)

Module Spec.

Definition sum_Z (l : list Z) : Z := fold_right Z.add 0 l.

(** Section 4.1, step 5: one for each conditional, loop or
    exception-handler node, [branches - 1] for each boolean-operator chain,
    the generator count for each comprehension. *)
Definition decision_points (n : node) : Z :=
  match n with
  | If _ _ _ => 1
  | While _ _ _ => 1
  | For _ _ _ _ => 1
  | ExceptHandler _ _ _ => 1
  | BoolOp _ branches => Z.of_nat (List.length branches) - 1
  | ListComp _ generators => Z.of_nat (List.length generators)
  | SetComp _ generators => Z.of_nat (List.length generators)
  | DictComp _ _ generators => Z.of_nat (List.length generators)
  | _ => 0
  end.

(** "Start at 1", then add the decision points of every node of the tree. *)
Definition cyclomatic_complexity (tree : node) : Z :=
  1 + sum_Z (List.map decision_points (descendants tree)).

(** The modules an import statement refers to: one per alias of
    [import a, b], the one of [from m import x]. *)
Definition import_references (n : node) : list string :=
  match n with
  | Import names => List.map alias_name names
  | ImportFrom (Some module) _ _ => if nonempty module then [module] else []
  | _ => []
  end.

(** Section 4.1, step 3: the references whose top-level name is in the
    forbidden set, gathered over the whole tree. *)
Definition forbidden_references (settings : Settings) (tree : node)
  : list string :=
  List.filter
    (fun name => bool_decide (top_level name ∈ FORBIDDEN_IMPORTS settings))
    (List.flat_map import_references (descendants tree)).

(** An entry of the message list that reports a forbidden import, a
    warning, an exceeded complexity. *)
Definition is_forbidden_import_error (err : string) : bool :=
  startswith err "Forbidden import: ".

Definition is_warning (err : string) : bool := startswith err "Warning:".

Definition is_complexity_error (err : string) : bool :=
  startswith err "Code complexity ".

(** The messages of [validate], by name. *)
Definition complexity_message (settings : Settings) (complexity : Z)
  : string :=
  "Code complexity " +:+ str_int complexity +:+ " exceeds maximum "
  +:+ str_int (MAX_COMPLEXITY settings).

Definition warning_messages (tree : node) : list string :=
  List.map (fun w => "Warning: " +:+ w) (_check_patterns tree).

Definition forbidden_messages (found : list string) : list string :=
  List.map (fun imp => "Forbidden import: " +:+ imp) found.

(** One of the steps 1 to 3 stops [validate]: the submission is too long,
    or does not parse, or has a forbidden import. *)
Definition stopped_early (settings : Settings)
    (ast_parse : string -> parse_outcome) (code : string) : Prop :=
  len code > MAX_CODE_LENGTH settings
  \/ (len code <= MAX_CODE_LENGTH settings
      /\ forall tree, ast_parse code <> Parsed tree)
  \/ (len code <= MAX_CODE_LENGTH settings
      /\ exists tree, ast_parse code = Parsed tree
                      /\ _check_imports settings tree <> []).

(** An import node, and one that is a relative import ([level >= 1]). *)
Definition is_import (n : node) : bool :=
  match n with
  | Import _ | ImportFrom _ _ _ => true
  | _ => false
  end.

Definition is_relative_import (n : node) : bool :=
  match n with
  | ImportFrom _ _ level => 1 <=? level
  | _ => false
  end.

(** An import-from node that carries no module name. *)
Definition is_bare_import_from (n : node) : bool :=
  match n with
  | ImportFrom None _ _ => true
  | _ => false
  end.

(** Section 4.3.1: the entries bounded extraction skips are directories
    (and other entries that are not regular files), dotfiles, entries over
    the per-file ceiling and zero-byte entries. *)
Definition skipped (settings : Settings) (member : Docker.TarInfo) : bool :=
  negb (Docker.isfile member)
  || startswith (Docker.path_name (Docker.name member)) "."
  || (Docker.size member >? MAX_FILE_SIZE settings)
  || (Docker.size member =? 0).

(** The sizes of some entries, together. *)
Definition cumulative_size (members : list Docker.TarInfo) : Z :=
  sum_Z (List.map Docker.size members).

(** The URL the storage collaborator hands out for an entry, if it takes
    the entry. *)
Definition url_of (execution_id : string) (sm : Docker.StorageManager)
    (member : Docker.TarInfo) : option string :=
  Docker.upload execution_id sm
    (Docker.path_name (Docker.name member)) member.


Definition urls_of (execution_id : string) (sm : Docker.StorageManager)
    (members : list Docker.TarInfo) : list string :=
  List.flat_map
    (fun m => match url_of execution_id sm m with
              | Some url => [url]
              | None => []
              end)
    members.


(** Section 4.2: the instance [create] has for a provider, the cached one
    or the one the registered class builds. *)
Definition resolve (settings : Settings) (reg : Factory.registry)
    (cache : gmap string BaseExecutor) (provider : string)
  : result BaseExecutor :=
  fst (Factory.create_executor settings reg (Some provider) cache).

(** A provider "both constructs and reports healthy". *)
Definition usable (settings : Settings) (reg : Factory.registry)
    (cache : gmap string BaseExecutor) (provider : string)
  : option BaseExecutor :=
  match resolve settings reg cache provider with
  | Return executor =>
      match health_check executor with
      | Return true => Some executor
      | _ => None
      end
  | Raise _ => None
  end.

(** A fallback that is tried and found good: not the primary, registered,
    usable. *)
Definition eligible (settings : Settings) (reg : Factory.registry)
    (cache : gmap string BaseExecutor) (primary provider : string) : bool :=
  negb (String.eqb provider primary)
  && Factory.has_provider reg provider
  && match usable settings reg cache provider with
     | Some _ => true
     | None => false
     end.

(** The key [create_executor] works with. *)
Definition provider_key (settings : Settings) (provider : string) : string :=
  if nonempty provider then provider else EXECUTOR_PROVIDER settings.

(** Two caches that have the same instances to offer. *)
Definition same_offer (settings : Settings) (reg : Factory.registry)
    (cache cache' : gmap string BaseExecutor) : Prop :=
  forall p, resolve settings reg cache' p = resolve settings reg cache p.

(** Section 4.4.1: the bytes of the file a [get_file] request asks for,
    unless the path is "absent or unreadable". *)
Definition file_content (fs : Agent.FileSystem) (path : string)
  : option (list Byte.byte) :=
  match Agent.exists_ fs path with
  | Return true =>
      match Agent.is_file fs path with
      | Return true =>
          match Agent.read_bytes fs path with
          | Return content => Some content
          | Raise _ => None
          end
      | _ => None
      end
  | _ => None
  end.

(** A socket after the agent took a request off it and sent [reply]. *)
Definition answered (sock : Agent.socket) (rest reply : list Byte.byte)
  : Agent.socket :=
  {| Agent.inbox := rest;
     Agent.outbox := Agent.outbox sock ++ reply;
     Agent.writable := true |}.

(** The error that enumerates the providers tried and those registered. *)
Definition exhausted_error (tried registered : list string) : exn :=
  ExecutionError
    ("No healthy executor available. Tried: " +:+ join ", " tried
     +:+ ". Registered providers: " +:+ join ", " registered).

End Spec.

Export Spec.

(* ===================================================================== *)
(** * Sample submissions, with the trees [ast.parse] builds for them *)
(* ===================================================================== *)

Module Samples.

Definition load : node := Other "Load" [].
Definition pass : node := Other "Pass" [].
Definition plain (name : string) : alias :=
  {| alias_name := name; asname := None |}.

(** [import os] followed by [while True: pass]. *)
Definition import_then_loop_code : string :=
  "import os" +:+ LF +:+ "while True:" +:+ LF +:+ "    pass".

Definition import_then_loop_tree : node :=
  Module [Import [plain "os"];
          While (Constant (CBool true)) [pass] []] [].

(** [import os], twice. *)
Definition import_twice_code : string := "import os" +:+ LF +:+ "import os".

Definition import_twice_tree : node :=
  Module [Import [plain "os"]; Import [plain "os"]] [].

(** [import os] followed by a comment of 50000 characters. *)
Definition long_import_code : string :=
  "import os" +:+ LF
  +:+ String.concat EmptyString (List.repeat "#" (Z.to_nat 50000)).

Definition long_import_tree : node := Module [Import [plain "os"]] [].

(** [import os] followed by a chain of 22 operands joined by [or]. *)
Definition import_then_chain_code : string :=
  "import os" +:+ LF +:+ String.concat " or " (List.repeat "a" 22).

Definition import_then_chain_tree : node :=
  Module [Import [plain "os"];
          Other "Expr"
            [BoolOp (Other "Or" []) (List.repeat (Name "a" load) 22)]] [].

(** [from .os import path], a relative import that names a module. *)
Definition relative_os_code : string := "from .os import path".

Definition relative_os_tree : node :=
  Module [ImportFrom (Some "os") [plain "path"] 1] [].

(** [from . import os], a relative import without a module name. *)
Definition bare_relative_code : string := "from . import os".

Definition bare_relative_tree : node :=
  Module [ImportFrom None [plain "os"] 1] [].

(** [while True: pass] on its own. *)
Definition loop_code : string := "while True:" +:+ LF +:+ "    pass".

Definition loop_tree : node :=
  Module [While (Constant (CBool true)) [pass] []] [].

(** [import os] followed by [os.system('ls')]. *)
Definition os_system_code : string :=
  "import os" +:+ LF +:+ "os.system('ls')".

Definition os_system_tree : node :=
  Module [Import [plain "os"];
          Other "Expr"
            [Call (Other "Attribute" [Name "os" load; load])
               [Constant (CStr "ls")] []]] [].

(** A backend that runs nothing, and a service that has not yet built
    its executor. *)
Definition idle_executor : BaseExecutor :=
  {| instance := 0%nat;
     get_name := "docker";
     execute := fun _ _ => Raise (ExecutionError "not started");
     health_check := Return true |}.

Definition fresh_service : Service.state :=
  {| Service._executor := None; Service.backend_calls := [] |}.

(** The double quote. *)
Definition DQ : string := String (ascii_of_nat 34) EmptyString.

(** What the interpreter prints on stderr for [print(undefined_name)]. *)
Definition name_error_stderr : string :=
  "Traceback (most recent call last):" +:+ LF
  +:+ "  File " +:+ DQ +:+ "<string>" +:+ DQ +:+ ", line 1, in <module>"
  +:+ LF
  +:+ "NameError: name 'undefined_name' is not defined" +:+ LF.

(** The container of [print(undefined_name)]: it starts, exits with
    status 1 and has the traceback on stderr; it wrote no file. *)
Definition name_error_container : Docker.Container :=
  {| Docker.wait := fun _ => Return 1;
     Docker.logs_stdout := Return EmptyString;
     Docker.logs_stderr := Return name_error_stderr;
     Docker.get_archive := Raise (OtherError "404 Client Error: Not Found") |}.

(** A storage manager that takes every file. *)
Definition open_storage : Docker.StorageManager :=
  {| Docker.is_enabled := true;
     Docker.save_file := fun _ filename execution_id _ =>
       Return (Some (execution_id +:+ "/" +:+ filename));
     Docker.generate_presigned_url := fun file_path _ =>
       Return ("https://r2.example/" +:+ file_path) |}.

(** A one-byte regular file of the output directory. *)
Definition small_file (filename : string) : Docker.TarInfo :=
  {| Docker.name := "output/" +:+ filename;
     Docker.isfile := true;
     Docker.data := [Byte.x61] |}.

(** Thirteen of them: [MAX_FILE_COUNT + 3] under the default settings. *)
Definition thirteen_files : list Docker.TarInfo :=
  List.map small_file
    ["a.txt"; "b.txt"; "c.txt"; "d.txt"; "e.txt"; "f.txt"; "g.txt";
     "h.txt"; "i.txt"; "j.txt"; "k.txt"; "l.txt"; "m.txt"].

Definition thirteen_files_container : Docker.Container :=
  {| Docker.wait := fun _ => Return 0;
     Docker.logs_stdout := Return EmptyString;
     Docker.logs_stderr := Return EmptyString;
     Docker.get_archive := Return thirteen_files |}.

(** Two providers: a primary whose health check fails and a fallback
    whose health check succeeds. *)
Definition unhealthy_docker : BaseExecutor :=
  {| instance := 1%nat;
     get_name := "docker";
     execute := fun _ _ => Raise (ExecutionError "docker is down");
     health_check := Return false |}.

Definition healthy_firecracker : BaseExecutor :=
  {| instance := 2%nat;
     get_name := "firecracker";
     execute := fun _ _ => Raise (ExecutionError "not started");
     health_check := Return true |}.

Definition two_providers : Factory.registry :=
  Factory.register "firecracker" (Return healthy_firecracker)
    (Factory.register "docker" (Return unhealthy_docker) []).

Definition fallback_settings : Settings :=
  {| FORBIDDEN_IMPORTS := FORBIDDEN_IMPORTS default_settings;
     MAX_CODE_LENGTH := 50000;
     MAX_COMPLEXITY := 20;
     MAX_OUTPUT_SIZE := 10240;
     MAX_FILE_SIZE := 10485760;
     MAX_TOTAL_SIZE := 52428800;
     MAX_FILE_COUNT := 10;
     EXECUTOR_PROVIDER := "docker";
     EXECUTOR_FALLBACK_PROVIDERS := "docker, gvisor, firecracker" |}.

(** A guest file system with one file, [/tmp/output/plot.png]. *)
Definition plot_bytes : list Byte.byte :=
  [Byte.x89; Byte.x50; Byte.x4e; Byte.x47; Byte.x0d; Byte.x0a].

Definition guest_fs : Agent.FileSystem :=
  {| Agent.exists_ := fun path =>
       Return (String.eqb path "/tmp/output/plot.png"
               || String.eqb path "/tmp/output");
     Agent.is_file := fun path =>
       Return (String.eqb path "/tmp/output/plot.png");
     Agent.read_bytes := fun path =>
       if String.eqb path "/tmp/output/plot.png" then Return plot_bytes
       else Raise (OtherError "No such file or directory");
     Agent.iterdir_files := fun path =>
       if String.eqb path "/tmp/output" then Return ["plot.png"]
       else Raise (OtherError "No such file or directory") |}.

(** A [get_file] request for [path], as the host frames it. *)
Definition get_file_request (path : string) : list (string * Agent.json) :=
  [("action", Agent.JStr "get_file"); ("path", Agent.JStr path)].

Definition get_file_body (path : string) : list Byte.byte :=
  String.list_byte_of_string
    ("{" +:+ DQ +:+ "action" +:+ DQ +:+ ": " +:+ DQ +:+ "get_file" +:+ DQ
     +:+ ", " +:+ DQ +:+ "path" +:+ DQ +:+ ": " +:+ DQ +:+ path +:+ DQ
     +:+ "}").

Definition get_file_frame (path : string) : list Byte.byte :=
  match pack_I (size_of (get_file_body path)) with
  | Some header => header ++ get_file_body path
  | None => []
  end.

(** [json.loads], for a connection on which every request is a
    [get_file] for [path]. *)
Definition loads_as (path : string) : list Byte.byte -> result Agent.json :=
  fun _ => Return (Agent.JDict (get_file_request path)).

(** A connection on which the host asks for a missing file. *)
Definition missing_file_connection : Agent.socket :=
  {| Agent.inbox := get_file_frame "/tmp/output/none.txt";
     Agent.outbox := [];
     Agent.writable := true |}.

(** A connection on which the host asks for the file there is. *)
Definition plot_connection : Agent.socket :=
  {| Agent.inbox := get_file_frame "/tmp/output/plot.png";
     Agent.outbox := [];
     Agent.writable := true |}.

(** [ast.parse], for a submission whose tree is [tree]. *)
Definition parse_as (tree : node) : string -> parse_outcome :=
  fun _ => Parsed tree.

End Samples.

(* ===================================================================== *)
(** * Further wording of the code's comments and docstrings *)
(* ===================================================================== *)

Module Notes.

(** "Detect infinite loops", "Detect exec/eval usage": what one node is
    warned about, if anything. *)
Definition is_while_true (n : node) : bool :=
  match n with
  | While (Constant (CBool true)) _ _ => true
  | _ => false
  end.

Definition dangerous_call (n : node) : option string :=
  match n with
  | Call (Name id _) _ _ =>
      if bool_decide (id ∈ dangerous_builtins) then Some id else None
  | _ => None
  end.

Definition advisory (n : node) : list string :=
  (if is_while_true n
   then ["Potential infinite loop detected (while True)"] else [])
  ++ match dangerous_call n with
     | Some id => ["Dangerous builtin usage: " +:+ id]
     | None => []
     end.

(** The complexity a subtree adds to the tree it is in: its own, less the
    base complexity 1. *)
Definition added_complexity (n : node) : Z := _calculate_complexity n - 1.

End Notes.

Export Notes.

Module FactoryNotes.

(** Every cached instance belongs to a registered provider. *)
Definition cache_registered (reg : Factory.registry)
    (cache : gmap string BaseExecutor) : Prop :=
  forall provider executor,
    cache !! provider = Some executor ->
    Factory.has_provider reg provider = true.

(** A provider name as one writes it in the setting: not empty, no space
    around it, no comma in it. *)
Definition clean_name (name : string) : bool :=
  nonempty name && String.eqb (strip name) name && negb (contains "," name).

End FactoryNotes.

Export FactoryNotes.

Module AgentNotes.

(** [action == name] for a decoded value. *)
Definition is_action (action : Agent.json) (name : string) : bool :=
  match action with
  | Agent.JStr s => String.eqb s name
  | _ => false
  end.

(** A message as both sides frame it: the length of the body in four
    bytes, then the body. *)
Definition framed (header body : list Byte.byte) : Prop :=
  List.length header = 4%nat
  /\ unpack_I header = Some (size_of body)
  /\ body <> [].

(** The bytes that answer a [get_file] for a path. *)
Definition get_file_reply (fs : Agent.FileSystem) (path : string)
  : list Byte.byte :=
  match file_content fs path with
  | Some content =>
      match pack_I (size_of content) with
      | Some prefix => prefix ++ content
      | None => Agent.zero_length
      end
  | None => Agent.zero_length
  end.

(** A [get_file] request for [path], framed. *)
Record get_file_message := {
  msg_header : list Byte.byte;
  msg_body : list Byte.byte;
  msg_request : list (string * Agent.json);
  msg_path : string
}.

Definition msg_bytes (m : get_file_message) : list Byte.byte :=
  msg_header m ++ msg_body m.

Definition well_formed (json_loads : list Byte.byte -> result Agent.json)
    (m : get_file_message) : Prop :=
  framed (msg_header m) (msg_body m)
  /\ json_loads (msg_body m) = Return (Agent.JDict (msg_request m))
  /\ Agent.dict_get (msg_request m) "action" (Agent.JStr EmptyString)
     = Agent.JStr "get_file"
  /\ Agent.dict_get (msg_request m) "path" (Agent.JStr EmptyString)
     = Agent.JStr (msg_path m).

(** The socket once a frame is taken off it. *)
Definition after_frame (sock : Agent.socket) (rest : list Byte.byte)
  : Agent.socket :=
  {| Agent.inbox := rest;
     Agent.outbox := Agent.outbox sock;
     Agent.writable := Agent.writable sock |}.

(** What the handlers of a decoded request do on the socket: the chain
    of [if action == ...] of [handle_request]. *)
Definition dispatch (json_dumps : Agent.json -> list Byte.byte)
    (str_value : Agent.json -> string)
    (subprocess_run : Agent.json -> Agent.json -> Agent.run_outcome)
    (fs : Agent.FileSystem) (request : list (string * Agent.json))
    (conn : Agent.socket) : result unit * Agent.socket :=
  let action :=
    Agent.dict_get request "action" (Agent.JStr EmptyString) in
  if is_action action "execute" then
    Agent.send_response json_dumps conn
      (Agent.response_dict
         (Agent.handle_execute str_value subprocess_run request))
  else if is_action action "list_files" then
    match Agent.handle_list_files fs request with
    | Return response => Agent.send_response json_dumps conn response
    | Raise e => (Raise e, conn)
    end
  else if is_action action "get_file" then
    Agent.handle_get_file fs request conn
  else
    Agent.send_response json_dumps conn
      (Agent.JDict
         [("error", Agent.JStr ("Unknown action: " +:+ str_value action))]).

(** Sending leaves the inbox alone and only adds to the outbox. *)
Definition extends (conn sock' : Agent.socket) : Prop :=
  Agent.inbox sock' = Agent.inbox conn
  /\ exists sent, Agent.outbox sock' = Agent.outbox conn ++ sent.

End AgentNotes.

Export AgentNotes.

Module HostNotes.

(** The vsock of a VM whose guest runs the agent: the agent is ready,
    and answers what is sent by serving it as one connection.  [elapsed]
    is the time, in seconds, from the moment the host starts to read to
    the moment the agent's answer is there: the host's read gets the
    answer when that is less than the timeout of its socket, and raises
    [socket.timeout] otherwise. *)
Definition agent_vsock (json_loads : list Byte.byte -> result Agent.json)
    (json_dumps : Agent.json -> list Byte.byte)
    (str_value : Agent.json -> string)
    (subprocess_run : Agent.json -> Agent.json -> Agent.run_outcome)
    (fs : Agent.FileSystem) (elapsed : Z) : Firecracker.vsock :=
  {| Firecracker.agent_ready := true;
     Firecracker.connect := Firecracker.Done tt;
     Firecracker.exchange := fun data timeout =>
       if elapsed <? timeout then
         Firecracker.Done
           (Agent.outbox
              (Agent.serve_connection json_loads json_dumps str_value
                 subprocess_run fs
                 {| Agent.inbox := data;
                    Agent.outbox := [];
                    Agent.writable := true |}))
       else Firecracker.SocketTimeout |}.

(** The request the host sends for a code and a timeout. *)
Definition execute_request (code : string) (timeout : Z)
  : list (string * Agent.json) :=
  [("action", Agent.JStr "execute"); ("code", Agent.JStr code);
   ("timeout", Agent.JInt timeout)].

(** The result for a reply object: its four fields, or the defaults for
    those it lacks, and no [error] key. *)
Definition reply_of (response : list (string * Agent.json))
  : Firecracker.vm_result :=
  {| Firecracker.vm_success :=
       Agent.dict_get response "success" (Agent.JBool false);
     Firecracker.vm_stdout :=
       Agent.dict_get response "stdout" (Agent.JStr EmptyString);
     Firecracker.vm_stderr :=
       Agent.dict_get response "stderr" (Agent.JStr EmptyString);
     Firecracker.vm_exit_code :=
       Agent.dict_get response "exit_code" (Agent.JInt (-1));
     Firecracker.vm_error := None |}.

(** The result of an exchange that ran out of time. *)
Definition timed_out (timeout : Z) : Firecracker.vm_result :=
  {| Firecracker.vm_success := Agent.JBool false;
     Firecracker.vm_stdout := Agent.JStr EmptyString;
     Firecracker.vm_stderr :=
       Agent.JStr ("Execution timeout after " +:+ str_int timeout
                   +:+ " seconds");
     Firecracker.vm_exit_code := Agent.JInt (-1);
     Firecracker.vm_error := Some "Execution timeout" |}.

(** The result of an exchange that failed for a reason. *)
Definition failed_for (reason : string) : Firecracker.vm_result :=
  {| Firecracker.vm_success := Agent.JBool false;
     Firecracker.vm_stdout := Agent.JStr EmptyString;
     Firecracker.vm_stderr := Agent.JStr reason;
     Firecracker.vm_exit_code := Agent.JInt (-1);
     Firecracker.vm_error := Some ("Code execution failed: " +:+ reason) |}.

(** The frame of the request the host sends. *)
Definition request_frame (json_dumps : Agent.json -> list Byte.byte)
    (code : string) (timeout : Z) : option (list Byte.byte) :=
  let request_data :=
    json_dumps (Agent.JDict (execute_request code timeout)) in
  match pack_I (size_of request_data) with
  | Some prefix => Some (prefix ++ request_data)
  | None => None
  end.

End HostNotes.

Export HostNotes.

Module StorageNotes.

(** The header [generate_presigned_url] asks for. *)
Definition disposition (filename : string) : string :=
  "attachment; filename=" +:+ R2.quote +:+ filename +:+ R2.quote.

(** What [generate_presigned_url] makes of the client's answer. *)
Definition presign_reply (answer : result string) : result string :=
  match answer with
  | Return presigned_url => Return presigned_url
  | Raise e =>
      Raise (ExecutionError
               ("Failed to generate presigned URL: " +:+ str_exn e))
  end.

(** Whether a call returned. *)
Definition returned {A : Type} (r : result A) : bool :=
  match r with Return _ => true | Raise _ => false end.

(** A string that does not start with [c]. *)
Definition clean_start (c : ascii) (s : string) : Prop :=
  match s with
  | EmptyString => True
  | String a _ => Ascii.eqb a c = false
  end.

(** A public URL is configured. *)
Definition has_public_url (self : R2.R2StorageProvider) : Prop :=
  exists url, R2.public_url self = Some url /\ nonempty url = true.

(** The metadata the provider stores for a file the Docker executor
    extracts. *)
Definition stored_metadata (utcnow execution_id : string)
    (member : Docker.TarInfo) : list (string * string) :=
  [("execution-id", execution_id); ("saved-at", utcnow);
   ("size", str_int (size_of (Docker.data member)));
   ("original-path", Docker.name member)].

End StorageNotes.

Export StorageNotes.

Module OutputNotes.

(** [len(s.encode('utf-8'))] for a str of code points below 256: one
    byte for a code point below 128, two for the others. *)
Fixpoint utf8_size (s : string) : Z :=
  match s with
  | EmptyString => 0
  | String a s' =>
      (if (nat_of_ascii a <? 128)%nat then 1 else 2) + utf8_size s'
  end.

End OutputNotes.

Export OutputNotes.

Module MoreSamples.

Import Samples.

(** An output of 10250 letters, ten more than the default ceiling. *)
Definition long_output : string :=
  String.concat EmptyString (List.repeat "a" (Z.to_nat 10250)).

(** An output of 10240 times the letter e with an acute accent, code
    point 233, which UTF-8 encodes in two bytes. *)
Definition accented_output : string :=
  String.concat EmptyString
    (List.repeat (String (ascii_of_nat 233) EmptyString) (Z.to_nat 10240)).

(** A service that has built its executor. *)
Definition started_service : Service.state :=
  {| Service._executor := Some idle_executor;
     Service.backend_calls := [] |}.

(** [json.dumps] of a guest that answers every request with [{}]. *)
Definition dumps_braces : Agent.json -> list Byte.byte :=
  fun _ => [Byte.x7b; Byte.x7d].

(** [json.loads] on a body that is no JSON. *)
Definition loads_nothing : list Byte.byte -> result Agent.json :=
  fun _ => Raise (OtherError "Expecting value: line 1 column 1 (char 0)").

(** A request for an action the agent does not know. *)
Definition ping_request : list (string * Agent.json) :=
  [("action", Agent.JStr "ping")].

(** A [get_file] request with a number for a path. *)
Definition numeric_path_request : list (string * Agent.json) :=
  [("action", Agent.JStr "get_file"); ("path", Agent.JInt 3)].

(** A [list_files] request that names no path. *)
Definition list_files_request : list (string * Agent.json) :=
  [("action", Agent.JStr "list_files")].

(** The [get_file] message for a path. *)
Definition message (path : string) : get_file_message :=
  {| msg_header := List.firstn 4 (get_file_frame path);
     msg_body := get_file_body path;
     msg_request := get_file_request path;
     msg_path := path |}.

(** [json.loads] for a connection on which the host asks for
    [/tmp/output/plot.png] and for [/tmp/output/missing.txt], whose
    requests differ in length. *)
Definition loads_two_paths : list Byte.byte -> result Agent.json :=
  fun body =>
    if size_of body =? size_of (get_file_body "/tmp/output/plot.png")
    then Return (Agent.JDict (get_file_request "/tmp/output/plot.png"))
    else Return (Agent.JDict (get_file_request "/tmp/output/missing.txt")).

Definition two_requests : list get_file_message :=
  [message "/tmp/output/plot.png"; message "/tmp/output/missing.txt"].

Definition two_requests_connection : Agent.socket :=
  {| Agent.inbox := List.flat_map msg_bytes two_requests;
     Agent.outbox := [];
     Agent.writable := true |}.

(** A guest whose interpreter prints 1 and exits with code 0. *)
Definition prints_one : Agent.json -> Agent.json -> Agent.run_outcome :=
  fun _ _ => Agent.Completed 0 ("1" +:+ LF) EmptyString.

Definition print_request : list (string * Agent.json) :=
  execute_request "print(1)" 10.

(** A guest file system whose output directory cannot be listed. *)
Definition locked_fs : Agent.FileSystem :=
  {| Agent.exists_ := fun _ => Return true;
     Agent.is_file := fun _ => Return false;
     Agent.read_bytes := fun _ =>
       Raise (OtherError "[Errno 21] Is a directory: '/tmp/output'");
     Agent.iterdir_files := fun _ =>
       Raise (OtherError "[Errno 13] Permission denied: '/tmp/output'") |}.

(** A guest that answers every request with the frame of [{}]. *)
Definition answers_braces : Firecracker.vsock :=
  {| Firecracker.agent_ready := true;
     Firecracker.connect := Firecracker.Done tt;
     Firecracker.exchange := fun _ _ =>
       Firecracker.Done
         [Byte.x00; Byte.x00; Byte.x00; Byte.x02; Byte.x7b; Byte.x7d] |}.

(** An S3 client that takes every object and signs every key. *)
Definition open_client : R2.S3Client :=
  {| R2.put_object := fun _ _ _ _ => Return tt;
     R2.delete_object := fun _ _ => Return tt;
     R2.s3_generate_presigned_url := fun bucket key _ _ =>
       Return ("https://signed.example/" +:+ bucket +:+ "/" +:+ key) |}.

Definition open_boto3 : string -> string -> string -> R2.boto3_outcome :=
  fun _ _ _ => R2.Boto3Client open_client.

(** The provider of the bucket [outputs] with the prefix [/sandbox/] and
    no public URL. *)
Definition private_provider : R2.R2StorageProvider :=
  {| R2.bucket_name := "outputs";
     R2.account_id := "account";
     R2.prefix := "sandbox";
     R2.public_url := None;
     R2.s3_client := open_client |}.

(** The provider of the same bucket with the prefix [/] and the public
    URL [https://files.example/]. *)
Definition rootless_provider : R2.R2StorageProvider :=
  {| R2.bucket_name := "outputs";
     R2.account_id := "account";
     R2.prefix := EmptyString;
     R2.public_url := Some "https://files.example";
     R2.s3_client := open_client |}.

(** A Docker daemon that has the sandbox image, and one that lacks it. *)
Definition built_daemon : DockerClient.Client :=
  {| DockerClient.ping := Return tt;
     DockerClient.images_get := fun _ => DockerClient.ImageFound |}.

Definition bare_daemon : DockerClient.Client :=
  {| DockerClient.ping := Return tt;
     DockerClient.images_get := fun _ => DockerClient.ImageNotFound |}.

End MoreSamples.

(* ===================================================================== *)
(** * Properties of the built-ins *)
(* ===================================================================== *)

Section PyFacts.

Lemma app_cons (x : ascii) (a b : string) :
  String x a +:+ b = String x (a +:+ b).
Proof. reflexivity. Qed.

Lemma app_assoc_str (a b c : string) : (a +:+ b) +:+ c = a +:+ (b +:+ c).
Proof.
  induction a as [|x a IH]; [reflexivity|].
  rewrite !app_cons. now rewrite IH.
Qed.

Lemma app_empty_r (a : string) : a +:+ EmptyString = a.
Proof.
  induction a as [|x a IH]; [reflexivity|].
  rewrite app_cons. now rewrite IH.
Qed.

Lemma len_app (a b : string) : len (a +:+ b) = len a + len b.
Proof.
  unfold len. induction a as [|x a IH]; [reflexivity|].
  rewrite app_cons. simpl String.length. rewrite !Nat2Z.inj_succ. lia.
Qed.

Lemma len_nonneg (s : string) : 0 <= len s.
Proof. unfold len. lia. Qed.

(** A string starts with what it was built from. *)
Lemma startswith_app (p s : string) : startswith (p +:+ s) p = true.
Proof.
  unfold startswith. induction p as [|a p IH].
  - destruct s; reflexivity.
  - rewrite app_cons. simpl. destruct (ascii_dec a a); [exact IH | congruence].
Qed.

(** The slice [s[:n]] of a string of at least [n] characters has [n]
    characters. *)
Lemma length_substring (s : string) :
  forall n, (n <= String.length s)%nat ->
            String.length (String.substring 0 n s) = n.
Proof.
  induction s as [|x s IH]; intros [|n] H; simpl in *;
    try reflexivity; try lia.
  rewrite IH by lia. reflexivity.
Qed.

(** Every string joined is a part of the result. *)
Lemma in_join (sep x : string) (l : list string) :
  In x l -> exists before after, join sep l = before +:+ x +:+ after.
Proof.
  unfold join. induction l as [|y l IH]; intros Hin; [destruct Hin|].
  destruct Hin as [->|Hin].
  - exists EmptyString. destruct l as [|z l].
    + exists EmptyString. simpl. now rewrite app_empty_r.
    + now exists (sep +:+ String.concat sep (z :: l)).
  - destruct (IH Hin) as [before [after E]].
    destruct l as [|z l]; [destruct Hin|].
    exists (y +:+ sep +:+ before), after.
    change (String.concat sep (y :: z :: l))
      with (y +:+ sep +:+ String.concat sep (z :: l)).
    rewrite E. now rewrite !app_assoc_str.
Qed.

(** [sorted] rearranges, and loses nothing. *)
Lemma insert_sorted_permutation (x : string) (l : list string) :
  Permutation (insert_sorted x l) (x :: l).
Proof.
  induction l as [|y l IH]; simpl; [reflexivity|].
  destruct (String.leb x y); [reflexivity|].
  rewrite IH. apply perm_swap.
Qed.

Lemma sorted_permutation (l : list string) : Permutation (sorted l) l.
Proof.
  induction l as [|x l IH]; simpl; [reflexivity|].
  rewrite insert_sorted_permutation. now constructor.
Qed.

(** A byte holds the low eight bits it was made from. *)
Lemma byte_of_value (z : Z) : Z.of_N (Byte.to_N (byte_of z)) = Z.land z 255.
Proof.
  unfold byte_of.
  assert (Hr : 0 <= Z.land z 255 < 256).
  { change 255 with (Z.ones 8). rewrite Z.land_ones by lia.
    apply Z.mod_pos_bound. lia. }
  destruct (Byte.of_N (Z.to_N (Z.land z 255))) as [b|] eqn:E.
  - apply Byte.to_of_N in E. rewrite E. lia.
  - apply Byte.of_N_None_iff in E. lia.
Qed.

Lemma testbit_low_byte (z i : Z) :
  0 <= i ->
  Z.testbit (Z.land z 255) i = Z.testbit z i && (i <? 8).
Proof.
  intros Hi. change 255 with (Z.ones 8).
  rewrite Z.land_spec, Z.testbit_ones by lia.
  destruct (Z.leb_spec 0 i); [reflexivity|lia].
Qed.

(** [struct.unpack] reads back what [struct.pack] wrote: the four bytes
    are the length, most significant byte first. *)
Lemma unpack_pack_I (n : Z) :
  0 <= n < 2 ^ 32 ->
  exists prefix,
    pack_I n = Some prefix
    /\ List.length prefix = 4%nat
    /\ unpack_I prefix = Some n.
Proof.
  intros Hn. unfold pack_I.
  destruct (Z.leb_spec 0 n); [|lia]. destruct (Z.ltb_spec n (2 ^ 32)); [|lia].
  eexists. split; [reflexivity|]. split; [reflexivity|].
  unfold unpack_I. rewrite !byte_of_value. f_equal.
  apply Z.bits_inj'. intros i Hi.
  rewrite !Z.lor_spec, !Z.shiftl_spec by lia.
  destruct (Z.ltb_spec i 8).
  { rewrite (Z.testbit_neg_r _ (i - 24)), (Z.testbit_neg_r _ (i - 16)),
      (Z.testbit_neg_r _ (i - 8)) by lia.
    rewrite testbit_low_byte by lia.
    destruct (Z.ltb_spec i 8); [|lia]. simpl. now rewrite andb_true_r. }
  destruct (Z.ltb_spec i 16).
  { rewrite (Z.testbit_neg_r _ (i - 24)), (Z.testbit_neg_r _ (i - 16)) by lia.
    rewrite !testbit_low_byte, Z.shiftr_spec by lia.
    replace (i - 8 + 8) with i by lia.
    destruct (Z.ltb_spec (i - 8) 8); [|lia].
    destruct (Z.ltb_spec i 8); [lia|].
    simpl. now rewrite andb_true_r, andb_false_r, orb_false_r. }
  destruct (Z.ltb_spec i 24).
  { rewrite (Z.testbit_neg_r _ (i - 24)) by lia.
    rewrite !testbit_low_byte, !Z.shiftr_spec by lia.
    replace (i - 16 + 16) with i by lia.
    destruct (Z.ltb_spec (i - 16) 8); [|lia].
    destruct (Z.ltb_spec (i - 8) 8); [lia|].
    destruct (Z.ltb_spec i 8); [lia|].
    simpl. now rewrite andb_true_r, !andb_false_r, !orb_false_r. }
  rewrite !testbit_low_byte, !Z.shiftr_spec by lia.
  replace (i - 24 + 24) with i by lia.
  destruct (Z.ltb_spec (i - 16) 8); [lia|].
  destruct (Z.ltb_spec (i - 8) 8); [lia|].
  destruct (Z.ltb_spec i 8); [lia|].
  rewrite !andb_false_r, !orb_false_r.
  destruct (Z.ltb_spec (i - 24) 8).
  - now rewrite andb_true_r.
  - rewrite andb_false_r. symmetry.
    rewrite <- (Z.mod_small n (2 ^ 32)) by lia.
    apply Z.mod_pow2_bits_high. lia.
Qed.

End PyFacts.

(* ===================================================================== *)
(** * Properties of [ast.walk] *)
(* ===================================================================== *)

Section WalkFacts.

Lemma list_sum_app_map (l1 l2 : list node) :
  list_sum (List.map Ast.size (l1 ++ l2))
  = (list_sum (List.map Ast.size l1) + list_sum (List.map Ast.size l2))%nat.
Proof. rewrite List.map_app, list_sum_app. reflexivity. Qed.

Lemma sizes_aliases (names : list alias) :
  list_sum (List.map Ast.size (List.map Alias names)) = List.length names.
Proof.
  induction names as [|a names IH]; simpl; [reflexivity | now rewrite IH].
Qed.

Lemma descendants_aliases (names : list alias) :
  List.flat_map descendants (List.map Alias names) = List.map Alias names.
Proof.
  induction names as [|a names IH]; simpl; [reflexivity | now rewrite IH].
Qed.

(** A tree has one node more than its children's trees together. *)
Lemma size_children (n : node) :
  Ast.size n = S (list_sum (List.map Ast.size (iter_child_nodes n))).
Proof.
  destruct n; simpl; f_equal;
    rewrite ?list_sum_app_map, ?sizes_aliases; simpl; try lia.
  destruct type; simpl; lia.
Qed.

(** The nodes of a tree are its root and the nodes of its children's trees. *)
Lemma descendants_children (n : node) :
  descendants n = n :: List.flat_map descendants (iter_child_nodes n).
Proof.
  destruct n; simpl; f_equal;
    rewrite ?List.flat_map_app, ?descendants_aliases, ?List.app_nil_r;
    simpl; rewrite ?List.app_nil_r, <- ?List.app_assoc; try reflexivity.
  destruct type; simpl; rewrite ?List.app_nil_r; reflexivity.
Qed.

Lemma size_pos (n : node) : (0 < Ast.size n)%nat.
Proof. rewrite size_children. lia. Qed.

(** With a round for every node of the queued trees, the walk yields each
    of their nodes once. *)
Lemma walk_todo_descendants (rounds : nat) :
  forall todo : list node,
    (list_sum (List.map Ast.size todo) <= rounds)%nat ->
    Permutation (walk_todo rounds todo) (List.flat_map descendants todo).
Proof.
  induction rounds as [|rounds IH]; intros todo Hfuel.
  - destruct todo as [|n todo]; simpl in *; [constructor|].
    pose proof (size_pos n). lia.
  - destruct todo as [|n todo]; simpl; [constructor|].
    rewrite descendants_children. simpl. constructor.
    etransitivity.
    + apply IH. simpl in Hfuel. rewrite list_sum_app_map.
      rewrite (size_children n) in Hfuel. lia.
    + rewrite List.flat_map_app. apply Permutation_app_comm.
Qed.

(** More rounds than nodes change nothing: the queue is empty by then. *)
Lemma walk_todo_enough (rounds extra : nat) :
  forall todo : list node,
    (list_sum (List.map Ast.size todo) <= rounds)%nat ->
    walk_todo (rounds + extra) todo = walk_todo rounds todo.
Proof.
  induction rounds as [|rounds IH]; intros todo Hfuel.
  - destruct todo as [|n todo]; simpl in *.
    + destruct extra; reflexivity.
    + pose proof (size_pos n). lia.
  - destruct todo as [|n todo]; simpl; [reflexivity|].
    f_equal. apply IH. simpl in Hfuel. rewrite list_sum_app_map.
    rewrite (size_children n) in Hfuel. lia.
Qed.

(** [ast.walk] yields every node of the tree exactly once. *)
Lemma walk_descendants (tree : node) :
  Permutation (walk tree) (descendants tree).
Proof.
  unfold walk. etransitivity.
  - apply walk_todo_descendants. simpl. lia.
  - simpl. rewrite List.app_nil_r. reflexivity.
Qed.

End WalkFacts.

(* ===================================================================== *)
(** * Properties of the validator *)
(* ===================================================================== *)

Section ValidatorFacts.

Variable settings : Settings.
Variable ast_parse : string -> parse_outcome.

(** A loop that appends to a list gathers what each round appends. *)
Lemma fold_left_collect {A B : Type} (f : A -> list B) (l : list A) :
  forall acc, fold_left (fun acc x => acc ++ f x) l acc
              = acc ++ List.flat_map f l.
Proof.
  induction l as [|x l IH]; intros acc; simpl.
  - now rewrite List.app_nil_r.
  - rewrite IH. now rewrite <- List.app_assoc.
Qed.

Lemma _check_imports_walk (tree : node) :
  _check_imports settings tree
  = List.flat_map (imports_of_node settings) (walk tree).
Proof. unfold _check_imports. now rewrite fold_left_collect. Qed.

Lemma _check_patterns_walk (tree : node) :
  _check_patterns tree = List.flat_map patterns_of_node (walk tree).
Proof. unfold _check_patterns. now rewrite fold_left_collect. Qed.

(** One round of [_check_imports] keeps the forbidden references of the
    node. *)
Lemma imports_of_node_references (n : node) :
  imports_of_node settings n
  = List.filter
      (fun name => bool_decide (top_level name ∈ FORBIDDEN_IMPORTS settings))
      (import_references n).
Proof.
  destruct n; try reflexivity; simpl.
  - induction names as [|a names IH]; simpl; [reflexivity|].
    unfold forbidden_imports in *. rewrite IH.
    destruct (bool_decide _); reflexivity.
  - destruct module as [m|]; [|reflexivity].
    destruct (nonempty m); [|reflexivity]. simpl.
    unfold forbidden_imports. destruct (bool_decide _); reflexivity.
Qed.

Lemma flat_map_filter {A B : Type} (p : B -> bool) (f : A -> list B)
    (l : list A) :
  List.flat_map (fun x => List.filter p (f x)) l
  = List.filter p (List.flat_map f l).
Proof.
  induction l as [|x l IH]; simpl; [reflexivity|].
  now rewrite List.filter_app, IH.
Qed.

(** [_check_imports] finds the forbidden references of the tree, each as
    often as it occurs. *)
Lemma _check_imports_references (tree : node) :
  Permutation (_check_imports settings tree)
    (forbidden_references settings tree).
Proof.
  rewrite _check_imports_walk. unfold forbidden_references.
  rewrite <- flat_map_filter.
  rewrite (List.flat_map_ext _ _ imports_of_node_references).
  apply Permutation_flat_map, walk_descendants.
Qed.

Lemma _check_imports_nil (tree : node) :
  _check_imports settings tree = [] <-> forbidden_references settings tree = [].
Proof.
  pose proof (_check_imports_references tree) as HP. split; intros E.
  - rewrite E in HP. now apply Permutation_nil.
  - rewrite E in HP. now apply Permutation_nil, Permutation_sym.
Qed.

Lemma fold_left_complexity (l : list node) :
  forall c, fold_left complexity_step l c
            = c + sum_Z (List.map decision_points l).
Proof.
  induction l as [|n l IH]; intros c; simpl; [lia|].
  rewrite IH. destruct n; simpl; lia.
Qed.

Lemma sum_Z_permutation (l l' : list Z) :
  Permutation l l' -> sum_Z l = sum_Z l'.
Proof. induction 1; simpl in *; lia. Qed.

(** The loop of [_calculate_complexity] computes the complexity the
    specification describes. *)
Lemma _calculate_complexity_spec (tree : node) :
  _calculate_complexity tree = cyclomatic_complexity tree.
Proof.
  unfold _calculate_complexity, cyclomatic_complexity.
  rewrite fold_left_complexity. f_equal.
  apply sum_Z_permutation, Permutation_map, walk_descendants.
Qed.

(** [validate] on a submission that is short enough, parses and has no
    forbidden import: steps 4 and 5. *)
Lemma validate_steps_4_5 (code : string) (tree : node) :
  len code <= MAX_CODE_LENGTH settings ->
  ast_parse code = Parsed tree ->
  _check_imports settings tree = [] ->
  validate settings ast_parse code =
    if _calculate_complexity tree >? MAX_COMPLEXITY settings
    then (false, warning_messages tree
                 ++ [complexity_message settings (_calculate_complexity tree)])
    else (true, warning_messages tree).
Proof.
  intros Hlen Hparse Himp. unfold Validator.validate, max_code_length.
  destruct (Z.gtb_spec (len code) (MAX_CODE_LENGTH settings)); [lia|].
  rewrite Hparse, Himp. reflexivity.
Qed.

(** [validate] on a submission that is short enough, parses and has a
    forbidden import: step 3. *)
Lemma validate_step_3 (code : string) (tree : node) :
  len code <= MAX_CODE_LENGTH settings ->
  ast_parse code = Parsed tree ->
  _check_imports settings tree <> [] ->
  validate settings ast_parse code
  = (false, forbidden_messages (_check_imports settings tree)).
Proof.
  intros Hlen Hparse Himp. unfold Validator.validate, max_code_length.
  destruct (Z.gtb_spec (len code) (MAX_CODE_LENGTH settings)); [lia|].
  rewrite Hparse. destruct (_check_imports settings tree); [easy|reflexivity].
Qed.

Lemma warning_messages_are_warnings (tree : node) :
  Forall (fun err => is_warning err = true) (warning_messages tree).
Proof.
  unfold warning_messages. apply List.Forall_forall. intros err Hin.
  apply List.in_map_iff in Hin as [w [<- _]].
  apply (startswith_app "Warning:" (String " " w)).
Qed.

Lemma forbidden_messages_are_errors (found : list string) :
  Forall (fun err => is_forbidden_import_error err = true
                     /\ is_warning err = false)
    (forbidden_messages found).
Proof.
  unfold forbidden_messages. apply List.Forall_forall. intros err Hin.
  apply List.in_map_iff in Hin as [w [<- _]].
  split; [apply startswith_app | reflexivity].
Qed.

Lemma warning_messages_not_errors (tree : node) :
  Forall (fun err => is_forbidden_import_error err = false
                     /\ is_complexity_error err = false)
    (warning_messages tree).
Proof.
  unfold warning_messages. apply List.Forall_forall. intros err Hin.
  apply List.in_map_iff in Hin as [w [<- _]]. split; reflexivity.
Qed.

(** What [validate] returns when step 1 or step 2 stops it. *)
Lemma validate_too_long (code : string) :
  len code > MAX_CODE_LENGTH settings ->
  validate settings ast_parse code
  = (false, ["Code exceeds maximum length of "
             +:+ str_int (MAX_CODE_LENGTH settings) +:+ " characters"]).
Proof.
  intros Hlen. unfold validate, max_code_length.
  destruct (Z.gtb_spec (len code) (MAX_CODE_LENGTH settings));
    [reflexivity|lia].
Qed.

Lemma validate_unparsable (code : string) :
  len code <= MAX_CODE_LENGTH settings ->
  (forall tree, ast_parse code <> Parsed tree) ->
  exists msg, validate settings ast_parse code = (false, [msg])
              /\ is_warning msg = false.
Proof.
  intros Hlen Hparse. unfold validate, max_code_length.
  destruct (Z.gtb_spec (len code) (MAX_CODE_LENGTH settings)); [lia|].
  destruct (ast_parse code) as [tree|lineno msg|e].
  - now destruct (Hparse tree).
  - eexists; split; reflexivity.
  - eexists; split; reflexivity.
Qed.

(** C3, as amended.  [validate] returns [ok = true] exactly when the length
    check, the parse, the forbidden-import check and the complexity check
    all pass.  The warnings of step 4 are in the returned list whenever
    steps 1 to 3 pass, whether or not the complexity check then fails; when
    one of the steps 1 to 3 stops the validation, the list holds no
    warning. *)
Theorem validate_ok_and_warnings (code : string) :
  (fst (validate settings ast_parse code) = true <->
     len code <= MAX_CODE_LENGTH settings
     /\ exists tree, ast_parse code = Parsed tree
          /\ _check_imports settings tree = []
          /\ _calculate_complexity tree <= MAX_COMPLEXITY settings)
  /\ (forall tree,
        len code <= MAX_CODE_LENGTH settings ->
        ast_parse code = Parsed tree ->
        _check_imports settings tree = [] ->
        incl (warning_messages tree) (snd (validate settings ast_parse code)))
  /\ (stopped_early settings ast_parse code ->
      fst (validate settings ast_parse code) = false
      /\ Forall (fun err => is_warning err = false)
           (snd (validate settings ast_parse code))).
Proof.
  split; [|split].
  - split.
    + intros Hok.
      destruct (Z.gtb_spec (len code) (MAX_CODE_LENGTH settings)) as [Hl|Hl].
      { rewrite validate_too_long in Hok by lia. discriminate. }
      split; [exact Hl|].
      destruct (ast_parse code) as [tree|lineno msg|e] eqn:Hparse.
      * exists tree. split; [reflexivity|].
        destruct (_check_imports settings tree) as [|imp found] eqn:Himp.
        -- split; [reflexivity|].
           rewrite (validate_steps_4_5 code tree Hl Hparse Himp) in Hok.
           destruct (Z.gtb_spec (_calculate_complexity tree)
                       (MAX_COMPLEXITY settings)); [discriminate|lia].
        -- rewrite (validate_step_3 code tree Hl Hparse) in Hok
             by (rewrite Himp; discriminate).
           discriminate.
      * destruct (validate_unparsable code Hl) as [m [E _]].
        { intros tree. rewrite Hparse. discriminate. }
        rewrite E in Hok. discriminate.
      * destruct (validate_unparsable code Hl) as [m [E _]].
        { intros tree. rewrite Hparse. discriminate. }
        rewrite E in Hok. discriminate.
    + intros [Hl [tree [Hparse [Himp Hc]]]].
      rewrite (validate_steps_4_5 code tree Hl Hparse Himp).
      destruct (Z.gtb_spec (_calculate_complexity tree)
                  (MAX_COMPLEXITY settings)); [lia|reflexivity].
  - intros tree Hl Hparse Himp.
    rewrite (validate_steps_4_5 code tree Hl Hparse Himp).
    destruct (_ >? _); simpl; [apply List.incl_appl|]; apply List.incl_refl.
  - intros [Hl|[[Hl Hparse]|[Hl [tree [Hparse Himp]]]]].
    + rewrite validate_too_long by exact Hl. split; [reflexivity|].
      repeat constructor.
    + destruct (validate_unparsable code Hl Hparse) as [m [E Hm]].
      rewrite E. split; [reflexivity|]. repeat constructor. exact Hm.
    + rewrite (validate_step_3 code tree Hl Hparse Himp).
      split; [reflexivity|]. simpl.
      eapply List.Forall_impl; [|apply forbidden_messages_are_errors].
      now intros err [_ H].
Qed.

(** C4, as amended.  For a submission within the length limit that parses
    and refers to a forbidden module in an [import] or a [from ... import],
    [validate] returns [ok = false] and reports one error for each such
    reference of the tree, a module referred to twice being reported
    twice, and nothing else. *)
Theorem forbidden_imports_each_reported (code : string) (tree : node) :
  len code <= MAX_CODE_LENGTH settings ->
  ast_parse code = Parsed tree ->
  forbidden_references settings tree <> [] ->
  fst (validate settings ast_parse code) = false
  /\ Permutation (snd (validate settings ast_parse code))
       (forbidden_messages (forbidden_references settings tree)).
Proof.
  intros Hl Hparse Href.
  rewrite (validate_step_3 code tree Hl Hparse).
  - split; [reflexivity|]. simpl.
    apply Permutation_map, _check_imports_references.
  - intros E. apply Href. now apply _check_imports_nil.
Qed.

(** C5, as amended.  The complexity computed for a tree is 1, plus 1 for
    each [If], [While], [For] and [ExceptHandler] node, plus the number of
    operands less one for each [BoolOp], plus the number of generators for
    each [ListComp], [SetComp] and [DictComp].  For a submission within the
    length limit that parses and has no forbidden import, [validate]
    rejects exactly when that number exceeds the ceiling, and then reports
    it in a complexity error; otherwise no complexity error is reported. *)
Theorem complexity_decides_after_earlier_steps (code : string) (tree : node) :
  len code <= MAX_CODE_LENGTH settings ->
  ast_parse code = Parsed tree ->
  forbidden_references settings tree = [] ->
  _calculate_complexity tree = cyclomatic_complexity tree
  /\ (fst (validate settings ast_parse code) = false <->
      cyclomatic_complexity tree > MAX_COMPLEXITY settings)
  /\ (cyclomatic_complexity tree > MAX_COMPLEXITY settings ->
      In (complexity_message settings (cyclomatic_complexity tree))
        (snd (validate settings ast_parse code)))
  /\ (cyclomatic_complexity tree <= MAX_COMPLEXITY settings ->
      Forall (fun err => is_complexity_error err = false)
        (snd (validate settings ast_parse code))).
Proof.
  intros Hl Hparse Href. apply _check_imports_nil in Href.
  rewrite (validate_steps_4_5 code tree Hl Hparse Href).
  rewrite _calculate_complexity_spec.
  split; [reflexivity|].
  destruct (Z.gtb_spec (cyclomatic_complexity tree) (MAX_COMPLEXITY settings))
    as [Hc|Hc]; simpl.
  - split; [split; [lia|reflexivity]|]. split; [|lia].
    intros _. apply List.in_or_app. right. now left.
  - split; [split; [discriminate|lia]|]. split; [lia|].
    intros _. eapply List.Forall_impl; [|apply warning_messages_not_errors].
    now intros err [_ H].
Qed.

Lemma flat_map_nil {A B : Type} (f : A -> list B) (l : list A) :
  (forall x, In x l -> f x = []) -> List.flat_map f l = [].
Proof.
  induction l as [|x l IH]; intros H; simpl; [reflexivity|].
  rewrite (H x) by now left. apply IH. intros y Hy. apply H. now right.
Qed.

(** C10, as amended.  For a submission that parses and whose only import
    nodes are import-from nodes that carry no module name
    ([from . import x]), [validate] reports no forbidden-import error,
    whatever the imported names. *)
Theorem bare_relative_imports_not_reported (code : string) (tree : node) :
  ast_parse code = Parsed tree ->
  forallb (fun n => implb (is_import n) (is_bare_import_from n))
    (descendants tree) = true ->
  Forall (fun err => is_forbidden_import_error err = false)
    (snd (validate settings ast_parse code)).
Proof.
  intros Hparse Hbare.
  assert (Href : _check_imports settings tree = []).
  { apply _check_imports_nil. unfold forbidden_references.
    rewrite flat_map_nil; [reflexivity|].
    intros n Hn. rewrite List.forallb_forall in Hbare.
    specialize (Hbare n Hn).
    destruct n; try reflexivity; simpl in Hbare; [discriminate|].
    destruct module; [discriminate|reflexivity]. }
  destruct (Z.gtb_spec (len code) (MAX_CODE_LENGTH settings)) as [Hl|Hl].
  - rewrite validate_too_long by lia. repeat constructor.
  - rewrite (validate_steps_4_5 code tree Hl Hparse Href).
    assert (Hw : Forall (fun err => is_forbidden_import_error err = false)
                   (warning_messages tree)).
    { eapply List.Forall_impl; [|apply warning_messages_not_errors].
      now intros err [H _]. }
    destruct (_ >? _); simpl; [|exact Hw].
    apply List.Forall_app. split; [exact Hw|]. repeat constructor.
Qed.

End ValidatorFacts.

(* ===================================================================== *)
(** * The validator on the sample submissions *)
(* ===================================================================== *)

Section ValidatorSamples.

Import Samples.

(** C3, as stated, fails: the sample has a [while True] loop, for which
    step 4 has a warning, and a forbidden import, which ends the
    validation before step 4; the warning is not in the returned list. *)
Lemma validate_forbidden_import_drops_warning :
  parse_as import_then_loop_tree import_then_loop_code
  = Parsed import_then_loop_tree
  /\ _check_patterns import_then_loop_tree
     = ["Potential infinite loop detected (while True)"]
  /\ validate default_settings (parse_as import_then_loop_tree)
       import_then_loop_code
     = (false, ["Forbidden import: os"])
  /\ ~ In "Warning: Potential infinite loop detected (while True)"
         (snd (validate default_settings (parse_as import_then_loop_tree)
                 import_then_loop_code)).
Proof.
  split; [reflexivity|]. split; [reflexivity|]. split; [reflexivity|].
  vm_compute. intros [H|[]]. discriminate.
Qed.

(** On [while True: pass] the three steps pass and the warning is
    returned. *)
Lemma validate_ok_and_warnings_witness :
  len loop_code <= MAX_CODE_LENGTH default_settings
  /\ parse_as loop_tree loop_code = Parsed loop_tree
  /\ _check_imports default_settings loop_tree = []
  /\ incl (warning_messages loop_tree)
       (snd (validate default_settings (parse_as loop_tree) loop_code)).
Proof.
  assert (H1 : len loop_code <= MAX_CODE_LENGTH default_settings)
    by (vm_compute; discriminate).
  assert (H2 : parse_as loop_tree loop_code = Parsed loop_tree)
    by reflexivity.
  assert (H3 : _check_imports default_settings loop_tree = [])
    by reflexivity.
  split; [exact H1|]. split; [exact H2|]. split; [exact H3|].
  exact (proj1 (proj2 (validate_ok_and_warnings default_settings
                         (parse_as loop_tree) loop_code))
           loop_tree H1 H2 H3).
Defined.

(** C4, as stated, fails.  A module imported twice is one distinct
    forbidden reference and gets two errors; and a submission over the
    length limit that imports a forbidden module gets the length error
    only. *)
Lemma forbidden_import_errors_not_per_distinct_reference :
  (parse_as import_twice_tree import_twice_code = Parsed import_twice_tree
   /\ List.nodup string_dec
        (forbidden_references default_settings import_twice_tree) = ["os"]
   /\ validate default_settings (parse_as import_twice_tree) import_twice_code
      = (false, ["Forbidden import: os"; "Forbidden import: os"]))
  /\ (parse_as long_import_tree long_import_code = Parsed long_import_tree
      /\ forbidden_references default_settings long_import_tree = ["os"]
      /\ validate default_settings (parse_as long_import_tree)
           long_import_code
         = (false, ["Code exceeds maximum length of 50000 characters"])).
Proof.
  split; (split; [reflexivity|]); split; vm_compute; reflexivity.
Qed.

(** On [import os] twice, within the length limit: two errors. *)
Lemma forbidden_imports_each_reported_witness :
  len import_twice_code <= MAX_CODE_LENGTH default_settings
  /\ parse_as import_twice_tree import_twice_code = Parsed import_twice_tree
  /\ forbidden_references default_settings import_twice_tree <> []
  /\ fst (validate default_settings (parse_as import_twice_tree)
            import_twice_code) = false
  /\ Permutation
       (snd (validate default_settings (parse_as import_twice_tree)
               import_twice_code))
       (forbidden_messages
          (forbidden_references default_settings import_twice_tree)).
Proof.
  assert (H1 : len import_twice_code <= MAX_CODE_LENGTH default_settings)
    by (vm_compute; discriminate).
  assert (H2 : parse_as import_twice_tree import_twice_code
               = Parsed import_twice_tree) by reflexivity.
  assert (H3 : forbidden_references default_settings import_twice_tree <> [])
    by (vm_compute; discriminate).
  split; [exact H1|]. split; [exact H2|]. split; [exact H3|].
  exact (forbidden_imports_each_reported default_settings
           (parse_as import_twice_tree) import_twice_code import_twice_tree
           H1 H2 H3).
Defined.

(** C5, as stated, fails: the sample parses and its complexity, 22, is
    over the ceiling of 20, but its forbidden import ends the validation
    before step 5, and the rejection carries no complexity error. *)
Lemma complexity_unreported_after_forbidden_import :
  parse_as import_then_chain_tree import_then_chain_code
  = Parsed import_then_chain_tree
  /\ _calculate_complexity import_then_chain_tree = 22
  /\ MAX_COMPLEXITY default_settings = 20
  /\ validate default_settings (parse_as import_then_chain_tree)
       import_then_chain_code
     = (false, ["Forbidden import: os"])
  /\ is_complexity_error "Forbidden import: os" = false.
Proof. repeat split; vm_compute; reflexivity. Qed.

(** On [while True: pass]: complexity 2, under the ceiling. *)
Lemma complexity_decides_after_earlier_steps_witness :
  len loop_code <= MAX_CODE_LENGTH default_settings
  /\ parse_as loop_tree loop_code = Parsed loop_tree
  /\ forbidden_references default_settings loop_tree = []
  /\ _calculate_complexity loop_tree = cyclomatic_complexity loop_tree
  /\ (fst (validate default_settings (parse_as loop_tree) loop_code) = false
      <-> cyclomatic_complexity loop_tree > MAX_COMPLEXITY default_settings).
Proof.
  assert (H1 : len loop_code <= MAX_CODE_LENGTH default_settings)
    by (vm_compute; discriminate).
  assert (H2 : parse_as loop_tree loop_code = Parsed loop_tree)
    by reflexivity.
  assert (H3 : forbidden_references default_settings loop_tree = [])
    by reflexivity.
  split; [exact H1|]. split; [exact H2|]. split; [exact H3|].
  pose proof (complexity_decides_after_earlier_steps default_settings
                (parse_as loop_tree) loop_code loop_tree H1 H2 H3) as H.
  split; [exact (proj1 H) | exact (proj1 (proj2 H))].
Defined.

(** C10, as stated, fails: the only import of the sample is a relative
    import, [from .os import path]; its node carries the module name [os],
    and [validate] reports it. *)
Lemma relative_import_of_forbidden_module_reported :
  parse_as relative_os_tree relative_os_code = Parsed relative_os_tree
  /\ forallb (fun n => implb (is_import n) (is_relative_import n))
       (descendants relative_os_tree) = true
  /\ validate default_settings (parse_as relative_os_tree) relative_os_code
     = (false, ["Forbidden import: os"])
  /\ is_forbidden_import_error "Forbidden import: os" = true.
Proof. repeat split; vm_compute; reflexivity. Qed.

(** On [from . import os]: the node has no module name, and the imported
    name [os] is not looked at. *)
Lemma bare_relative_imports_not_reported_witness :
  parse_as bare_relative_tree bare_relative_code = Parsed bare_relative_tree
  /\ forallb (fun n => implb (is_import n) (is_bare_import_from n))
       (descendants bare_relative_tree) = true
  /\ Forall (fun err => is_forbidden_import_error err = false)
       (snd (validate default_settings (parse_as bare_relative_tree)
               bare_relative_code)).
Proof.
  assert (H1 : parse_as bare_relative_tree bare_relative_code
               = Parsed bare_relative_tree) by reflexivity.
  assert (H2 : forallb (fun n => implb (is_import n) (is_bare_import_from n))
                 (descendants bare_relative_tree) = true) by reflexivity.
  split; [exact H1|]. split; [exact H2|].
  exact (bare_relative_imports_not_reported default_settings
           (parse_as bare_relative_tree) bare_relative_code
           bare_relative_tree H1 H2).
Defined.

End ValidatorSamples.

(* ===================================================================== *)
(** * Properties of the execution service *)
(* ===================================================================== *)

Section ServiceFacts.

Variable settings : Settings.
Variable ast_parse : string -> parse_outcome.
Variable get_executor : result BaseExecutor.

(** C2.  When [validate] returns [ok = false], [execute_code] raises a
    [ValidationError] whose message joins every entry of the returned list
    that is not a warning, so each of them is a part of it, and leaves the
    state as it was: no executor is built and the backend's [execute]
    receives no call. *)
Theorem validation_failure_never_reaches_backend
    (code : string) (timeout : Z) (st : Service.state) :
  fst (validate settings ast_parse code) = false ->
  let errors := snd (validate settings ast_parse code) in
  let message :=
    "Validation failed: "
    +:+ join "; " (List.filter (fun err => negb (is_warning err)) errors) in
  Service.execute_code settings ast_parse get_executor code timeout st
  = (Raise (ValidationError message), st)
  /\ Forall (fun err =>
               is_warning err = false ->
               exists before after, message = before +:+ err +:+ after)
       errors
  /\ Service.backend_calls
       (snd (Service.execute_code settings ast_parse get_executor
               code timeout st))
     = Service.backend_calls st.
Proof.
  intros Hfail errors message.
  assert (E : Service.execute_code settings ast_parse get_executor
                code timeout st
              = (Raise (ValidationError message), st)).
  { unfold Service.execute_code, message, errors.
    destruct (validate settings ast_parse code) as [is_valid errs].
    simpl in Hfail. subst is_valid. reflexivity. }
  split; [exact E|]. split; [|now rewrite E].
  apply List.Forall_forall. intros err Hin Hw.
  destruct (in_join "; " err
              (List.filter (fun err => negb (is_warning err)) errors))
    as [before [after Hj]].
  { apply List.filter_In. split; [exact Hin|]. now rewrite Hw. }
  exists ("Validation failed: " +:+ before), after.
  unfold message. rewrite Hj. now rewrite app_assoc_str.
Qed.

End ServiceFacts.

Section ServiceSamples.

Import Samples.

(** On [import os] followed by [os.system('ls')]: rejected, the message
    names [os], and the service is as it was. *)
Lemma validation_failure_never_reaches_backend_witness :
  fst (validate default_settings (parse_as os_system_tree) os_system_code)
  = false
  /\ Service.execute_code default_settings (parse_as os_system_tree)
       (Return idle_executor) os_system_code 10 fresh_service
     = (Raise (ValidationError "Validation failed: Forbidden import: os"),
        fresh_service).
Proof.
  assert (H : fst (validate default_settings (parse_as os_system_tree)
                     os_system_code) = false) by reflexivity.
  split; [exact H|].
  exact (proj1 (validation_failure_never_reaches_backend default_settings
                  (parse_as os_system_tree) (Return idle_executor)
                  os_system_code 10 fresh_service H)).
Defined.

End ServiceSamples.

(* ===================================================================== *)
(** * Properties of the container backend *)
(* ===================================================================== *)

Section DockerFacts.

Variable settings : Settings.
Variable execution_id : string.

Lemma size_nonneg (member : Docker.TarInfo) : 0 <= Docker.size member.
Proof. unfold Docker.size, size_of. lia. Qed.

(** Once the file count is reached, the loop changes nothing more. *)
Lemma extract_members_count_reached (sm : Docker.StorageManager)
    (vars : Docker.extraction) (members : list Docker.TarInfo) :
  Docker.file_count vars >= MAX_FILE_COUNT settings ->
  Docker.extract_members settings execution_id sm vars members = vars.
Proof.
  intros Hc. induction members as [|m members IH]; simpl; [reflexivity|].
  unfold Docker.extract_member.
  destruct (negb (Docker.isfile m)); [exact IH|].
  destruct (startswith _ _); [exact IH|].
  destruct (Z.geb_spec (Docker.file_count vars) (MAX_FILE_COUNT settings));
    [reflexivity|lia].
Qed.

(** Nor once the total size is over the ceiling. *)
Lemma extract_members_total_exceeded (sm : Docker.StorageManager)
    (vars : Docker.extraction) (members : list Docker.TarInfo) :
  Docker.total_size vars > MAX_TOTAL_SIZE settings ->
  Docker.extract_members settings execution_id sm vars members = vars.
Proof.
  intros Ht. induction members as [|m members IH]; simpl; [reflexivity|].
  unfold Docker.extract_member.
  destruct (negb (Docker.isfile m)); [exact IH|].
  destruct (startswith _ _); [exact IH|].
  destruct (_ >=? _); [reflexivity|].
  destruct (_ >? _); [exact IH|].
  pose proof (size_nonneg m).
  destruct (Z.gtb_spec (Docker.total_size vars + Docker.size m)
              (MAX_TOTAL_SIZE settings)); [reflexivity|lia].
Qed.

(** A skipped entry leaves the loop as if it were not there. *)
Lemma extract_members_skip (sm : Docker.StorageManager)
    (vars : Docker.extraction) (m : Docker.TarInfo)
    (members : list Docker.TarInfo) :
  skipped settings m = true ->
  Docker.extract_members settings execution_id sm vars (m :: members)
  = Docker.extract_members settings execution_id sm vars members.
Proof.
  unfold skipped. intros Hs. simpl. unfold Docker.extract_member.
  destruct (negb (Docker.isfile m)); [reflexivity|].
  destruct (startswith _ _); [reflexivity|].
  simpl in Hs.
  destruct (Z.geb_spec (Docker.file_count vars) (MAX_FILE_COUNT settings)).
  { symmetry. apply extract_members_count_reached. lia. }
  destruct (Docker.size m >? MAX_FILE_SIZE settings); [reflexivity|].
  simpl in Hs. apply Z.eqb_eq in Hs.
  destruct (Z.gtb_spec (Docker.total_size vars + Docker.size m)
              (MAX_TOTAL_SIZE settings)).
  { symmetry. apply extract_members_total_exceeded. lia. }
  unfold Docker.size in Hs. rewrite Hs. reflexivity.
Qed.











End DockerFacts.

Section DockerOutputFacts.

Variable settings : Settings.

(** C8.  The ceiling counts characters.  With a ceiling that is not
    negative: an output of at most [MAX_OUTPUT_SIZE] characters is returned
    unchanged; a longer one is cut to its first [MAX_OUTPUT_SIZE]
    characters, followed by the marker, which is two line feeds and
    [[Output truncated - exceeded <ceiling> bytes]] and is not empty; the
    result of a cut has as many characters as the ceiling and the marker
    together, and no result has more. *)
Theorem truncate_output_bounded (output : string) :
  0 <= MAX_OUTPUT_SIZE settings ->
  let max_size := MAX_OUTPUT_SIZE settings in
  let marker :=
    LF +:+ LF +:+ "[Output truncated - exceeded " +:+ str_int max_size
    +:+ " bytes]" in
  (len output <= max_size ->
   Docker._truncate_output settings output = output)
  /\ (len output > max_size ->
      Docker._truncate_output settings output
      = String.substring 0 (Z.to_nat max_size) output +:+ marker
      /\ len (String.substring 0 (Z.to_nat max_size) output) = max_size
      /\ len (Docker._truncate_output settings output)
         = max_size + len marker)
  /\ len (Docker._truncate_output settings output) <= max_size + len marker
  /\ 0 < len marker.
Proof.
  intros Hmax max_size marker.
  assert (Hmarker : 0 < len marker).
  { unfold marker. rewrite len_app.
    pose proof (len_nonneg
                  (LF +:+ "[Output truncated - exceeded "
                   +:+ str_int max_size +:+ " bytes]")) as Hrest.
    change (len LF) with 1. lia. }
  unfold Docker._truncate_output.
  change (Docker.truncation_marker (MAX_OUTPUT_SIZE settings)) with marker.
  fold max_size.
  destruct (Z.gtb_spec (len output) max_size) as [Hgt|Hle].
  - assert (Hcut : len (String.substring 0 (Z.to_nat max_size) output)
                   = max_size).
    { unfold len in *. rewrite length_substring by lia. lia. }
    unfold slice_to. destruct (Z.leb_spec 0 max_size); [|unfold max_size; lia].
    assert (Hlen : len (String.substring 0 (Z.to_nat max_size) output
                        +:+ marker)
                   = max_size + len marker)
      by (rewrite len_app, Hcut; reflexivity).
    split; [lia|]. split; [intros _; repeat split; assumption|].
    split; [lia | exact Hmarker].
  - split; [reflexivity|]. split; [lia|]. split; [lia | exact Hmarker].
Qed.

Variable storage_manager : option Docker.StorageManager.
Variable containers_run : string -> result Docker.Container.
Variable execution_id : string.

(** Whatever status the container exits with, [execute] reports a
    success when the container ran to its end. *)
Lemma execute_completed (code : string) (timeout : Z)
    (container : Docker.Container) (status : Z) (out err : string) :
  containers_run code = Return container ->
  Docker.wait container timeout = Return status ->
  Docker.logs_stdout container = Return out ->
  Docker.logs_stderr container = Return err ->
  Docker.execute settings storage_manager containers_run execution_id
    code timeout
  = {| success := true;
       stdout := Docker._truncate_output settings out;
       stderr := Docker._truncate_output settings err;
       exit_code := status;
       error := None;
       files := Docker._extract_and_save_files settings storage_manager
                  execution_id container |}.
Proof.
  intros Hrun Hwait Hout Herr. unfold Docker.execute.
  rewrite Hrun. simpl. rewrite Hwait. simpl. rewrite Hout. simpl.
  rewrite Herr. reflexivity.
Qed.

End DockerOutputFacts.

Section AgentExecuteFacts.

Variable str_value : Agent.json -> string.
Variable subprocess_run : Agent.json -> Agent.json -> Agent.run_outcome.

(** The guest agent does tell a script that failed: [success] is whether
    the return code is zero. *)
Lemma handle_execute_completed (request : list (string * Agent.json))
    (returncode : Z) (out err : string) :
  subprocess_run (Agent.dict_get request "code" (Agent.JStr EmptyString))
    (Agent.dict_get request "timeout" (Agent.JInt 30))
  = Agent.Completed returncode out err ->
  Agent.handle_execute str_value subprocess_run request
  = {| Agent.r_success := returncode =? 0;
       Agent.r_stdout := out;
       Agent.r_stderr := err;
       Agent.r_exit_code := returncode |}.
Proof. intros H. unfold Agent.handle_execute. now rewrite H. Qed.

End AgentExecuteFacts.

Section DockerSamples.

Import Samples.


(** The default ceiling, on an output of 10250 letters: the first 10240
    of them, then the marker. *)
Lemma truncate_output_bounded_witness :
  len MoreSamples.long_output > MAX_OUTPUT_SIZE default_settings
  /\ Docker._truncate_output default_settings MoreSamples.long_output
     = String.concat EmptyString (List.repeat "a" (Z.to_nat 10240))
       +:+ LF +:+ LF +:+ "[Output truncated - exceeded 10240 bytes]"
  /\ len (Docker._truncate_output default_settings MoreSamples.long_output)
     = 10240 + 43.
Proof.
  assert (H0 : 0 <= MAX_OUTPUT_SIZE default_settings)
    by (vm_compute; discriminate).
  assert (H1 : len MoreSamples.long_output > MAX_OUTPUT_SIZE default_settings)
    by (vm_compute; reflexivity).
  split; [exact H1|].
  destruct (truncate_output_bounded default_settings MoreSamples.long_output
              H0) as (_ & Hcut & _ & _).
  destruct (Hcut H1) as (E & _ & El).
  split; [rewrite E | rewrite El]; vm_compute; reflexivity.
Defined.

(** C8, as stated, fails: the ceiling is not one of bytes.  An output of
    10240 accented letters has as many characters as the default ceiling
    allows and is returned as it is, with its 20480 bytes, more than the
    ceiling and the marker together. *)
Lemma truncate_output_counts_characters_not_bytes :
  len MoreSamples.accented_output = MAX_OUTPUT_SIZE default_settings
  /\ utf8_size MoreSamples.accented_output = 20480
  /\ Docker._truncate_output default_settings MoreSamples.accented_output
     = MoreSamples.accented_output
  /\ utf8_size
       (Docker._truncate_output default_settings MoreSamples.accented_output)
     > MAX_OUTPUT_SIZE default_settings
       + utf8_size (Docker.truncation_marker
                      (MAX_OUTPUT_SIZE default_settings)).
Proof. repeat split; vm_compute; reflexivity. Qed.

(** C1 fails on the container backend.  The container of
    [print(undefined_name)] exits with status 1 and a traceback on stderr;
    [execute] returns the status and the traceback, but [success = true]. *)
Lemma docker_execute_runtime_error_reports_success :
  Docker.execute default_settings None (fun _ => Return name_error_container)
    "run-1" "print(undefined_name)" 10
  = {| success := true;
       stdout := EmptyString;
       stderr := name_error_stderr;
       exit_code := 1;
       error := None;
       files := [] |}.
Proof. vm_compute. reflexivity. Qed.

End DockerSamples.

(* ===================================================================== *)
(** * Properties of the executor factory *)
(* ===================================================================== *)

Section FactoryFacts.

Variable settings : Settings.
Variable reg : Factory.registry.

(** [create_executor] only ever adds to the cache, and what it adds for
    a provider is what it returns. *)
Lemma create_executor_keeps (provider : string)
    (cache : gmap string BaseExecutor) (k : string) (v : BaseExecutor) :
  cache !! k = Some v ->
  snd (Factory.create_executor settings reg (Some provider) cache) !! k
  = Some v.
Proof.
  intros Hk. unfold Factory.create_executor.
  fold (provider_key settings provider).
  destruct (cache !! provider_key settings provider) eqn:Hc; [exact Hk|].
  destruct (Factory.get reg (provider_key settings provider)) as [[ex|e]|e];
    simpl; try exact Hk.
  rewrite lookup_insert_ne; [exact Hk|]. intros <-. congruence.
Qed.

Lemma create_executor_caches (provider : string)
    (cache : gmap string BaseExecutor) (executor : BaseExecutor) :
  fst (Factory.create_executor settings reg (Some provider) cache)
  = Return executor ->
  snd (Factory.create_executor settings reg (Some provider) cache)
    !! provider_key settings provider
  = Some executor.
Proof.
  unfold Factory.create_executor. fold (provider_key settings provider).
  destruct (cache !! provider_key settings provider) eqn:Hc; simpl.
  - intros [= ->]. exact Hc.
  - destruct (Factory.get reg (provider_key settings provider))
      as [[ex|e]|e]; simpl; try discriminate.
    intros [= ->]. apply lookup_insert_eq.
Qed.

(** What [create_executor] has for a provider does not depend on the
    calls made before. *)
Lemma resolve_stable (provider : string) (cache : gmap string BaseExecutor)
    (p : string) :
  resolve settings reg
    (snd (Factory.create_executor settings reg (Some provider) cache)) p
  = resolve settings reg cache p.
Proof.
  unfold resolve, Factory.create_executor.
  fold (provider_key settings provider) (provider_key settings p).
  destruct (cache !! provider_key settings provider) eqn:Hc; [reflexivity|].
  destruct (Factory.get reg (provider_key settings provider))
    as [[ex|e]|e] eqn:Hget; try reflexivity.
  simpl.
  destruct (String.eqb_spec (provider_key settings p)
              (provider_key settings provider)) as [E|N].
  - rewrite E, lookup_insert_eq, Hc, Hget. reflexivity.
  - rewrite lookup_insert_ne by congruence.
    destruct (cache !! provider_key settings p); [reflexivity|].
    destruct (Factory.get reg (provider_key settings p)) as [[ex'|e]|e];
      reflexivity.
Qed.

Lemma try_provider_usable (provider : string)
    (cache : gmap string BaseExecutor) :
  fst (Factory.try_provider settings reg provider cache)
  = usable settings reg cache provider.
Proof.
  unfold Factory.try_provider, usable, resolve.
  destruct (Factory.create_executor _ _ _ _) as [[ex|e] cache']; simpl;
    [|reflexivity].
  destruct (health_check ex) as [[|]|e]; reflexivity.
Qed.

Lemma try_provider_cache (provider : string)
    (cache : gmap string BaseExecutor) :
  snd (Factory.try_provider settings reg provider cache)
  = snd (Factory.create_executor settings reg (Some provider) cache).
Proof.
  unfold Factory.try_provider.
  destruct (Factory.create_executor _ _ _ _) as [[ex|e] cache']; simpl;
    [|reflexivity].
  destruct (health_check ex) as [[|]|e]; reflexivity.
Qed.

Lemma same_offer_usable (cache cache' : gmap string BaseExecutor) :
  same_offer settings reg cache cache' ->
  forall p, usable settings reg cache' p = usable settings reg cache p.
Proof. intros H p. unfold usable. now rewrite H. Qed.

Lemma same_offer_try (cache cache' : gmap string BaseExecutor)
    (provider : string) :
  same_offer settings reg cache cache' ->
  same_offer settings reg cache
    (snd (Factory.try_provider settings reg provider cache')).
Proof.
  intros H p. rewrite try_provider_cache, resolve_stable. apply H.
Qed.

(** The loop returns the first eligible fallback. *)
Lemma try_fallbacks_first_eligible (cache0 : gmap string BaseExecutor)
    (primary : string) (providers : list string) :
  forall cache : gmap string BaseExecutor,
    same_offer settings reg cache0 cache ->
    fst (Factory.try_fallbacks settings reg primary providers cache)
    = match List.find (eligible settings reg cache0 primary) providers with
      | Some p => usable settings reg cache0 p
      | None => None
      end.
Proof.
  induction providers as [|p providers IH]; intros cache Hc; simpl;
    [reflexivity|].
  unfold eligible at 1.
  destruct (String.eqb p primary); simpl; [now apply IH|].
  destruct (Factory.has_provider reg p); simpl; [|now apply IH].
  pose proof (try_provider_usable p cache) as Hu.
  pose proof (same_offer_try cache0 cache p Hc) as Hc'.
  rewrite (same_offer_usable _ _ Hc) in Hu.
  destruct (Factory.try_provider settings reg p cache) as [[ex|] cache'];
    simpl in *; rewrite <- Hu; simpl; [exact Hu|]. now apply IH.
Qed.

(** The loop keeps what the cache holds. *)
Lemma try_fallbacks_keeps (primary : string) (providers : list string)
    (k : string) (v : BaseExecutor) :
  forall cache : gmap string BaseExecutor,
    cache !! k = Some v ->
    snd (Factory.try_fallbacks settings reg primary providers cache) !! k
    = Some v.
Proof.
  induction providers as [|p providers IH]; intros cache Hk; simpl;
    [exact Hk|].
  destruct (String.eqb p primary); [now apply IH|].
  destruct (negb (Factory.has_provider reg p)); [now apply IH|].
  pose proof (try_provider_cache p cache) as Hc.
  destruct (Factory.try_provider settings reg p cache) as [[ex|] cache'];
    simpl in *; subst cache'.
  - now apply create_executor_keeps.
  - apply IH. now apply create_executor_keeps.
Qed.

Lemma primary_cached (cache : gmap string BaseExecutor)
    (executor : BaseExecutor) :
  resolve settings reg cache (EXECUTOR_PROVIDER settings) = Return executor ->
  snd (Factory.create_executor settings reg
         (Some (EXECUTOR_PROVIDER settings)) cache)
    !! EXECUTOR_PROVIDER settings
  = Some executor.
Proof.
  intros E. apply create_executor_caches in E.
  unfold provider_key in E. now destruct (nonempty _).
Qed.

(** C6.  [get_healthy_executor] returns the primary provider's instance
    when the primary constructs and reports healthy.  Otherwise it returns
    the instance of the first provider of the fallback list that is not
    the primary, is registered, and constructs and reports healthy; when
    the list has none, it raises the error that lists the primary and the
    whole fallback list as tried, and the registered providers.  In every
    case an instance the primary constructed is in the cache afterwards,
    and the list of registered providers has each of them. *)
Theorem get_healthy_executor_fallback (cache : gmap string BaseExecutor) :
  let primary := EXECUTOR_PROVIDER settings in
  let fallbacks :=
    Factory._parse_fallback_providers (EXECUTOR_FALLBACK_PROVIDERS settings) in
  let outcome := Factory.get_healthy_executor settings reg cache in
  (forall executor,
     usable settings reg cache primary = Some executor ->
     fst outcome = Return executor)
  /\ (usable settings reg cache primary = None ->
      match List.find (eligible settings reg cache primary) fallbacks with
      | Some provider =>
          exists executor,
            usable settings reg cache provider = Some executor
            /\ fst outcome = Return executor
      | None =>
          fst outcome
          = Raise (exhausted_error (primary :: fallbacks)
                     (Factory.list_providers reg))
      end)
  /\ (forall executor,
        resolve settings reg cache primary = Return executor ->
        snd outcome !! primary = Some executor)
  /\ Permutation (Factory.list_providers reg) (Factory.keys reg).
Proof.
  intros primary fallbacks outcome.
  pose proof (try_provider_usable primary cache) as Hu.
  pose proof (try_provider_cache primary cache) as Hc.
  assert (Hoffer : same_offer settings reg cache
                     (snd (Factory.try_provider settings reg primary cache))).
  { apply same_offer_try. now intros p. }
  pose proof (try_fallbacks_first_eligible cache primary fallbacks _ Hoffer)
    as Hf.
  unfold outcome, Factory.get_healthy_executor. fold primary fallbacks.
  destruct (Factory.try_provider settings reg primary cache)
    as [[ex|] cache1]; simpl in *.
  - split; [|split; [|split]].
    + intros executor E. congruence.
    + intros E. congruence.
    + intros executor E. subst cache1. now apply primary_cached.
    + apply sorted_permutation.
  - destruct (Factory.try_fallbacks settings reg primary fallbacks cache1)
      as [[ex|] cache2] eqn:Hloop; simpl in *.
    + split; [|split; [|split]].
      * intros executor E. congruence.
      * intros _. destruct (List.find _ fallbacks) as [p|];
          [|discriminate]. exists ex. now split.
      * intros executor E.
        replace cache2 with
          (snd (Factory.try_fallbacks settings reg primary fallbacks cache1))
          by now rewrite Hloop.
        apply try_fallbacks_keeps. subst cache1. now apply primary_cached.
      * apply sorted_permutation.
    + split; [|split; [|split]].
      * intros executor E. congruence.
      * intros _. destruct (List.find _ fallbacks) as [p|] eqn:Hfind.
        -- apply List.find_some in Hfind as [_ Hp].
           unfold eligible in Hp. rewrite <- Hf in Hp.
           now rewrite andb_false_r in Hp.
        -- reflexivity.
      * intros executor E.
        replace cache2 with
          (snd (Factory.try_fallbacks settings reg primary fallbacks cache1))
          by now rewrite Hloop.
        apply try_fallbacks_keeps. subst cache1. now apply primary_cached.
      * apply sorted_permutation.
Qed.

End FactoryFacts.

Section FactorySamples.

Import Samples.

(** The primary, docker, constructs and is unhealthy; of the fallbacks,
    docker is the primary and gvisor is not registered; firecracker is
    returned, and docker's instance is in the cache. *)
Lemma get_healthy_executor_fallback_witness :
  usable fallback_settings two_providers ∅ "docker" = None
  /\ resolve fallback_settings two_providers ∅ "docker"
     = Return unhealthy_docker
  /\ fst (Factory.get_healthy_executor fallback_settings two_providers ∅)
     = Return healthy_firecracker
  /\ snd (Factory.get_healthy_executor fallback_settings two_providers ∅)
       !! "docker"
     = Some unhealthy_docker.
Proof.
  assert (H1 : usable fallback_settings two_providers ∅ "docker" = None)
    by reflexivity.
  assert (H2 : resolve fallback_settings two_providers ∅ "docker"
               = Return unhealthy_docker) by reflexivity.
  split; [exact H1|]. split; [exact H2|].
  pose proof (get_healthy_executor_fallback fallback_settings two_providers ∅)
    as [_ [Hfall [Hcache _]]].
  split.
  - specialize (Hfall H1).
    assert (Hfind : List.find
                      (eligible fallback_settings two_providers ∅
                         (EXECUTOR_PROVIDER fallback_settings))
                      (Factory._parse_fallback_providers
                         (EXECUTOR_FALLBACK_PROVIDERS fallback_settings))
                    = Some "firecracker") by reflexivity.
    rewrite Hfind in Hfall. destruct Hfall as [executor [Hu ->]].
    assert (Hff : usable fallback_settings two_providers ∅ "firecracker"
                  = Some healthy_firecracker) by reflexivity.
    congruence.
  - exact (Hcache unhealthy_docker H2).
Defined.

End FactorySamples.

(* ===================================================================== *)
(** * Properties of the guest agent *)
(* ===================================================================== *)

Section AgentFacts.

Variable json_loads : list Byte.byte -> result Agent.json.
Variable json_dumps : Agent.json -> list Byte.byte.
Variable str_value : Agent.json -> string.
Variable subprocess_run : Agent.json -> Agent.json -> Agent.run_outcome.
Variable fs : Agent.FileSystem.

Lemma firstn_exact {A : Type} (h t : list A) :
  List.firstn (List.length h) (h ++ t) = h.
Proof. induction h as [|x h IH]; simpl; [now destruct t | now rewrite IH]. Qed.

Lemma skipn_exact {A : Type} (h t : list A) :
  List.skipn (List.length h) (h ++ t) = t.
Proof. induction h as [|x h IH]; simpl; [reflexivity | exact IH]. Qed.

(** Taking a frame off the inbox. *)
Lemma recv_exact_frame (sock : Agent.socket) (h t : list Byte.byte) :
  Agent.inbox sock = h ++ t ->
  Agent.recv_exact sock (size_of h)
  = (h, {| Agent.inbox := t;
           Agent.outbox := Agent.outbox sock;
           Agent.writable := Agent.writable sock |}).
Proof.
  intros E. unfold Agent.recv_exact, size_of. rewrite Nat2Z.id, E.
  now rewrite firstn_exact, skipn_exact.
Qed.

(** What [handle_get_file] does for a request with a path, on a socket
    that takes the reply. *)
Lemma handle_get_file_missing (request : list (string * Agent.json))
    (sock : Agent.socket) (path : string) :
  Agent.writable sock = true ->
  Agent.dict_get request "path" (Agent.JStr EmptyString) = Agent.JStr path ->
  file_content fs path = None ->
  Agent.handle_get_file fs request sock
  = (Return tt, answered sock (Agent.inbox sock) Agent.zero_length).
Proof.
  intros Hw Hpath Hnone. unfold Agent.handle_get_file, file_content in *.
  rewrite Hpath. unfold Agent.sendall. rewrite Hw.
  destruct (Agent.exists_ fs path) as [[|]|e]; simpl; try reflexivity.
  destruct (Agent.is_file fs path) as [[|]|e]; simpl; try reflexivity.
  destruct (Agent.read_bytes fs path) as [content|e]; simpl;
    [discriminate|reflexivity].
Qed.

Lemma handle_get_file_content (request : list (string * Agent.json))
    (sock : Agent.socket) (path : string) (content prefix : list Byte.byte) :
  Agent.writable sock = true ->
  Agent.dict_get request "path" (Agent.JStr EmptyString) = Agent.JStr path ->
  file_content fs path = Some content ->
  pack_I (size_of content) = Some prefix ->
  Agent.handle_get_file fs request sock
  = (Return tt, answered sock (Agent.inbox sock) (prefix ++ content)).
Proof.
  intros Hw Hpath Hsome Hpack. unfold Agent.handle_get_file, file_content in *.
  rewrite Hpath. unfold Agent.sendall. rewrite Hw.
  destruct (Agent.exists_ fs path) as [[|]|e]; simpl; try discriminate.
  destruct (Agent.is_file fs path) as [[|]|e]; simpl; try discriminate.
  destruct (Agent.read_bytes fs path) as [c|e]; simpl; [|discriminate].
  injection Hsome as ->. rewrite Hpack. reflexivity.
Qed.

(** A file too long for a four-byte length is answered like a missing
    one. *)
Lemma handle_get_file_too_long (request : list (string * Agent.json))
    (sock : Agent.socket) (path : string) (content : list Byte.byte) :
  Agent.writable sock = true ->
  Agent.dict_get request "path" (Agent.JStr EmptyString) = Agent.JStr path ->
  file_content fs path = Some content ->
  pack_I (size_of content) = None ->
  Agent.handle_get_file fs request sock
  = (Return tt, answered sock (Agent.inbox sock) Agent.zero_length).
Proof.
  intros Hw Hpath Hsome Hpack. unfold Agent.handle_get_file, file_content in *.
  rewrite Hpath. unfold Agent.sendall. rewrite Hw.
  destruct (Agent.exists_ fs path) as [[|]|e]; simpl; try discriminate.
  destruct (Agent.is_file fs path) as [[|]|e]; simpl; try discriminate.
  destruct (Agent.read_bytes fs path) as [c|e]; simpl; [|discriminate].
  injection Hsome as ->. rewrite Hpack. reflexivity.
Qed.

(** [handle_request] on a framed [get_file] request hands it to
    [handle_get_file]. *)
Lemma handle_request_get_file (sock : Agent.socket)
    (header body rest : list Byte.byte)
    (request : list (string * Agent.json)) :
  Agent.inbox sock = header ++ body ++ rest ->
  List.length header = 4%nat ->
  unpack_I header = Some (size_of body) ->
  body <> [] ->
  json_loads body = Return (Agent.JDict request) ->
  Agent.dict_get request "action" (Agent.JStr EmptyString)
  = Agent.JStr "get_file" ->
  Agent.handle_request json_loads json_dumps str_value subprocess_run fs sock
  = match Agent.handle_get_file fs request
            {| Agent.inbox := rest;
               Agent.outbox := Agent.outbox sock;
               Agent.writable := Agent.writable sock |} with
    | (Return _, sock') => (true, sock')
    | (Raise _, sock') => (false, sock')
    end.
Proof.
  intros Hin Hlen Hunpack Hbody Hloads Haction.
  unfold Agent.handle_request.
  replace 4 with (size_of header) by (unfold size_of; now rewrite Hlen).
  rewrite (recv_exact_frame sock header (body ++ rest) Hin).
  destruct header as [|b3 header]; [discriminate|]. simpl Agent.is_empty.
  cbv iota. rewrite Hunpack.
  rewrite (recv_exact_frame _ body rest) by reflexivity.
  destruct body as [|b body]; [congruence|]. simpl Agent.is_empty.
  cbv iota. rewrite Hloads, Haction. simpl.
  destruct (Agent.handle_get_file _ _ _) as [[u|e] sock']; reflexivity.
Qed.

(** A round of the loop that goes on has taken bytes from the inbox. *)
Lemma handle_request_consumes (sock sock' : Agent.socket) :
  Agent.handle_request json_loads json_dumps str_value subprocess_run fs sock
  = (true, sock') ->
  (List.length (Agent.inbox sock') < List.length (Agent.inbox sock))%nat.
Proof.
  unfold Agent.handle_request, Agent.recv_exact. cbv beta iota zeta.
  destruct (List.firstn (Z.to_nat 4) (Agent.inbox sock))
    as [|b0 length_data] eqn:Hhead; cbn [Agent.is_empty];
    [intros [=]|].
  destruct (unpack_I (b0 :: length_data)) as [request_length|];
    [|intros [=]].
  cbn [Agent.inbox Agent.outbox Agent.writable].
  destruct (List.firstn (Z.to_nat request_length)
              (List.skipn (Z.to_nat 4) (Agent.inbox sock)))
    as [|b request_data]; cbn [Agent.is_empty]; [intros [=]|].
  assert (Hlt : (List.length
                   (List.skipn (Z.to_nat request_length)
                      (List.skipn (Z.to_nat 4) (Agent.inbox sock)))
                 < List.length (Agent.inbox sock))%nat).
  { rewrite !List.length_skipn.
    destruct (Agent.inbox sock) as [|x inbox]; [discriminate Hhead|].
    simpl. change (Z.to_nat 4) with 4%nat. lia. }
  destruct (json_loads (b :: request_data)) as [[| | | | | |request]|e];
    try (intros [=]; fail).
  assert (Hsend : forall s data r s',
             Agent.inbox s = Agent.inbox
                {| Agent.inbox :=
                     List.skipn (Z.to_nat request_length)
                       (List.skipn (Z.to_nat 4) (Agent.inbox sock));
                   Agent.outbox := Agent.outbox sock;
                   Agent.writable := Agent.writable sock |} ->
             Agent.sendall s data = (r, s') ->
             Agent.inbox s' = Agent.inbox s).
  { intros s data r s' _. unfold Agent.sendall.
    destruct (Agent.writable s); intros [= <- <-]; reflexivity. }
  set (conn := {| Agent.inbox := _ |}) in *.
  assert (Hresp : forall response r s',
             Agent.send_response json_dumps conn response = (r, s') ->
             Agent.inbox s' = Agent.inbox conn).
  { intros response r s'. unfold Agent.send_response.
    destruct (pack_I _); [|intros [= <- <-]; reflexivity].
    now apply Hsend. }
  assert (Hget : forall r s',
             Agent.handle_get_file fs request conn = (r, s') ->
             Agent.inbox s' = Agent.inbox conn).
  { intros r s'. unfold Agent.handle_get_file.
    destruct (Agent.dict_get request "path" _);
      try (intros [= <- <-]; reflexivity).
    destruct (bind _ _) as [bytes|e].
    - destruct (Agent.sendall conn bytes) as [[u|e] s1] eqn:H1.
      + intros [= <- <-]. now apply (Hsend conn bytes (Return u)).
      + intros H2. apply (Hsend conn bytes (Raise e) s1 eq_refl) in H1.
        apply (Hsend s1 _ r s') in H2; [congruence|exact H1].
    - now apply Hsend. }
  assert (Hall : forall r s',
             match Agent.dict_get request "action" (Agent.JStr EmptyString)
             with
             | Agent.JStr "execute" =>
                 Agent.send_response json_dumps conn
                   (Agent.response_dict
                      (Agent.handle_execute str_value subprocess_run request))
             | Agent.JStr "list_files" =>
                 match Agent.handle_list_files fs request with
                 | Return response =>
                     Agent.send_response json_dumps conn response
                 | Raise e => (Raise e, conn)
                 end
             | Agent.JStr "get_file" => Agent.handle_get_file fs request conn
             | _ =>
                 Agent.send_response json_dumps conn
                   (Agent.JDict
                      [("error",
                        Agent.JStr
                          ("Unknown action: "
                           +:+ str_value
                                 (Agent.dict_get request "action"
                                    (Agent.JStr EmptyString))))])
             end = (r, s') ->
             Agent.inbox s' = Agent.inbox conn).
  { intros r s' H.
    repeat match type of H with
           | match ?x with _ => _ end = _ =>
               destruct x; try (now apply Hresp in H);
               try (now apply Hget in H);
               try (injection H as <- <-; reflexivity)
           end. }
  match goal with
  | |- (let '(sent, sock0) := ?action in _) = _ -> _ =>
      pose proof (Hall (fst action) (snd action) (surjective_pairing _))
        as Hact;
      destruct action as [sent s1]
  end.
  simpl in Hact. destruct sent; intros [= <-]. rewrite Hact. exact Hlt.
Qed.

(** On an empty inbox the round ends the loop and changes nothing. *)
Lemma handle_request_closed (sock : Agent.socket) :
  Agent.inbox sock = [] ->
  Agent.handle_request json_loads json_dumps str_value subprocess_run fs sock
  = (false, sock).
Proof.
  intros E. unfold Agent.handle_request, Agent.recv_exact. rewrite E.
  destruct sock as [inbox outbox writable]. simpl in *. now subst.
Qed.

(** As many rounds as the inbox has bytes are enough: more change
    nothing. *)
Lemma serve_enough (n : nat) :
  forall (m : nat) (sock : Agent.socket),
    (List.length (Agent.inbox sock) <= n)%nat ->
    (List.length (Agent.inbox sock) <= m)%nat ->
    Agent.serve json_loads json_dumps str_value subprocess_run fs n sock
    = Agent.serve json_loads json_dumps str_value subprocess_run fs m sock.
Proof.
  induction n as [|n IH]; intros m sock Hn Hm.
  - destruct m as [|m]; [reflexivity|]. simpl.
    rewrite handle_request_closed; [reflexivity|].
    destruct (Agent.inbox sock); [reflexivity | simpl in Hn; lia].
  - destruct m as [|m]; simpl.
    + rewrite handle_request_closed; [reflexivity|].
      destruct (Agent.inbox sock); [reflexivity | simpl in Hm; lia].
    + destruct (Agent.handle_request _ _ _ _ _ sock) as [[|] sock'] eqn:E;
        [|reflexivity].
      apply handle_request_consumes in E. apply IH; lia.
Qed.

(** After a round that goes on, the loop serves the rest of the inbox. *)
Lemma serve_connection_goes_on (sock sock' : Agent.socket) :
  Agent.handle_request json_loads json_dumps str_value subprocess_run fs sock
  = (true, sock') ->
  Agent.serve_connection json_loads json_dumps str_value subprocess_run fs
    sock
  = Agent.serve_connection json_loads json_dumps str_value subprocess_run fs
      sock'.
Proof.
  intros E. pose proof (handle_request_consumes _ _ E) as Hlt.
  unfold Agent.serve_connection.
  destruct (List.length (Agent.inbox sock)) as [|k] eqn:Hk; [lia|].
  simpl. rewrite E. apply serve_enough; lia.
Qed.

(** C9.  For a framed [get_file] request on a connection that takes the
    reply.  When its path is a string: if the path is missing, is not a
    regular file or cannot be read, the agent sends four zero bytes and
    nothing else, and goes on serving the connection; otherwise, for a
    file whose length fits in four bytes, it sends that length as four
    bytes, most significant first, followed by the bytes of the file, and
    goes on serving the connection; a file too long for that is answered
    with the four zero bytes.  When its path is not a string, the agent
    sends nothing and the connection ends. *)
Theorem get_file_reply_is_raw_and_keeps_connection
    (sock : Agent.socket) (header body rest : list Byte.byte)
    (request : list (string * Agent.json)) :
  Agent.writable sock = true ->
  Agent.inbox sock = header ++ body ++ rest ->
  List.length header = 4%nat ->
  unpack_I header = Some (size_of body) ->
  body <> [] ->
  json_loads body = Return (Agent.JDict request) ->
  Agent.dict_get request "action" (Agent.JStr EmptyString)
  = Agent.JStr "get_file" ->
  let zeros := [Byte.x00; Byte.x00; Byte.x00; Byte.x00] in
  let round :=
    Agent.handle_request json_loads json_dumps str_value subprocess_run fs
      sock in
  let goes_on_from (sock' : Agent.socket) :=
    Agent.serve_connection json_loads json_dumps str_value subprocess_run
      fs sock
    = Agent.serve_connection json_loads json_dumps str_value subprocess_run
        fs sock' in
  (forall path,
     Agent.dict_get request "path" (Agent.JStr EmptyString)
     = Agent.JStr path ->
     (file_content fs path = None ->
      round = (true, answered sock rest zeros)
      /\ goes_on_from (answered sock rest zeros))
     /\ (forall content,
           file_content fs path = Some content ->
           (size_of content < 2 ^ 32 ->
            exists prefix,
              List.length prefix = 4%nat
              /\ unpack_I prefix = Some (size_of content)
              /\ round = (true, answered sock rest (prefix ++ content))
              /\ goes_on_from (answered sock rest (prefix ++ content)))
           /\ (2 ^ 32 <= size_of content ->
               round = (true, answered sock rest zeros)
               /\ goes_on_from (answered sock rest zeros))))
  /\ ((forall path,
         Agent.dict_get request "path" (Agent.JStr EmptyString)
         <> Agent.JStr path) ->
      round = (false, after_frame sock rest)
      /\ Agent.outbox (snd round) = Agent.outbox sock).
Proof.
  intros Hw Hin Hlen Hunpack Hbody Hloads Haction zeros round goes_on_from.
  pose proof (handle_request_get_file sock header body rest request
                Hin Hlen Hunpack Hbody Hloads Haction) as Hreq.
  fold round in Hreq. unfold goes_on_from.
  assert (Hzeros : Agent.zero_length = zeros) by reflexivity.
  split.
  - intros path Hpath. split; [|intros content Hsome; split].
    + intros Hnone.
      rewrite (handle_get_file_missing request _ path) in Hreq
        by (simpl; assumption).
      rewrite Hzeros in Hreq. unfold answered in *. simpl in Hreq.
      split; [exact Hreq | now apply serve_connection_goes_on].
    + intros Hsize.
      destruct (unpack_pack_I (size_of content)) as [prefix [Hp [Hl Hu]]].
      { unfold size_of in *. lia. }
      exists prefix. split; [exact Hl|]. split; [exact Hu|].
      rewrite (handle_get_file_content request _ path content prefix)
        in Hreq by (simpl; assumption).
      unfold answered in *. simpl in Hreq.
      split; [exact Hreq | now apply serve_connection_goes_on].
    + intros Hsize.
      assert (Hp : pack_I (size_of content) = None).
      { unfold pack_I. destruct (Z.ltb_spec (size_of content) (2 ^ 32));
          [lia|]. now rewrite Bool.andb_false_r. }
      rewrite (handle_get_file_too_long request _ path content) in Hreq
        by (simpl; assumption).
      rewrite Hzeros in Hreq. unfold answered in *. simpl in Hreq.
      split; [exact Hreq | now apply serve_connection_goes_on].
  - intros Hpath. unfold Agent.handle_get_file in Hreq.
    destruct (Agent.dict_get request "path" (Agent.JStr EmptyString))
      as [| | | |path| |]; try (rewrite Hreq; split; reflexivity).
    now destruct (Hpath path).
Qed.

End AgentFacts.

Section AgentSamples.

Import Samples.

(** A request for a file that is not there: four zero bytes, and the
    connection goes on. *)
Lemma get_file_reply_is_raw_and_keeps_connection_witness :
  Agent.writable missing_file_connection = true
  /\ file_content guest_fs "/tmp/output/none.txt" = None
  /\ Agent.handle_request (loads_as "/tmp/output/none.txt")
       (fun _ => []) (fun _ => EmptyString)
       (fun _ _ => Agent.TimeoutExpired) guest_fs missing_file_connection
     = (true,
        {| Agent.inbox := [];
           Agent.outbox := [Byte.x00; Byte.x00; Byte.x00; Byte.x00];
           Agent.writable := true |}).
Proof.
  assert (Hw : Agent.writable missing_file_connection = true)
    by reflexivity.
  assert (Hnone : file_content guest_fs "/tmp/output/none.txt" = None)
    by reflexivity.
  split; [exact Hw|]. split; [exact Hnone|].
  refine (proj1 (proj1 (proj1
            (get_file_reply_is_raw_and_keeps_connection
               (loads_as "/tmp/output/none.txt") (fun _ => [])
               (fun _ => EmptyString) (fun _ _ => Agent.TimeoutExpired)
               guest_fs missing_file_connection
               (List.firstn 4 (get_file_frame "/tmp/output/none.txt"))
               (get_file_body "/tmp/output/none.txt") []
               (get_file_request "/tmp/output/none.txt")
               Hw _ _ _ _ _ _) "/tmp/output/none.txt" _) Hnone)).
  - vm_compute; reflexivity.
  - reflexivity.
  - vm_compute; reflexivity.
  - vm_compute; discriminate.
  - reflexivity.
  - reflexivity.
  - reflexivity.
Defined.

(** C9, as stated, fails: not every [get_file] request is answered.  The
    request [{"action": "get_file", "path": 3}] has a number for a path;
    the agent sends nothing, not even the zero length, and
    [handle_request] returns [False], which ends the connection. *)
Lemma get_file_with_a_number_for_path_gets_no_reply :
  Agent.dict_get MoreSamples.numeric_path_request "action"
    (Agent.JStr EmptyString)
  = Agent.JStr "get_file"
  /\ Agent.handle_request
       (fun _ => Return (Agent.JDict MoreSamples.numeric_path_request))
       (fun _ => []) (fun _ => EmptyString)
       (fun _ _ => Agent.TimeoutExpired) guest_fs missing_file_connection
     = (false,
        {| Agent.inbox := [];
           Agent.outbox := [];
           Agent.writable := true |})
  /\ Agent.outbox
       (Agent.serve_connection
          (fun _ => Return (Agent.JDict MoreSamples.numeric_path_request))
          (fun _ => []) (fun _ => EmptyString)
          (fun _ _ => Agent.TimeoutExpired) guest_fs missing_file_connection)
     = [].
Proof. repeat split; vm_compute; reflexivity. Qed.

(** The same connection asking for the file there is: the reply is the
    length 6 in four bytes, then the six bytes. *)
Example get_file_existing_reply :
  Agent.outbox
    (Agent.serve_connection (loads_as "/tmp/output/plot.png")
       (fun _ => []) (fun _ => EmptyString)
       (fun _ _ => Agent.TimeoutExpired) guest_fs plot_connection)
  = [Byte.x00; Byte.x00; Byte.x00; Byte.x06] ++ plot_bytes.
Proof. vm_compute. reflexivity. Qed.

End AgentSamples.

(* ===================================================================== *)
(** * More about the validator *)
(* ===================================================================== *)

Section ValidatorMore.

Variable settings : Settings.
Variable ast_parse : string -> parse_outcome.

Lemma complexity_message_not_warning (complexity : Z) :
  is_warning (complexity_message settings complexity) = false.
Proof. reflexivity. Qed.

(** X1.  The list [validate] returns tells the verdict: with [ok = true]
    every entry is a warning, with [ok = false] at least one entry is not
    a warning. *)
Theorem validate_verdict_in_messages (code : string) :
  (fst (validate settings ast_parse code) = true ->
   Forall (fun err => is_warning err = true)
     (snd (validate settings ast_parse code)))
  /\ (fst (validate settings ast_parse code) = false ->
      Exists (fun err => is_warning err = false)
        (snd (validate settings ast_parse code))).
Proof.
  destruct (Z.gtb_spec (len code) (MAX_CODE_LENGTH settings)) as [Hl|Hl].
  { rewrite validate_too_long by lia. split; [discriminate|].
    intros _. now constructor. }
  destruct (ast_parse code) as [tree|lineno msg|e] eqn:Hparse.
  - destruct (_check_imports settings tree) as [|imp found] eqn:Himp.
    + rewrite (validate_steps_4_5 settings ast_parse code tree Hl Hparse Himp).
      destruct (_ >? _); simpl.
      * split; [discriminate|]. intros _. apply List.Exists_app. right.
        constructor. apply complexity_message_not_warning.
      * split; [|discriminate]. intros _.
        apply warning_messages_are_warnings.
    + rewrite (validate_step_3 settings ast_parse code tree Hl Hparse)
        by (rewrite Himp; discriminate).
      rewrite Himp. split; [discriminate|]. intros _. now constructor.
  - destruct (validate_unparsable settings ast_parse code Hl) as [m [E Hm]].
    { intros tree. rewrite Hparse. discriminate. }
    rewrite E. split; [discriminate|]. intros _. now constructor.
  - destruct (validate_unparsable settings ast_parse code Hl) as [m [E Hm]].
    { intros tree. rewrite Hparse. discriminate. }
    rewrite E. split; [discriminate|]. intros _. now constructor.
Qed.

(** X2.  [_check_imports] reports a name exactly when the tree has an
    import reference to it and its top-level component is forbidden. *)
Theorem check_imports_sound_and_complete (tree : node) (name : string) :
  In name (_check_imports settings tree) <->
  In name (List.flat_map import_references (descendants tree))
  /\ top_level name ∈ FORBIDDEN_IMPORTS settings.
Proof.
  pose proof (_check_imports_references settings tree) as HP.
  unfold forbidden_references in HP. split.
  - intros Hin. apply (Permutation_in _ HP) in Hin.
    apply List.filter_In in Hin as [Hin Hf]. split; [exact Hin|].
    now apply bool_decide_eq_true in Hf.
  - intros [Hin Hf]. apply (Permutation_in _ (Permutation_sym HP)).
    apply List.filter_In. split; [exact Hin|].
    now apply bool_decide_eq_true.
Qed.

Lemma patterns_of_node_advisory (n : node) : patterns_of_node n = advisory n.
Proof.
  unfold advisory.
  destruct n as [| | | |test ? ?| | | | | | |func ? ?| | | |]; try reflexivity.
  - destruct test as [| | | | | | | | | | | | |value| |]; try reflexivity.
    destruct value as [|[|]| | |]; reflexivity.
  - destruct func as [| | | | | | | | | | | |id ?| | |]; try reflexivity.
    simpl. destruct (bool_decide _); reflexivity.
Qed.

(** X3.  [_check_patterns] warns once for each [while True] node of the
    tree and once for each direct call of [eval], [exec], [compile] or
    [__import__], wherever the node is, and about nothing else. *)
Theorem check_patterns_one_per_node (tree : node) :
  Permutation (_check_patterns tree)
    (List.flat_map advisory (descendants tree)).
Proof.
  rewrite _check_patterns_walk.
  rewrite (List.flat_map_ext _ _ patterns_of_node_advisory).
  apply Permutation_flat_map, walk_descendants.
Qed.

Lemma sum_Z_app (l1 l2 : list Z) : sum_Z (l1 ++ l2) = sum_Z l1 + sum_Z l2.
Proof. induction l1 as [|x l1 IH]; simpl; lia. Qed.

Lemma sum_Z_flat_map (l : list node) :
  sum_Z (List.map decision_points (List.flat_map descendants l))
  = sum_Z (List.map added_complexity l).
Proof.
  induction l as [|c l IH]; simpl; [reflexivity|].
  rewrite List.map_app, sum_Z_app, IH. unfold added_complexity.
  rewrite _calculate_complexity_spec. unfold cyclomatic_complexity. lia.
Qed.

(** X4.  The complexity of a tree is 1, plus the decision points of its
    root, plus what each child's subtree adds: a statement put into a body
    raises the complexity by its own complexity less 1. *)
Theorem calculate_complexity_of_children (n : node) :
  _calculate_complexity n
  = 1 + decision_points n
    + sum_Z (List.map added_complexity (iter_child_nodes n)).
Proof.
  rewrite _calculate_complexity_spec. unfold cyclomatic_complexity.
  rewrite descendants_children. simpl. rewrite sum_Z_flat_map. lia.
Qed.

End ValidatorMore.

(* ===================================================================== *)
(** * More about the execution service *)
(* ===================================================================== *)

Section ServiceMore.

Variable settings : Settings.
Variable ast_parse : string -> parse_outcome.

(** X5.  One request makes at most one call of the backend's [execute],
    and that call carries the submitted code and timeout unchanged; the
    call is made exactly when the validation passes and the executor can
    be had, and its result is then returned as it is. *)
Theorem execute_code_calls_backend_once
    (get_executor : result BaseExecutor) (code : string) (timeout : Z)
    (st : Service.state) :
  let outcome :=
    Service.execute_code settings ast_parse get_executor code timeout st in
  match fst (Service.executor get_executor st) with
  | Return ex =>
      if fst (validate settings ast_parse code)
      then fst outcome = execute ex code timeout
           /\ Service.backend_calls (snd outcome)
              = Service.backend_calls st ++ [(code, timeout)]
      else Service.backend_calls (snd outcome) = Service.backend_calls st
  | Raise e =>
      Service.backend_calls (snd outcome) = Service.backend_calls st
      /\ (fst (validate settings ast_parse code) = true ->
          fst outcome = Raise e)
  end.
Proof.
  cbv zeta. unfold Service.execute_code, Service.executor.
  destruct (validate settings ast_parse code) as [[|] errors]; simpl;
    destruct (Service._executor st) as [ex|]; simpl;
    try destruct get_executor as [ex|e]; simpl;
    repeat split; auto; discriminate.
Qed.

(** X6.  The executor is built lazily and once: a request on a service
    that holds an executor uses that one, whatever [get_executor] would
    return now, and the service holds the same executor afterwards. *)
Theorem execute_code_keeps_executor
    (get_executor get_executor' : result BaseExecutor)
    (code : string) (timeout : Z) (st : Service.state) (ex : BaseExecutor) :
  Service._executor st = Some ex ->
  Service.execute_code settings ast_parse get_executor code timeout st
  = Service.execute_code settings ast_parse get_executor' code timeout st
  /\ Service._executor
       (snd (Service.execute_code settings ast_parse get_executor
               code timeout st))
     = Some ex.
Proof.
  intros Hex. unfold Service.execute_code, Service.executor. rewrite Hex.
  destruct (validate settings ast_parse code) as [[|] errors]; simpl;
    auto.
Qed.

End ServiceMore.

(* ===================================================================== *)
(** * More about the container backend *)
(* ===================================================================== *)

Section DockerMore.

Variable settings : Settings.
Variable execution_id : string.

(** X7.  [execute] reports a success exactly when the container started,
    ran to its end and gave its logs.  A success has no error tag; a
    failure has an empty stdout and no files, and is tagged either
    [Container error], or [Execution timeout] or [Execution failed] with
    exit code -1. *)
Theorem execute_result_shape
    (storage_manager : option Docker.StorageManager)
    (containers_run : string -> result Docker.Container)
    (code : string) (timeout : Z) :
  let r :=
    Docker.execute settings storage_manager containers_run execution_id
      code timeout in
  (success r = true <->
   exists container status out err,
     containers_run code = Return container
     /\ Docker.wait container timeout = Return status
     /\ Docker.logs_stdout container = Return out
     /\ Docker.logs_stderr container = Return err)
  /\ (success r = true -> error r = None)
  /\ (success r = false ->
      stdout r = EmptyString
      /\ files r = []
      /\ (error r = Some "Container error"
          \/ (exit_code r = -1
              /\ (error r = Some "Execution timeout"
                  \/ error r = Some "Execution failed")))).
Proof.
  cbv zeta. unfold Docker.execute.
  assert (Hfail : forall e,
            let r :=
              match e with
              | ContainerError exit_status msg =>
                  {| success := false; stdout := EmptyString; stderr := msg;
                     exit_code := exit_status;
                     error := Some "Container error"; files := [] |}
              | _ =>
                  {| success := false; stdout := EmptyString;
                     stderr := str_exn e; exit_code := -1;
                     error :=
                       Some (if contains "timeout" (lower (str_exn e))
                                || contains "timed out" (lower (str_exn e))
                             then "Execution timeout"
                             else "Execution failed");
                     files := [] |}
              end in
            success r = false
            /\ stdout r = EmptyString
            /\ files r = []
            /\ (error r = Some "Container error"
                \/ (exit_code r = -1
                    /\ (error r = Some "Execution timeout"
                        \/ error r = Some "Execution failed")))).
  { intros e. destruct e; simpl; repeat split; auto;
      destruct (_ || _); auto. }
  destruct (containers_run code) as [container|e] eqn:Hrun; simpl.
  2:{ destruct (Hfail e) as [Hs [Ho [Hf He]]].
      split; [split; [congruence | intros (c & s & o & r & H & _);
                                   discriminate]|].
      split; [congruence | auto]. }
  destruct (Docker.wait container timeout) as [status|e] eqn:Hwait; simpl.
  2:{ destruct (Hfail e) as [Hs [Ho [Hf He]]].
      split; [split; [congruence | intros (c & s & o & r & H1 & H2 & _);
                                   congruence]|].
      split; [congruence | auto]. }
  destruct (Docker.logs_stdout container) as [out|e] eqn:Hout; simpl.
  2:{ destruct (Hfail e) as [Hs [Ho [Hf He]]].
      split; [split; [congruence
                     | intros (c & s & o & r & H1 & H2 & H3 & _);
                       congruence]|].
      split; [congruence | auto]. }
  destruct (Docker.logs_stderr container) as [err|e] eqn:Herr; simpl.
  2:{ destruct (Hfail e) as [Hs [Ho [Hf He]]].
      split; [split; [congruence
                     | intros (c & s & o & r & H1 & H2 & H3 & H4);
                       congruence]|].
      split; [congruence | auto]. }
  split; [split; [|reflexivity]|split; [reflexivity|discriminate]].
  intros _. now exists container, status, out, err.
Qed.

(** The loop from any values of its variables: what it adds are the
    entries of a selection of the archive's members. *)
Lemma extract_members_selection (sm : Docker.StorageManager)
    (members : list Docker.TarInfo) :
  forall vars : Docker.extraction,
    Docker.file_count vars <= MAX_FILE_COUNT settings ->
    Docker.total_size vars <= MAX_TOTAL_SIZE settings ->
    exists taken,
      sublist taken members
      /\ forallb (fun m => negb (skipped settings m)) taken = true
      /\ Docker.file_count
           (Docker.extract_members settings execution_id sm vars members)
         = Docker.file_count vars + size_of taken
      /\ Docker.total_size
           (Docker.extract_members settings execution_id sm vars members)
         = Docker.total_size vars + cumulative_size taken
      /\ Docker.file_urls
           (Docker.extract_members settings execution_id sm vars members)
         = Docker.file_urls vars ++ urls_of execution_id sm taken
      /\ Docker.file_count vars + size_of taken <= MAX_FILE_COUNT settings
      /\ Docker.total_size vars + cumulative_size taken
         <= MAX_TOTAL_SIZE settings.
Proof.
  assert (Hnone : forall vars : Docker.extraction,
            Docker.file_count vars <= MAX_FILE_COUNT settings ->
            Docker.total_size vars <= MAX_TOTAL_SIZE settings ->
            forallb (fun m => negb (skipped settings m)) [] = true
            /\ Docker.file_count vars
               = Docker.file_count vars + size_of (@nil Docker.TarInfo)
            /\ Docker.total_size vars
               = Docker.total_size vars + cumulative_size []
            /\ Docker.file_urls vars
               = Docker.file_urls vars ++ urls_of execution_id sm []
            /\ Docker.file_count vars + size_of (@nil Docker.TarInfo)
               <= MAX_FILE_COUNT settings
            /\ Docker.total_size vars + cumulative_size []
               <= MAX_TOTAL_SIZE settings).
  { intros vars Hc Ht. unfold size_of, cumulative_size. simpl.
    rewrite List.app_nil_r. repeat split; lia. }
  induction members as [|m members IH]; intros vars Hc Ht.
  - exists []. split; [constructor|]. now apply Hnone.
  - assert (Hskip :
      Docker.extract_members settings execution_id sm vars (m :: members)
      = Docker.extract_members settings execution_id sm vars members ->
      exists taken,
        sublist taken (m :: members)
        /\ forallb (fun m => negb (skipped settings m)) taken = true
        /\ Docker.file_count
             (Docker.extract_members settings execution_id sm vars
                (m :: members))
           = Docker.file_count vars + size_of taken
        /\ Docker.total_size
             (Docker.extract_members settings execution_id sm vars
                (m :: members))
           = Docker.total_size vars + cumulative_size taken
        /\ Docker.file_urls
             (Docker.extract_members settings execution_id sm vars
                (m :: members))
           = Docker.file_urls vars ++ urls_of execution_id sm taken
        /\ Docker.file_count vars + size_of taken <= MAX_FILE_COUNT settings
        /\ Docker.total_size vars + cumulative_size taken
           <= MAX_TOTAL_SIZE settings).
    { intros E. rewrite E. destruct (IH vars Hc Ht) as [taken [Hsub H]].
      exists taken. split; [now constructor | exact H]. }
    assert (Hstop :
      Docker.extract_member settings execution_id sm vars m
      = Docker.Break vars ->
      exists taken,
        sublist taken (m :: members)
        /\ forallb (fun m => negb (skipped settings m)) taken = true
        /\ Docker.file_count
             (Docker.extract_members settings execution_id sm vars
                (m :: members))
           = Docker.file_count vars + size_of taken
        /\ Docker.total_size
             (Docker.extract_members settings execution_id sm vars
                (m :: members))
           = Docker.total_size vars + cumulative_size taken
        /\ Docker.file_urls
             (Docker.extract_members settings execution_id sm vars
                (m :: members))
           = Docker.file_urls vars ++ urls_of execution_id sm taken
        /\ Docker.file_count vars + size_of taken <= MAX_FILE_COUNT settings
        /\ Docker.total_size vars + cumulative_size taken
           <= MAX_TOTAL_SIZE settings).
    { intros E. simpl. rewrite E. exists [].
      split; [apply sublist_nil_l | now apply Hnone]. }
    destruct (skipped settings m) eqn:Hs.
    { apply Hskip. now apply extract_members_skip. }
    unfold skipped in Hs.
    destruct (negb (Docker.isfile m)) eqn:Hfile; [discriminate|].
    destruct (startswith (Docker.path_name (Docker.name m)) ".") eqn:Hdot;
      [discriminate|].
    destruct (Docker.size m >? MAX_FILE_SIZE settings) eqn:Hbig;
      [discriminate|].
    simpl in Hs.
    destruct (Z.geb_spec (Docker.file_count vars) (MAX_FILE_COUNT settings))
      as [Hge|Hlt].
    { apply Hstop. unfold Docker.extract_member. rewrite Hfile, Hdot.
      destruct (Z.geb_spec (Docker.file_count vars)
                  (MAX_FILE_COUNT settings)); [reflexivity|lia]. }
    destruct (Z.gtb_spec (Docker.total_size vars + Docker.size m)
                (MAX_TOTAL_SIZE settings)) as [Hover|Hfit].
    { apply Hstop. unfold Docker.extract_member. rewrite Hfile, Hdot, Hbig.
      destruct (Z.geb_spec (Docker.file_count vars)
                  (MAX_FILE_COUNT settings)); [lia|].
      destruct (Z.gtb_spec (Docker.total_size vars + Docker.size m)
                  (MAX_TOTAL_SIZE settings)); [reflexivity|lia]. }
    set (vars' :=
           {| Docker.total_size := Docker.total_size vars + Docker.size m;
              Docker.file_count := Docker.file_count vars + 1;
              Docker.file_urls :=
                match url_of execution_id sm m with
                | Some url => Docker.file_urls vars ++ [url]
                | None => Docker.file_urls vars
                end |}).
    assert (Estep : Docker.extract_member settings execution_id sm vars m
                    = Docker.Next vars').
    { unfold Docker.extract_member. rewrite Hfile, Hdot, Hbig.
      destruct (Z.geb_spec (Docker.file_count vars)
                  (MAX_FILE_COUNT settings)); [lia|].
      destruct (Z.gtb_spec (Docker.total_size vars + Docker.size m)
                  (MAX_TOTAL_SIZE settings)); [lia|].
      fold (Docker.size m). rewrite Hs. reflexivity. }
    destruct (IH vars') as (taken & Hsub & Hgood & Hcount & Htotal & Hurls
                            & Hbc & Hbt); simpl; try lia.
    exists (m :: taken). simpl. rewrite Estep.
    split; [now constructor|].
    split.
    { unfold skipped. rewrite Hfile, Hdot, Hbig, Hs. exact Hgood. }
    rewrite Hcount, Htotal, Hurls. simpl in *.
    unfold size_of, cumulative_size in *. simpl.
    rewrite Nat2Z.inj_succ.
    repeat split; try lia.
    unfold urls_of. simpl. fold (urls_of execution_id sm taken).
    destruct (url_of execution_id sm m); simpl;
      now rewrite <- ?List.app_assoc.
Qed.

(** X8.  With ceilings that are not negative, the files [extraction]
    hands to the storage manager are a selection, in archive order, of
    entries that are regular files, not dotfiles, not empty and within the
    per-file ceiling; they are at most [MAX_FILE_COUNT] and have at most
    [MAX_TOTAL_SIZE] bytes together; and the URLs returned are those the
    storage manager gave for them, in that order. *)
Theorem extraction_takes_a_bounded_selection
    (sm : Docker.StorageManager) (container : Docker.Container)
    (members : list Docker.TarInfo) :
  0 <= MAX_FILE_COUNT settings ->
  0 <= MAX_TOTAL_SIZE settings ->
  Docker.is_enabled sm = true ->
  Docker.get_archive container = Return members ->
  exists taken,
    sublist taken members
    /\ forallb (fun m => negb (skipped settings m)) taken = true
    /\ size_of taken <= MAX_FILE_COUNT settings
    /\ cumulative_size taken <= MAX_TOTAL_SIZE settings
    /\ Docker._extract_and_save_files settings (Some sm) execution_id
         container
       = urls_of execution_id sm taken.
Proof.
  intros Hc Ht Hen Harch.
  destruct (extract_members_selection sm members
              {| Docker.total_size := 0; Docker.file_count := 0;
                 Docker.file_urls := [] |})
    as (taken & Hsub & Hgood & _ & _ & Hurls & Hbc & Hbt); simpl; try lia.
  exists taken. simpl in *.
  split; [exact Hsub|]. split; [exact Hgood|].
  split; [lia|]. split; [lia|].
  unfold Docker._extract_and_save_files. rewrite Hen, Harch. exact Hurls.
Qed.

End DockerMore.

Section DockerClientFacts.

Variable DOCKER_IMAGE : string.

(** X9.  [DockerExecutor()] returns an executor exactly when the client
    can be had and the image is found, and then for the configured image.
    Whatever goes wrong, it raises a [DockerError] that starts with
    [Failed to initialize Docker client: ]; for a missing image that text
    goes on with the advice to build the image. *)
Theorem docker_executor_init (from_env : result DockerClient.Client) :
  (forall self,
     DockerClient.__init__ DOCKER_IMAGE from_env = Return self <->
     exists client,
       from_env = Return client
       /\ DockerClient.images_get client DOCKER_IMAGE
          = DockerClient.ImageFound
       /\ self = {| DockerClient.client := client;
                    DockerClient.image := DOCKER_IMAGE |})
  /\ (forall e,
        DockerClient.__init__ DOCKER_IMAGE from_env = Raise e ->
        exists reason,
          e = DockerError ("Failed to initialize Docker client: " +:+ reason))
  /\ (forall client,
        from_env = Return client ->
        DockerClient.images_get client DOCKER_IMAGE
        = DockerClient.ImageNotFound ->
        DockerClient.__init__ DOCKER_IMAGE from_env
        = Raise (DockerError
                   ("Failed to initialize Docker client: Sandbox image '"
                    +:+ DOCKER_IMAGE
                    +:+ "' not found. Please build it first: "
                    +:+ "docker build -t " +:+ DOCKER_IMAGE
                    +:+ " sandbox-image/"))).
Proof.
  unfold DockerClient.__init__, DockerClient._verify_image.
  destruct from_env as [client|e0]; simpl.
  - destruct (DockerClient.images_get client DOCKER_IMAGE) eqn:Himg; simpl.
    + split; [|split].
      * intros self. split.
        -- intros [= <-]. now exists client.
        -- intros (c & [= <-] & _ & ->). reflexivity.
      * intros e. discriminate.
      * intros c [= <-] H. congruence.
    + split; [|split].
      * intros self. split; [discriminate|].
        intros (c & [= <-] & H & _). congruence.
      * intros e [= <-]. eexists. reflexivity.
      * intros c _ _. reflexivity.
    + split; [|split].
      * intros self. split; [discriminate|].
        intros (c & [= <-] & H & _). congruence.
      * intros e1 [= <-]. eexists. reflexivity.
      * intros c [= <-] H. congruence.
  - split; [|split].
    + intros self. split; [discriminate|]. intros (c & H & _). discriminate.
    + intros e [= <-]. eexists. reflexivity.
    + intros c H. discriminate.
Qed.

(** X10.  [get_executor()] keeps one executor: once a call has returned
    an executor, every later call returns that one, whatever the daemon
    and the settings are then; a call that fails keeps nothing, so the
    next one tries again. *)
Theorem get_executor_singleton
    (from_env from_env' : result DockerClient.Client) (image' : string)
    (slot : option DockerClient.DockerExecutor) :
  (forall instance,
     fst (DockerClient.get_executor DOCKER_IMAGE from_env slot)
     = Return instance ->
     DockerClient.get_executor image' from_env'
       (snd (DockerClient.get_executor DOCKER_IMAGE from_env slot))
     = (Return instance, Some instance))
  /\ (forall e,
        fst (DockerClient.get_executor DOCKER_IMAGE from_env slot) = Raise e ->
        snd (DockerClient.get_executor DOCKER_IMAGE from_env slot) = None).
Proof.
  unfold DockerClient.get_executor. destruct slot as [instance0|]; simpl.
  - split; [intros instance [= <-]; reflexivity | discriminate].
  - destruct (DockerClient.__init__ DOCKER_IMAGE from_env); simpl.
    + split; [intros instance [= <-]; reflexivity | discriminate].
    + split; [discriminate | reflexivity].
Qed.

End DockerClientFacts.

(* ===================================================================== *)
(** * More about the registry and the factory *)
(* ===================================================================== *)

Section RegistryMore.

Lemma has_provider_lookup (reg : Factory.registry) (provider : string) :
  Factory.has_provider reg provider = true <->
  exists c, Factory.registry_lookup reg provider = Some c.
Proof.
  unfold Factory.has_provider. rewrite bool_decide_eq_true.
  induction reg as [|[k c] reg IH]; simpl.
  - split; [intros H; inversion H | intros [c H]; discriminate].
  - rewrite elem_of_cons. destruct (String.eqb_spec k provider) as [->|N].
    + split; [intros _; now exists c | intros _; now left].
    + rewrite <- IH. split; [intros [E|H]; [congruence|exact H] | now right].
Qed.

Lemma lookup_register_eq (provider : string) (c : Factory.executor_class)
    (reg : Factory.registry) :
  Factory.registry_lookup (Factory.register provider c reg) provider = Some c.
Proof.
  induction reg as [|[k c'] reg IH]; simpl.
  - now rewrite String.eqb_refl.
  - destruct (String.eqb_spec k provider) as [->|N]; simpl.
    + now rewrite String.eqb_refl.
    + destruct (String.eqb_spec k provider); [congruence | exact IH].
Qed.

Lemma lookup_register_ne (provider other : string)
    (c : Factory.executor_class) (reg : Factory.registry) :
  other <> provider ->
  Factory.registry_lookup (Factory.register provider c reg) other
  = Factory.registry_lookup reg other.
Proof.
  intros N. induction reg as [|[k c'] reg IH]; simpl.
  - destruct (String.eqb_spec provider other); [congruence | reflexivity].
  - destruct (String.eqb_spec k provider) as [->|N']; simpl.
    + destruct (String.eqb_spec provider other); [congruence | reflexivity].
    + destruct (String.eqb_spec k other); [reflexivity | exact IH].
Qed.

Lemma keys_register (provider : string) (c : Factory.executor_class)
    (reg : Factory.registry) :
  Factory.keys (Factory.register provider c reg)
  = if Factory.has_provider reg provider then Factory.keys reg
    else Factory.keys reg ++ [provider].
Proof.
  unfold Factory.has_provider, Factory.keys.
  induction reg as [|[k c'] reg IH]; simpl; [reflexivity|].
  destruct (String.eqb_spec k provider) as [->|N]; simpl.
  - rewrite bool_decide_eq_true_2 by now left. reflexivity.
  - rewrite IH. destruct (bool_decide (provider ∈ List.map fst reg)) eqn:E.
    + rewrite bool_decide_eq_true_2; [reflexivity|].
      right. now apply bool_decide_eq_true in E.
    + rewrite bool_decide_eq_false_2; [reflexivity|].
      apply bool_decide_eq_false in E. rewrite elem_of_cons.
      intros [H|H]; [congruence | contradiction].
Qed.

Lemma get_returns_registered (reg : Factory.registry) (provider : string)
    (c : Factory.executor_class) :
  Factory.get reg provider = Return c ->
  Factory.has_provider reg provider = true.
Proof.
  unfold Factory.get. intros H. apply has_provider_lookup.
  destruct (Factory.registry_lookup reg provider) as [c'|];
    [now exists c' | discriminate].
Qed.

(** X11.  After a class is registered under a name, [get] returns that
    class for the name and [has_provider] holds for it, whether the name
    was new or taken; every other name is as before; a name that was
    taken keeps its place among the keys, a new one goes last. *)
Theorem register_then_get (provider : string) (c : Factory.executor_class)
    (reg : Factory.registry) :
  Factory.get (Factory.register provider c reg) provider = Return c
  /\ Factory.has_provider (Factory.register provider c reg) provider = true
  /\ (forall other,
        other <> provider ->
        Factory.registry_lookup (Factory.register provider c reg) other
        = Factory.registry_lookup reg other
        /\ Factory.has_provider (Factory.register provider c reg) other
           = Factory.has_provider reg other)
  /\ Factory.keys (Factory.register provider c reg)
     = if Factory.has_provider reg provider then Factory.keys reg
       else Factory.keys reg ++ [provider].
Proof.
  split; [|split; [|split]].
  - unfold Factory.get. now rewrite lookup_register_eq.
  - apply has_provider_lookup. exists c. apply lookup_register_eq.
  - intros other N. split; [now apply lookup_register_ne|].
    destruct (Factory.has_provider reg other) eqn:E.
    + apply has_provider_lookup. apply has_provider_lookup in E.
      now rewrite lookup_register_ne.
    + destruct (Factory.has_provider (Factory.register provider c reg) other)
        eqn:E'; [|reflexivity].
      apply has_provider_lookup in E'. rewrite lookup_register_ne in E'
        by exact N.
      apply has_provider_lookup in E'. congruence.
  - apply keys_register.
Qed.

(** X12.  [get] and [has_provider] agree: [get] returns a class exactly
    for the names [has_provider] holds for, and for any other name it
    raises an [ExecutionError] that names the provider asked for. *)
Theorem get_agrees_with_has_provider (reg : Factory.registry)
    (provider : string) :
  (Factory.has_provider reg provider = true <->
   exists c, Factory.get reg provider = Return c)
  /\ (Factory.has_provider reg provider = false ->
      exists available,
        Factory.get reg provider
        = Raise (ExecutionError
                   ("Unknown executor provider '" +:+ provider
                    +:+ "'. Available providers: " +:+ available))).
Proof.
  pose proof (has_provider_lookup reg provider) as H.
  unfold Factory.get.
  destruct (Factory.registry_lookup reg provider) as [c|].
  - split.
    + split; [intros _; now exists c | intros _; apply H; now exists c].
    + intros E. assert (Factory.has_provider reg provider = true)
        by (apply H; now exists c). congruence.
  - split.
    + split; [intros E; apply H in E as [c E]; discriminate
             | intros [c E]; discriminate].
    + intros _. eexists. reflexivity.
Qed.

End RegistryMore.

Section FactoryMore.

Variable settings : Settings.

(** X13.  [create_executor] builds at most one instance per provider: an
    instance it has returned is returned again by every later call for the
    provider, without a look at the registry; a call that fails raises an
    [ExecutionError] and leaves the cache as it was. *)
Theorem create_executor_reuses_instance (reg reg' : Factory.registry)
    (provider : string) (cache : gmap string BaseExecutor) :
  (forall executor,
     fst (Factory.create_executor settings reg (Some provider) cache)
     = Return executor ->
     Factory.create_executor settings reg' (Some provider)
       (snd (Factory.create_executor settings reg (Some provider) cache))
     = (Return executor,
        snd (Factory.create_executor settings reg (Some provider) cache)))
  /\ (forall e,
        fst (Factory.create_executor settings reg (Some provider) cache)
        = Raise e ->
        (exists msg, e = ExecutionError msg)
        /\ snd (Factory.create_executor settings reg (Some provider) cache)
           = cache).
Proof.
  split.
  - intros executor E.
    pose proof (create_executor_caches settings reg provider cache executor E)
      as Hc.
    unfold Factory.create_executor at 1. fold (provider_key settings provider).
    now rewrite Hc.
  - unfold Factory.create_executor. fold (provider_key settings provider).
    destruct (cache !! provider_key settings provider); [discriminate|].
    unfold Factory.get.
    destruct (Factory.registry_lookup reg (provider_key settings provider))
      as [[ex|e0]|]; simpl; try discriminate;
      intros e [= <-]; split; eauto.
Qed.

Variable reg : Factory.registry.

Lemma try_provider_healthy (provider : string)
    (cache : gmap string BaseExecutor) (executor : BaseExecutor) :
  fst (Factory.try_provider settings reg provider cache) = Some executor ->
  health_check executor = Return true
  /\ snd (Factory.try_provider settings reg provider cache)
       !! provider_key settings provider
     = Some executor.
Proof.
  pose proof (create_executor_caches settings reg provider cache) as Hc.
  unfold Factory.try_provider.
  destruct (Factory.create_executor settings reg (Some provider) cache)
    as [[ex|e] cache']; simpl in *; [|discriminate].
  destruct (health_check ex) as [[|]|e] eqn:Hh; simpl; try discriminate.
  intros [= <-]. split; [exact Hh | now apply Hc].
Qed.

Lemma try_fallbacks_healthy (primary : string) (providers : list string)
    (executor : BaseExecutor) :
  forall cache : gmap string BaseExecutor,
    fst (Factory.try_fallbacks settings reg primary providers cache)
    = Some executor ->
    health_check executor = Return true
    /\ exists provider,
         snd (Factory.try_fallbacks settings reg primary providers cache)
           !! provider
         = Some executor.
Proof.
  induction providers as [|p providers IH]; intros cache; simpl;
    [discriminate|].
  destruct (String.eqb p primary); [apply IH|].
  destruct (negb (Factory.has_provider reg p)); [apply IH|].
  pose proof (try_provider_healthy p cache) as Hp.
  destruct (Factory.try_provider settings reg p cache) as [[ex|] cache'];
    simpl in *; [|apply IH].
  intros [= <-]. destruct (Hp ex eq_refl) as [Hh Hc].
  split; [exact Hh | eauto].
Qed.

(** X14.  [get_healthy_executor] never returns an executor whose health
    check failed or raised: what it returns reported healthy, and is in
    the cache afterwards. *)
Theorem get_healthy_executor_returns_healthy
    (cache : gmap string BaseExecutor) (executor : BaseExecutor) :
  fst (Factory.get_healthy_executor settings reg cache) = Return executor ->
  health_check executor = Return true
  /\ exists provider,
       snd (Factory.get_healthy_executor settings reg cache) !! provider
       = Some executor.
Proof.
  unfold Factory.get_healthy_executor.
  pose proof (try_provider_healthy (EXECUTOR_PROVIDER settings) cache) as Hp.
  destruct (Factory.try_provider settings reg (EXECUTOR_PROVIDER settings)
              cache) as [[ex|] cache1]; simpl in *.
  - intros [= <-]. destruct (Hp ex eq_refl) as [Hh Hc]. eauto.
  - pose proof (try_fallbacks_healthy (EXECUTOR_PROVIDER settings)
                  (Factory._parse_fallback_providers
                     (EXECUTOR_FALLBACK_PROVIDERS settings))) as Hf.
    destruct (Factory.try_fallbacks settings reg (EXECUTOR_PROVIDER settings)
                (Factory._parse_fallback_providers
                   (EXECUTOR_FALLBACK_PROVIDERS settings)) cache1)
      as [[ex|] cache2] eqn:Hloop; simpl; [|discriminate].
    intros [= <-]. specialize (Hf ex cache1). rewrite Hloop in Hf.
    now apply Hf.
Qed.

Lemma create_executor_registered (provider : string)
    (cache : gmap string BaseExecutor) :
  cache_registered reg cache ->
  cache_registered reg
    (snd (Factory.create_executor settings reg (Some provider) cache)).
Proof.
  intros Hinv. unfold Factory.create_executor.
  fold (provider_key settings provider).
  destruct (cache !! provider_key settings provider); [exact Hinv|].
  destruct (Factory.get reg (provider_key settings provider))
    as [[ex|e]|e] eqn:Hget; simpl; try exact Hinv.
  intros p executor.
  destruct (String.eqb_spec (provider_key settings provider) p) as [<-|N].
  - intros _. exact (get_returns_registered _ _ _ Hget).
  - rewrite lookup_insert_ne by exact N. apply Hinv.
Qed.

Lemma try_fallbacks_registered (primary : string) (providers : list string) :
  forall cache : gmap string BaseExecutor,
    cache_registered reg cache ->
    cache_registered reg
      (snd (Factory.try_fallbacks settings reg primary providers cache)).
Proof.
  induction providers as [|p providers IH]; intros cache Hinv; simpl;
    [exact Hinv|].
  destruct (String.eqb p primary); [now apply IH|].
  destruct (negb (Factory.has_provider reg p)); [now apply IH|].
  pose proof (try_provider_cache settings reg p cache) as Hc.
  pose proof (create_executor_registered p cache Hinv) as Hinv'.
  destruct (Factory.try_provider settings reg p cache) as [[ex|] cache'];
    simpl in *; subst cache'; [exact Hinv' | now apply IH].
Qed.

(** X15.  The factory caches instances of registered providers only: if
    every cached instance belongs to a registered provider before
    [get_healthy_executor], so it is afterwards. *)
Theorem get_healthy_executor_caches_registered
    (cache : gmap string BaseExecutor) :
  cache_registered reg cache ->
  cache_registered reg
    (snd (Factory.get_healthy_executor settings reg cache)).
Proof.
  intros Hinv. unfold Factory.get_healthy_executor.
  pose proof (try_provider_cache settings reg (EXECUTOR_PROVIDER settings)
                cache) as Hc.
  pose proof (create_executor_registered (EXECUTOR_PROVIDER settings) cache
                Hinv) as Hinv1.
  destruct (Factory.try_provider settings reg (EXECUTOR_PROVIDER settings)
              cache) as [[ex|] cache1]; simpl in *; subst cache1;
    [exact Hinv1|].
  pose proof (try_fallbacks_registered (EXECUTOR_PROVIDER settings)
                (Factory._parse_fallback_providers
                   (EXECUTOR_FALLBACK_PROVIDERS settings)) _ Hinv1) as Hinv2.
  destruct (Factory.try_fallbacks settings reg (EXECUTOR_PROVIDER settings)
              (Factory._parse_fallback_providers
                 (EXECUTOR_FALLBACK_PROVIDERS settings)) _)
    as [[ex|] cache2]; simpl in *; exact Hinv2.
Qed.

End FactoryMore.

(* ===================================================================== *)
(** * The fallback setting *)
(* ===================================================================== *)

Section FallbackSetting.

Lemma lstrip_clean (s : string) :
  match lstrip s with
  | EmptyString => True
  | String a _ => isspace a = false
  end.
Proof.
  induction s as [|a s IH]; simpl; [exact I|].
  destruct (isspace a) eqn:E; [exact IH | exact E].
Qed.

Lemma rstrip_idempotent (s : string) : rstrip (rstrip s) = rstrip s.
Proof.
  induction s as [|a s IH]; simpl; [reflexivity|].
  destruct (rstrip s) as [|b r] eqn:E.
  - destruct (isspace a) eqn:Ea; simpl; [reflexivity|]. now rewrite Ea.
  - simpl. simpl in IH. now rewrite IH.
Qed.

Lemma lstrip_of_clean (s : string) :
  match s with
  | EmptyString => True
  | String a _ => isspace a = false
  end ->
  lstrip (rstrip s) = rstrip s.
Proof.
  destruct s as [|a s]; simpl; [reflexivity|]. intros Ha.
  destruct (rstrip s); rewrite ?Ha; simpl; now rewrite Ha.
Qed.

(** [strip] of a stripped string changes nothing. *)
Lemma strip_idempotent (s : string) : strip (strip s) = strip s.
Proof.
  unfold strip. rewrite (lstrip_of_clean (lstrip s)) by apply lstrip_clean.
  apply rstrip_idempotent.
Qed.

Lemma split_not_nil (c : ascii) (s : string) : split c s <> [].
Proof.
  induction s as [|a s IH]; simpl; [discriminate|].
  destruct (Ascii.eqb a c); [discriminate|].
  destruct (split c s); [contradiction | discriminate].
Qed.

Lemma contains_cons (c a : ascii) (s : string) :
  contains (String c EmptyString) (String a s) = false ->
  Ascii.eqb a c = false /\ contains (String c EmptyString) s = false.
Proof.
  simpl. destruct (ascii_dec c a) as [->|N].
  - destruct s; discriminate.
  - intros H. split; [|exact H].
    apply Ascii.eqb_neq. congruence.
Qed.

(** A string without the separator is one piece, and a piece before a
    separator is split off whole. *)
Lemma split_one_piece (c : ascii) (s : string) :
  contains (String c EmptyString) s = false -> split c s = [s].
Proof.
  induction s as [|a s IH]; intros H; [reflexivity|].
  apply contains_cons in H as [Ha Hs]. simpl. rewrite Ha, (IH Hs).
  reflexivity.
Qed.

Lemma split_first_piece (c : ascii) (s rest : string) :
  contains (String c EmptyString) s = false ->
  split c (s +:+ String c rest) = s :: split c rest.
Proof.
  induction s as [|a s IH]; intros H.
  - simpl. now rewrite Ascii.eqb_refl.
  - apply contains_cons in H as [Ha Hs]. rewrite app_cons. simpl.
    rewrite Ha, (IH Hs). reflexivity.
Qed.

Lemma split_join (names : list string) :
  names <> [] ->
  forallb (fun name => negb (contains "," name)) names = true ->
  split "," (join "," names) = names.
Proof.
  unfold join. induction names as [|x names IH]; intros Hne Hc;
    [congruence|].
  simpl in Hc. apply andb_prop in Hc as [Hx Hc].
  apply negb_true_iff in Hx.
  destruct names as [|y names].
  - simpl. now apply split_one_piece.
  - change (String.concat "," (x :: y :: names))
      with (x +:+ String "," (String.concat "," (y :: names))).
    rewrite split_first_piece by exact Hx.
    rewrite IH by (try discriminate; exact Hc). reflexivity.
Qed.

(** X16.  Every provider name [_parse_fallback_providers] yields is not
    empty and has no white space around it, whatever the setting; and a
    setting written as clean names joined by commas parses back into
    those names, in order. *)
Theorem parse_fallback_providers_names :
  (forall fallback_config,
     Forall (fun name => nonempty name = true /\ strip name = name)
       (Factory._parse_fallback_providers fallback_config))
  /\ (forall names,
        forallb clean_name names = true ->
        Factory._parse_fallback_providers (join "," names) = names).
Proof.
  split.
  - intros fallback_config. unfold Factory._parse_fallback_providers.
    apply List.Forall_forall. intros name Hin.
    apply List.in_map_iff in Hin as [p [<- Hp]].
    apply List.filter_In in Hp as [_ Hp].
    split; [exact Hp | apply strip_idempotent].
  - intros names Hclean. unfold Factory._parse_fallback_providers.
    destruct names as [|x names]; [reflexivity|].
    rewrite split_join; [|discriminate|].
    + assert (Hall : forall l,
                forallb clean_name l = true ->
                List.map strip
                  (List.filter (fun p => nonempty (strip p)) l) = l).
      { induction l as [|y l IHl]; intros H; [reflexivity|].
        simpl in H. apply andb_prop in H as [Hy H].
        unfold clean_name in Hy.
        apply andb_prop in Hy as [Hy _]. apply andb_prop in Hy as [Hy1 Hy2].
        apply String.eqb_eq in Hy2. simpl. rewrite Hy2, Hy1. simpl.
        now rewrite Hy2, IHl. }
      now apply Hall.
    + apply List.forallb_forall. intros y Hy.
      rewrite List.forallb_forall in Hclean. specialize (Hclean y Hy).
      unfold clean_name in Hclean. now apply andb_prop in Hclean as [_ H].
Qed.

End FallbackSetting.

(* ===================================================================== *)
(** * More about the guest agent *)
(* ===================================================================== *)

Section AgentMore.

Variable json_loads : list Byte.byte -> result Agent.json.
Variable json_dumps : Agent.json -> list Byte.byte.
Variable str_value : Agent.json -> string.
Variable subprocess_run : Agent.json -> Agent.json -> Agent.run_outcome.
Variable fs : Agent.FileSystem.

(** The branch [handle_request] takes for an action. *)
Lemma action_dispatch {A : Type} (action : Agent.json) (e l g d : A) :
  match action with
  | Agent.JStr "execute" => e
  | Agent.JStr "list_files" => l
  | Agent.JStr "get_file" => g
  | _ => d
  end
  = if is_action action "execute" then e
    else if is_action action "list_files" then l
    else if is_action action "get_file" then g
    else d.
Proof.
  destruct action as [| | | |s| |]; try reflexivity. unfold is_action.
  repeat match goal with
         | |- context [match ?x with _ => _ end] =>
             is_var x; destruct x; try reflexivity
         end.
Qed.

(** [handle_request] on a framed message: the frame is taken off the
    inbox, the body decoded and the request dispatched. *)
Lemma handle_request_framed (sock : Agent.socket)
    (header body rest : list Byte.byte) :
  Agent.inbox sock = header ++ body ++ rest ->
  framed header body ->
  Agent.handle_request json_loads json_dumps str_value subprocess_run fs sock
  = match json_loads body with
    | Return (Agent.JDict request) =>
        match dispatch json_dumps str_value subprocess_run fs request
               (after_frame sock rest) with
        | (Return _, sock') => (true, sock')
        | (Raise _, sock') => (false, sock')
        end
    | _ => (false, after_frame sock rest)
    end.
Proof.
  intros Hin (Hlen & Hunpack & Hbody).
  unfold Agent.handle_request.
  replace 4 with (size_of header) by (unfold size_of; now rewrite Hlen).
  rewrite (recv_exact_frame sock header (body ++ rest) Hin).
  destruct header as [|b3 header]; [discriminate|]. simpl Agent.is_empty.
  cbv iota. rewrite Hunpack.
  rewrite (recv_exact_frame _ body rest) by reflexivity.
  destruct body as [|b body]; [congruence|]. simpl Agent.is_empty.
  cbv iota. unfold after_frame. simpl Agent.outbox. simpl Agent.writable.
  destruct (json_loads (b :: body)) as [[| | | | | |request]|e];
    try reflexivity.
  unfold dispatch. rewrite action_dispatch.
  destruct (if is_action _ "execute" then _ else _) as [[u|e] sock'];
    reflexivity.
Qed.

Lemma extends_refl (conn : Agent.socket) : extends conn conn.
Proof. split; [reflexivity|]. exists []. now rewrite List.app_nil_r. Qed.

Lemma extends_trans (a b c : Agent.socket) :
  extends a b -> extends b c -> extends a c.
Proof.
  intros [Hi1 [s1 Ho1]] [Hi2 [s2 Ho2]]. split; [congruence|].
  exists (s1 ++ s2). rewrite Ho2, Ho1. now rewrite List.app_assoc.
Qed.

Lemma sendall_extends (conn : Agent.socket) (data : list Byte.byte) :
  extends conn (snd (Agent.sendall conn data)).
Proof.
  unfold Agent.sendall. destruct (Agent.writable conn); simpl.
  - split; [reflexivity|]. now exists data.
  - apply extends_refl.
Qed.

Lemma send_response_extends (conn : Agent.socket) (response : Agent.json) :
  extends conn (snd (Agent.send_response json_dumps conn response)).
Proof.
  unfold Agent.send_response. destruct (pack_I _).
  - apply sendall_extends.
  - apply extends_refl.
Qed.

Lemma handle_get_file_extends (request : list (string * Agent.json))
    (conn : Agent.socket) :
  extends conn (snd (Agent.handle_get_file fs request conn)).
Proof.
  unfold Agent.handle_get_file.
  destruct (Agent.dict_get request "path" _); try apply extends_refl.
  destruct (bind _ _) as [bytes|e]; [|apply sendall_extends].
  pose proof (sendall_extends conn bytes) as H1.
  destruct (Agent.sendall conn bytes) as [[u|e] s1]; simpl in *;
    [exact H1|].
  eapply extends_trans; [exact H1 | apply sendall_extends].
Qed.

Lemma dispatch_extends (request : list (string * Agent.json))
    (conn : Agent.socket) :
  extends conn
    (snd (dispatch json_dumps str_value subprocess_run fs request conn)).
Proof.
  unfold dispatch.
  destruct (is_action _ "execute"); [apply send_response_extends|].
  destruct (is_action _ "list_files").
  { destruct (Agent.handle_list_files fs request);
      [apply send_response_extends | apply extends_refl]. }
  destruct (is_action _ "get_file");
    [apply handle_get_file_extends | apply send_response_extends].
Qed.

(** X17.  Whatever a framed message holds, [handle_request] takes exactly
    that frame off the stream, leaving the bytes that follow it for the
    next round, and what was sent before stays sent: it only adds to the
    outbox. *)
Theorem handle_request_takes_one_frame (sock : Agent.socket)
    (header body rest : list Byte.byte) :
  Agent.inbox sock = header ++ body ++ rest ->
  framed header body ->
  Agent.inbox
    (snd (Agent.handle_request json_loads json_dumps str_value
            subprocess_run fs sock))
  = rest
  /\ exists sent,
       Agent.outbox
         (snd (Agent.handle_request json_loads json_dumps str_value
                 subprocess_run fs sock))
       = Agent.outbox sock ++ sent.
Proof.
  intros Hin Hframed. rewrite (handle_request_framed _ _ _ _ Hin Hframed).
  assert (Hstay : Agent.inbox (after_frame sock rest) = rest
                  /\ exists sent,
                       Agent.outbox (after_frame sock rest)
                       = Agent.outbox sock ++ sent).
  { split; [reflexivity|]. exists []. simpl. now rewrite List.app_nil_r. }
  destruct (json_loads body) as [[| | | | | |request]|e]; try exact Hstay.
  pose proof (dispatch_extends request (after_frame sock rest)) as [Hi Ho].
  destruct (dispatch json_dumps str_value subprocess_run fs request
               (after_frame sock rest)) as [[u|e] sock'];
    simpl in *; (split; [exact Hi | exact Ho]).
Qed.

(** X18.  A framed message that is not JSON, or is JSON but not an
    object, gets no reply: [handle_request] returns [False], which ends
    the connection, and nothing is sent. *)
Theorem handle_request_undecodable (sock : Agent.socket)
    (header body rest : list Byte.byte) :
  Agent.inbox sock = header ++ body ++ rest ->
  framed header body ->
  (forall request, json_loads body <> Return (Agent.JDict request)) ->
  Agent.handle_request json_loads json_dumps str_value subprocess_run fs sock
  = (false, after_frame sock rest).
Proof.
  intros Hin Hframed Hbad. rewrite (handle_request_framed _ _ _ _ Hin Hframed).
  destruct (json_loads body) as [[| | | | | |request]|e]; try reflexivity.
  now destruct (Hbad request).
Qed.

(** X19.  A request whose action is none of [execute], [list_files] and
    [get_file] is answered with the framed JSON object
    [{"error": "Unknown action: ..."}], and the connection goes on. *)
Theorem handle_request_unknown_action (sock : Agent.socket)
    (header body rest : list Byte.byte)
    (request : list (string * Agent.json)) :
  Agent.writable sock = true ->
  Agent.inbox sock = header ++ body ++ rest ->
  framed header body ->
  json_loads body = Return (Agent.JDict request) ->
  let action :=
    Agent.dict_get request "action" (Agent.JStr EmptyString) in
  let reply :=
    json_dumps
      (Agent.JDict
         [("error", Agent.JStr ("Unknown action: " +:+ str_value action))]) in
  is_action action "execute" = false ->
  is_action action "list_files" = false ->
  is_action action "get_file" = false ->
  size_of reply < 2 ^ 32 ->
  exists prefix,
    List.length prefix = 4%nat
    /\ unpack_I prefix = Some (size_of reply)
    /\ Agent.handle_request json_loads json_dumps str_value subprocess_run
         fs sock
       = (true, answered sock rest (prefix ++ reply)).
Proof.
  intros Hw Hin Hframed Hloads action reply He Hl Hg Hsize.
  destruct (unpack_pack_I (size_of reply)) as [prefix [Hp [Hlen Hu]]].
  { unfold size_of in *. lia. }
  exists prefix. split; [exact Hlen|]. split; [exact Hu|].
  rewrite (handle_request_framed _ _ _ _ Hin Hframed), Hloads.
  unfold dispatch. fold action. rewrite He, Hl, Hg.
  unfold Agent.send_response. fold action. fold reply. rewrite Hp.
  unfold Agent.sendall, after_frame. simpl. rewrite Hw. reflexivity.
Qed.

(** X20.  A [get_file] request whose [path] is not a string gets no reply
    at all, not even the zero length: [Path(...)] raises before the [try],
    [handle_request] returns [False] and the connection ends. *)
Theorem handle_request_get_file_bad_path (sock : Agent.socket)
    (header body rest : list Byte.byte)
    (request : list (string * Agent.json)) :
  Agent.inbox sock = header ++ body ++ rest ->
  framed header body ->
  json_loads body = Return (Agent.JDict request) ->
  Agent.dict_get request "action" (Agent.JStr EmptyString)
  = Agent.JStr "get_file" ->
  (forall path,
     Agent.dict_get request "path" (Agent.JStr EmptyString)
     <> Agent.JStr path) ->
  Agent.handle_request json_loads json_dumps str_value subprocess_run fs sock
  = (false, after_frame sock rest).
Proof.
  intros Hin Hframed Hloads Haction Hpath.
  rewrite (handle_request_framed _ _ _ _ Hin Hframed), Hloads.
  unfold dispatch. rewrite Haction. simpl.
  unfold Agent.handle_get_file.
  destruct (Agent.dict_get request "path" _) as [| | | |path| |];
    try reflexivity.
  now destruct (Hpath path).
Qed.

(** X21.  [handle_list_files] on a path that is a string always answers
    with an object that has a list under [files]: the names of the regular
    files of the directory; no name when the directory is missing; and,
    when the file system fails on looking for the directory or on
    listing it, no name beside an [error] entry with the text of the
    failure. *)
Theorem handle_list_files_always_lists
    (request : list (string * Agent.json)) (path : string) :
  Agent.dict_get request "path" (Agent.JStr "/tmp/output") = Agent.JStr path ->
  exists response files,
    Agent.handle_list_files fs request = Return (Agent.JDict response)
    /\ Agent.dict_get response "files" Agent.JNull
       = Agent.JList (List.map Agent.JStr files)
    /\ (Agent.exists_ fs path = Return false ->
        files = [] /\ response = [("files", Agent.JList [])])
    /\ (forall names,
          Agent.exists_ fs path = Return true ->
          Agent.iterdir_files fs path = Return names ->
          files = names
          /\ response = [("files", Agent.JList (List.map Agent.JStr names))])
    /\ (forall e,
          Agent.exists_ fs path = Raise e
          \/ (Agent.exists_ fs path = Return true
              /\ Agent.iterdir_files fs path = Raise e) ->
          files = []
          /\ response
             = [("error", Agent.JStr (str_exn e));
                ("files", Agent.JList [])]).
Proof.
  intros Hpath. unfold Agent.handle_list_files. rewrite Hpath.
  destruct (Agent.exists_ fs path) as [[|]|e0]; simpl.
  - destruct (Agent.iterdir_files fs path) as [names|e0]; simpl.
    + eexists. exists names. split; [reflexivity|]. split; [reflexivity|].
      split; [discriminate|]. split.
      * intros names' _ [= <-]. split; reflexivity.
      * intros e [H|[_ H]]; discriminate.
    + eexists. exists []. split; [reflexivity|]. split; [reflexivity|].
      split; [discriminate|]. split.
      * intros names' _ H. discriminate.
      * intros e [H|[_ [= <-]]]; [discriminate|]. split; reflexivity.
  - eexists. exists []. split; [reflexivity|]. split; [reflexivity|].
    split; [intros _; split; reflexivity|]. split.
    + intros names' H. discriminate.
    + intros e [H|[H _]]; discriminate.
  - eexists. exists []. split; [reflexivity|]. split; [reflexivity|].
    split; [discriminate|]. split.
    + intros names' H. discriminate.
    + intros e [[= <-]|[H _]]; [|discriminate]. split; reflexivity.
Qed.

Lemma handle_request_get_file_reply (sock : Agent.socket)
    (rest : list Byte.byte) (m : get_file_message) :
  Agent.writable sock = true ->
  Agent.inbox sock = msg_header m ++ msg_body m ++ rest ->
  well_formed json_loads m ->
  Agent.handle_request json_loads json_dumps str_value subprocess_run fs sock
  = (true, answered sock rest (get_file_reply fs (msg_path m))).
Proof.
  intros Hw Hin ((Hlen & Hunpack & Hbody) & Hloads & Haction & Hpath).
  rewrite (handle_request_get_file json_loads json_dumps str_value
             subprocess_run fs sock _ _ rest _ Hin Hlen Hunpack Hbody
             Hloads Haction).
  unfold get_file_reply.
  destruct (file_content fs (msg_path m)) as [content|] eqn:Hfile.
  - destruct (pack_I (size_of content)) as [prefix|] eqn:Hpack.
    + rewrite (handle_get_file_content fs _ _ (msg_path m) content prefix)
        by (simpl; assumption).
      reflexivity.
    + rewrite (handle_get_file_too_long fs _ _ (msg_path m) content)
        by (simpl; assumption).
      reflexivity.
  - rewrite (handle_get_file_missing fs _ _ (msg_path m))
      by (simpl; assumption).
    reflexivity.
Qed.

(** X22.  Requests sent one after the other on a connection are answered
    one after the other: for a stream of well-formed [get_file] requests
    the agent sends the replies in the order of the requests, each reply
    whole, and has read the stream to its end. *)
Theorem serve_connection_answers_in_order
    (messages : list get_file_message) :
  forall sock : Agent.socket,
    Agent.writable sock = true ->
    Agent.inbox sock = List.flat_map msg_bytes messages ->
    Forall (well_formed json_loads) messages ->
    Agent.serve_connection json_loads json_dumps str_value subprocess_run
      fs sock
    = answered sock []
        (List.flat_map (fun m => get_file_reply fs (msg_path m)) messages).
Proof.
  induction messages as [|m messages IH]; intros sock Hw Hin Hwf.
  - unfold Agent.serve_connection. rewrite Hin. simpl.
    destruct sock as [inbox outbox writable]. unfold answered. simpl in *.
    subst. now rewrite List.app_nil_r.
  - inversion Hwf as [|? ? Hm Hrest]; subst.
    simpl in Hin. unfold msg_bytes in Hin at 1.
    rewrite <- List.app_assoc in Hin.
    pose proof (handle_request_get_file_reply sock _ m Hw Hin Hm) as Hreq.
    rewrite (serve_connection_goes_on json_loads json_dumps str_value
               subprocess_run fs _ _ Hreq).
    rewrite IH; try reflexivity; try assumption.
    unfold answered. simpl. now rewrite List.app_assoc.
Qed.

End AgentMore.

(* ===================================================================== *)
(** * The host and the guest agent together *)
(* ===================================================================== *)

Section HostAndGuest.

(** The JSON functions of the host and of the guest, and the exceptions
    of the host's library calls. *)
Variable host_dumps : Agent.json -> list Byte.byte.
Variable host_loads : list Byte.byte -> result Agent.json.
Variable pack_error : Z -> exn.
Variable unpack_error : list Byte.byte -> exn.
Variable get_error : Agent.json -> exn.
Variable guest_loads : list Byte.byte -> result Agent.json.
Variable guest_dumps : Agent.json -> list Byte.byte.
Variable str_value : Agent.json -> string.
Variable subprocess_run : Agent.json -> Agent.json -> Agent.run_outcome.
Variable fs : Agent.FileSystem.

Lemma serve_connection_closed (sock : Agent.socket) :
  Agent.inbox sock = [] ->
  Agent.serve_connection guest_loads guest_dumps str_value subprocess_run
    fs sock = sock.
Proof. intros E. unfold Agent.serve_connection. now rewrite E. Qed.

(** What the host reads from a stream that starts with a frame. *)
Lemma read_frame (header body rest : list Byte.byte) :
  framed header body ->
  List.firstn 4 (header ++ body ++ rest) = header
  /\ Agent.is_empty header = false
  /\ List.firstn (Z.to_nat (size_of body))
       (List.skipn 4 (header ++ body ++ rest)) = body
  /\ Agent.is_empty body = false.
Proof.
  intros (Hlen & _ & Hbody).
  replace 4%nat with (List.length header) by exact Hlen.
  rewrite firstn_exact, skipn_exact. unfold size_of. rewrite Nat2Z.id.
  rewrite firstn_exact.
  repeat split; [destruct header | destruct body]; try reflexivity;
    [discriminate | congruence].
Qed.

(** The answer of the agent to the request of the host, when it comes
    in time. *)
Lemma agent_answers_in_time (code : string) (timeout elapsed : Z) :
  let request := execute_request code timeout in
  let reply := Agent.handle_execute str_value subprocess_run request in
  let request_data := host_dumps (Agent.JDict request) in
  let response_data := guest_dumps (Agent.response_dict reply) in
  guest_loads request_data = Return (Agent.JDict request) ->
  host_loads response_data = Return (Agent.response_dict reply) ->
  0 < size_of request_data < 2 ^ 32 ->
  0 < size_of response_data < 2 ^ 32 ->
  elapsed < timeout ->
  Firecracker._execute_code_in_vm host_dumps host_loads pack_error
    unpack_error get_error
    (agent_vsock guest_loads guest_dumps str_value subprocess_run fs
       elapsed)
    code timeout
  = {| Firecracker.vm_success := Agent.JBool (Agent.r_success reply);
       Firecracker.vm_stdout := Agent.JStr (Agent.r_stdout reply);
       Firecracker.vm_stderr := Agent.JStr (Agent.r_stderr reply);
       Firecracker.vm_exit_code := Agent.JInt (Agent.r_exit_code reply);
       Firecracker.vm_error := None |}.
Proof.
  intros request reply request_data response_data Hreq Hresp Hsreq Hsresp
    Htime.
  destruct (unpack_pack_I (size_of request_data)) as (p & Hp & Hpl & Hpu);
    [lia|].
  destruct (unpack_pack_I (size_of response_data)) as (q & Hq & Hql & Hqu);
    [lia|].
  assert (Hnreq : request_data <> []).
  { intros E. rewrite E in Hsreq. unfold size_of in Hsreq. simpl in Hsreq.
    lia. }
  assert (Hnresp : response_data <> []).
  { intros E. rewrite E in Hsresp. unfold size_of in Hsresp.
    simpl in Hsresp. lia. }
  set (conn := {| Agent.inbox := p ++ request_data;
                  Agent.outbox := [];
                  Agent.writable := true |}).
  assert (Hround :
    Agent.handle_request guest_loads guest_dumps str_value subprocess_run
      fs conn
    = (true, answered conn [] (q ++ response_data))).
  { rewrite (handle_request_framed guest_loads guest_dumps str_value
               subprocess_run fs conn p request_data []).
    - rewrite Hreq. unfold dispatch. simpl.
      unfold Agent.send_response. fold request reply response_data.
      rewrite Hq. reflexivity.
    - simpl. now rewrite List.app_nil_r.
    - repeat split; assumption. }
  assert (Hserve :
    Agent.outbox
      (Agent.serve_connection guest_loads guest_dumps str_value
         subprocess_run fs conn)
    = q ++ response_data ++ []).
  { rewrite (serve_connection_goes_on guest_loads guest_dumps str_value
               subprocess_run fs _ _ Hround).
    rewrite serve_connection_closed by reflexivity.
    now rewrite List.app_nil_r. }
  assert (Hframed : framed q response_data) by (repeat split; assumption).
  destruct (read_frame q response_data [] Hframed) as (R1 & R2 & R3 & R4).
  unfold Firecracker._execute_code_in_vm, agent_vsock.
  cbn [Firecracker.agent_ready Firecracker.connect Firecracker.exchange
       negb Firecracker.io_bind].
  change (host_dumps _) with request_data.
  rewrite Hp.
  destruct (Z.ltb_spec elapsed timeout) as [_|]; [|lia].
  cbn [Firecracker.io_bind]. fold conn. rewrite Hserve.
  rewrite R1, R2, Hqu, R3, R4, Hresp. reflexivity.
Qed.

(** X23.  Host and guest agree on the protocol, within the host's
    deadline.  Take a guest that runs the agent and answers [elapsed]
    seconds after the host starts to read, each side decoding what the
    other encodes, request and reply not empty and fitting the four-byte
    length.  When the answer comes within the timeout, a script that ran
    to its end gives [success] exactly when its return code is 0, with its
    output, its stderr and its exit code and no [error] key, and a script
    that could not be started gives the agent's failure reply; when it
    does not, as for a script that runs out of its time in the guest, the
    host returns the result tagged [Execution timeout]. *)
Theorem execute_in_vm_returns_agent_reply (code : string)
    (timeout elapsed : Z) :
  let request := execute_request code timeout in
  let reply := Agent.handle_execute str_value subprocess_run request in
  let request_data := host_dumps (Agent.JDict request) in
  let response_data := guest_dumps (Agent.response_dict reply) in
  let r :=
    Firecracker._execute_code_in_vm host_dumps host_loads pack_error
      unpack_error get_error
      (agent_vsock guest_loads guest_dumps str_value subprocess_run fs
         elapsed)
      code timeout in
  guest_loads request_data = Return (Agent.JDict request) ->
  host_loads response_data = Return (Agent.response_dict reply) ->
  0 < size_of request_data < 2 ^ 32 ->
  0 < size_of response_data < 2 ^ 32 ->
  (elapsed < timeout ->
   (forall returncode out err,
      subprocess_run (Agent.JStr code) (Agent.JInt timeout)
      = Agent.Completed returncode out err ->
      r = {| Firecracker.vm_success := Agent.JBool (returncode =? 0);
             Firecracker.vm_stdout := Agent.JStr out;
             Firecracker.vm_stderr := Agent.JStr err;
             Firecracker.vm_exit_code := Agent.JInt returncode;
             Firecracker.vm_error := None |})
   /\ (forall e,
         subprocess_run (Agent.JStr code) (Agent.JInt timeout)
         = Agent.RunFailed e ->
         r = {| Firecracker.vm_success := Agent.JBool false;
                Firecracker.vm_stdout := Agent.JStr EmptyString;
                Firecracker.vm_stderr := Agent.JStr (str_exn e);
                Firecracker.vm_exit_code := Agent.JInt (-1);
                Firecracker.vm_error := None |}))
  /\ (timeout <= elapsed -> r = timed_out timeout).
Proof.
  intros request reply request_data response_data r Hreq Hresp Hsreq Hsresp.
  split.
  - intros Htime.
    pose proof (agent_answers_in_time code timeout elapsed Hreq Hresp Hsreq
                  Hsresp Htime) as Hr.
    fold request reply in Hr. fold r in Hr. rewrite Hr.
    unfold reply, Agent.handle_execute, request, execute_request.
    cbn [Agent.dict_get String.eqb Ascii.eqb Bool.eqb].
    split.
    + intros returncode out err E. now rewrite E.
    + intros e E. now rewrite E.
  - intros Hlate. unfold r, Firecracker._execute_code_in_vm, agent_vsock.
    cbn [Firecracker.agent_ready Firecracker.connect Firecracker.exchange
         negb Firecracker.io_bind].
    change (host_dumps _) with request_data.
    destruct (unpack_pack_I (size_of request_data)) as (p & Hp & _);
      [lia|].
    rewrite Hp. destruct (Z.ltb_spec elapsed timeout) as [|_]; [lia|].
    reflexivity.
Qed.

(** X24.  What [_execute_code_in_vm] makes of the guest's answer.  When
    the answer starts with a frame whose body decodes to an object, the
    result has the object's [success], [stdout], [stderr] and
    [exit_code], with [False], the empty string and -1 for the keys it
    lacks, and no [error] key.  A result without [error] key comes from
    such an answer only: every other result has [success = False], an
    empty stdout, exit code -1 and the error [Execution timeout] or
    [Code execution failed: ] followed by the reason, which is also its
    stderr.  The reasons are: the agent not ready, a [socket.timeout]
    on connecting or reading, no byte in answer, no byte of the body, and
    a body that decodes to a value that is no object. *)
Theorem execute_in_vm_result_or_failure (guest : Firecracker.vsock)
    (code : string) (timeout : Z) :
  let r :=
    Firecracker._execute_code_in_vm host_dumps host_loads pack_error
      unpack_error get_error guest code timeout in
  (forall frame header body rest response,
     Firecracker.agent_ready guest = true ->
     Firecracker.connect guest = Firecracker.Done tt ->
     request_frame host_dumps code timeout = Some frame ->
     Firecracker.exchange guest frame timeout
     = Firecracker.Done (header ++ body ++ rest) ->
     framed header body ->
     host_loads body = Return (Agent.JDict response) ->
     r = reply_of response)
  /\ ((exists frame stream n response,
         request_frame host_dumps code timeout = Some frame
         /\ Firecracker.exchange guest frame timeout
            = Firecracker.Done stream
         /\ unpack_I (List.firstn 4 stream) = Some n
         /\ host_loads (List.firstn (Z.to_nat n) (List.skipn 4 stream))
            = Return (Agent.JDict response)
         /\ r = reply_of response)
      \/ r = timed_out timeout
      \/ exists reason, r = failed_for reason)
  /\ (Firecracker.agent_ready guest = false ->
      r = failed_for "Guest agent not ready")
  /\ (Firecracker.agent_ready guest = true ->
      Firecracker.connect guest = Firecracker.SocketTimeout ->
      r = timed_out timeout)
  /\ (forall frame,
        Firecracker.agent_ready guest = true ->
        Firecracker.connect guest = Firecracker.Done tt ->
        request_frame host_dumps code timeout = Some frame ->
        (Firecracker.exchange guest frame timeout
         = Firecracker.SocketTimeout ->
         r = timed_out timeout)
        /\ (Firecracker.exchange guest frame timeout = Firecracker.Done [] ->
            r = failed_for "Failed to receive response length")
        /\ (forall stream n,
              Firecracker.exchange guest frame timeout
              = Firecracker.Done stream ->
              stream <> [] ->
              unpack_I (List.firstn 4 stream) = Some n ->
              List.firstn (Z.to_nat n) (List.skipn 4 stream) = [] ->
              r = failed_for "Failed to receive response data")
        /\ (forall header body rest value,
              Firecracker.exchange guest frame timeout
              = Firecracker.Done (header ++ body ++ rest) ->
              framed header body ->
              host_loads body = Return value ->
              (forall response, value <> Agent.JDict response) ->
              r = failed_for (str_exn (get_error value)))).
Proof.
  cbv zeta. unfold request_frame, execute_request.
  unfold Firecracker._execute_code_in_vm.
  set (request_data := host_dumps _).
  split; [|split; [|split; [|split]]].
  - intros frame header body rest response Hready Hconnect Hframe Hex
      Hframed Hloads.
    rewrite Hready, Hconnect. cbn [negb Firecracker.io_bind].
    destruct (pack_I (size_of request_data)) as [prefix|]; [|discriminate].
    injection Hframe as <-. rewrite Hex. cbn [Firecracker.io_bind].
    destruct (read_frame header body rest Hframed) as (R1 & R2 & R3 & R4).
    destruct Hframed as (_ & Hu & _).
    rewrite R1, R2, Hu, R3, R4, Hloads. reflexivity.
  - destruct (Firecracker.agent_ready guest); cbn [negb];
      [|right; right; eexists; reflexivity].
    destruct (Firecracker.connect guest) as [u| |e];
      cbn [Firecracker.io_bind];
      [|right; left; reflexivity|right; right; eexists; reflexivity].
    destruct (pack_I (size_of request_data)) as [prefix|];
      [|right; right; eexists; reflexivity].
    destruct (Firecracker.exchange guest _ timeout) as [stream| |e] eqn:Hex;
      cbn [Firecracker.io_bind];
      [|right; left; reflexivity|right; right; eexists; reflexivity].
    destruct (Agent.is_empty (List.firstn 4 stream));
      [right; right; eexists; reflexivity|].
    destruct (unpack_I (List.firstn 4 stream)) as [n|] eqn:Hu;
      [|right; right; eexists; reflexivity].
    destruct (Agent.is_empty _); [right; right; eexists; reflexivity|].
    destruct (host_loads _) as [[| | | | | |response]|e] eqn:Hloads;
      try (right; right; eexists; reflexivity).
    left. exists (prefix ++ request_data), stream, n, response.
    repeat split; assumption.
  - intros Hready. rewrite Hready. reflexivity.
  - intros Hready Hconnect. rewrite Hready, Hconnect. reflexivity.
  - intros frame Hready Hconnect Hframe.
    rewrite Hready, Hconnect. cbn [negb Firecracker.io_bind].
    destruct (pack_I (size_of request_data)) as [prefix|]; [|discriminate].
    injection Hframe as <-.
    split; [|split; [|split]].
    + intros Hex. rewrite Hex. reflexivity.
    + intros Hex. rewrite Hex. reflexivity.
    + intros stream n Hex Hne Hu Hbody. rewrite Hex.
      cbn [Firecracker.io_bind].
      destruct stream as [|b stream]; [congruence|].
      cbn [List.firstn Agent.is_empty] in *. rewrite Hu, Hbody. reflexivity.
    + intros header body rest value Hex Hframed Hloads Hvalue. rewrite Hex.
      cbn [Firecracker.io_bind].
      destruct (read_frame header body rest Hframed) as (R1 & R2 & R3 & R4).
      destruct Hframed as (_ & Hu & _).
      rewrite R1, R2, Hu, R3, R4, Hloads.
      destruct value as [| | | | | |response]; try reflexivity.
      now destruct (Hvalue response).
Qed.

End HostAndGuest.

(* ===================================================================== *)
(** * The R2 storage provider *)
(* ===================================================================== *)

Section R2Facts.

Variable boto3_client : string -> string -> string -> R2.boto3_outcome.
Variable utcnow : string.

Lemma drop_app (a b : string) : R2.drop (String.length a) (a +:+ b) = b.
Proof. induction a as [|x a IH]; [now destruct b | exact IH]. Qed.

Lemma slice_from_app (a b : string) : R2.slice_from (a +:+ b) (len a) = b.
Proof.
  unfold R2.slice_from, len.
  destruct (Z.leb_spec 0 (Z.of_nat (String.length a))) as [_|H]; [|lia].
  rewrite Nat2Z.id. apply drop_app.
Qed.

Lemma split_once_first (c : ascii) (b k : string) :
  contains (String c EmptyString) b = false ->
  R2.split_once c (b +:+ String c k) = [b; k].
Proof.
  induction b as [|a b IH]; intros H.
  - simpl. now rewrite Ascii.eqb_refl.
  - apply contains_cons in H as [Ha Hb]. rewrite app_cons. simpl.
    rewrite Ha, (IH Hb). reflexivity.
Qed.

Lemma lstrip_char_clean (c : ascii) (s : string) :
  clean_start c (R2.lstrip_char c s).
Proof.
  induction s as [|a s IH]; simpl; [exact I|].
  destruct (Ascii.eqb a c) eqn:E; [exact IH | exact E].
Qed.

Lemma lstrip_char_of_clean (c : ascii) (s : string) :
  clean_start c s -> R2.lstrip_char c s = s.
Proof. destruct s as [|a s]; simpl; [reflexivity | now intros ->]. Qed.

Lemma rstrip_char_clean (c : ascii) (s : string) :
  clean_start c s -> clean_start c (R2.rstrip_char c s).
Proof.
  destruct s as [|a s]; simpl; [exact (fun H => H)|]. intros H.
  destruct (R2.rstrip_char c s); [rewrite H|]; exact H.
Qed.

Lemma strip_char_clean (c : ascii) (s : string) :
  clean_start c (R2.strip_char c s).
Proof. apply rstrip_char_clean, lstrip_char_clean. Qed.

Lemma clean_start_app (c : ascii) (a b : string) :
  a <> EmptyString -> clean_start c a -> clean_start c (a +:+ b).
Proof. destruct a as [|x a]; [congruence | intros _ H; exact H]. Qed.

Lemma split_app (c : ascii) (a b : string) :
  split c (a +:+ String c b) = split c a ++ split c b.
Proof.
  induction a as [|x a IH].
  - simpl. now rewrite Ascii.eqb_refl.
  - rewrite app_cons. simpl. rewrite IH.
    destruct (Ascii.eqb x c); [reflexivity|].
    pose proof (split_not_nil c a) as N.
    destruct (split c a); [contradiction | reflexivity].
Qed.

Lemma last_app_cons {A : Type} (l : list A) (x : A) (l' : list A) (d : A) :
  List.last (l ++ x :: l') d = List.last (x :: l') d.
Proof.
  induction l as [|y l IH]; [reflexivity|].
  change ((y :: l) ++ x :: l') with (y :: (l ++ x :: l')).
  destruct (l ++ x :: l') eqn:E; [now destruct l | exact IH].
Qed.

(** The last component of a key that ends in a file name. *)
Lemma last_component (c : ascii) (a f : string) :
  contains (String c EmptyString) f = false ->
  List.last (split c (a +:+ String c f)) EmptyString = f.
Proof.
  intros H. rewrite split_app, (split_one_piece c f H).
  now rewrite last_app_cons.
Qed.

Lemma startswith_not (a b : ascii) (s t : string) :
  a <> b -> startswith (String a s) (String b t) = false.
Proof.
  intros N. unfold startswith. simpl.
  destruct (ascii_dec b a); [congruence | reflexivity].
Qed.

Lemma startswith_trans (s p q : string) :
  startswith s p = true -> startswith p q = true -> startswith s q = true.
Proof.
  unfold startswith. revert p q.
  induction s as [|a s IH]; intros [|b p] [|c q]; simpl; try congruence.
  destruct (ascii_dec b a) as [->|]; [|congruence].
  destruct (ascii_dec c a) as [->|]; [|congruence].
  destruct (ascii_dec a a); [|congruence]. apply IH.
Qed.

(** What [__init__] leaves in the attributes. *)
Lemma init_attributes bucket account access secret prefix public_url self :
  R2.__init__ boto3_client bucket account access secret prefix public_url
  = Return self ->
  R2.bucket_name self = bucket
  /\ R2.prefix self = R2.strip_char "/" prefix.
Proof.
  unfold R2.__init__. destruct (boto3_client _ _ _); [|discriminate..].
  intros [= <-]. split; reflexivity.
Qed.

(** Where the methods look for a file that [save_file] has stored. *)
Lemma locate_saved_file (self : R2.R2StorageProvider)
    (content : list Byte.byte) (filename execution_id : string)
    (metadata : option (list (string * string))) (url : string) :
  contains "/" (R2.bucket_name self) = false ->
  (has_public_url self -> R2.prefix self <> EmptyString) ->
  clean_start "/" (R2.prefix self) ->
  (forall url, R2.public_url self = Some url -> nonempty url = true ->
     startswith url "http://" || startswith url "https://" = true) ->
  R2.save_file utcnow self content filename execution_id metadata
  = Return url ->
  R2.locate self url
  = Some (R2.bucket_name self, R2._get_s3_key self execution_id filename)
  /\ nonempty url = true.
Proof.
  intros Hbucket Hprefix Hclean Hhttp. unfold R2.save_file.
  destruct (R2.put_object _ _ _ _ _) as [[]|e]; [|discriminate].
  set (key := R2._get_s3_key self execution_id filename).
  assert (Huri :
    R2.locate self ("r2://" +:+ R2.bucket_name self +:+ "/" +:+ key)
    = Some (R2.bucket_name self, key)
    /\ nonempty ("r2://" +:+ R2.bucket_name self +:+ "/" +:+ key) = true).
  { split; [|reflexivity]. unfold R2.locate.
    rewrite startswith_app.
    change 5 with (len "r2://"). rewrite slice_from_app.
    change ("/" +:+ key) with (String "/" key).
    rewrite (split_once_first "/" _ key Hbucket). reflexivity. }
  unfold R2._get_public_url.
  destruct (R2.public_url self) as [pub|] eqn:Epub;
    [|intros [= <-]; exact Huri].
  destruct (nonempty pub) eqn:Ene; [|intros [= <-]; exact Huri].
  assert (Hkey : clean_start "/" key).
  { unfold key, R2._get_s3_key. apply clean_start_app; [|exact Hclean].
    apply Hprefix. now exists pub. }
  assert (Hlocate :
    R2.locate self (pub +:+ "/" +:+ key) = Some (R2.bucket_name self, key)).
  { unfold R2.locate. rewrite Epub, Ene.
    destruct pub as [|p0 pub']; [discriminate|].
    specialize (Hhttp _ eq_refl eq_refl).
    assert (Hh : p0 = "h"%char).
    { destruct (ascii_dec p0 "h") as [E|N]; [exact E|].
      rewrite !(startswith_not p0 "h") in Hhttp by exact N.
      discriminate. }
    subst p0. rewrite app_cons.
    rewrite (startswith_not "h" "r") by discriminate.
    rewrite <- app_cons.
    assert (Hs : startswith (String "h" pub' +:+ "/" +:+ key) "http://"
                 || startswith (String "h" pub' +:+ "/" +:+ key) "https://"
                 = true).
    { apply orb_true_iff. apply orb_true_iff in Hhttp as [H|H];
        [left|right];
        exact (startswith_trans _ _ _ (startswith_app _ _) H). }
    rewrite Hs, startswith_app. cbn [andb].
    rewrite slice_from_app.
    change ("/" +:+ key) with (String "/" key).
    cbn [R2.lstrip_char]. rewrite Ascii.eqb_refl.
    now rewrite (lstrip_char_of_clean "/" key Hkey). }
  destruct (nonempty (pub +:+ "/" +:+ key)) eqn:Eurl.
  - intros [= <-]. split; [exact Hlocate | exact Eurl].
  - intros [= <-]. exact Huri.
Qed.

Lemma contains_char_cons (c a : ascii) (s : string) :
  contains (String c EmptyString) (String a s)
  = Ascii.eqb a c || contains (String c EmptyString) s.
Proof.
  cbn [contains String.prefix].
  destruct (ascii_dec c a) as [->|N].
  - rewrite Ascii.eqb_refl. now destruct s.
  - destruct (Ascii.eqb_spec a c); [congruence | reflexivity].
Qed.

Lemma split_pieces_clean (c : ascii) (s : string) :
  Forall (fun piece => contains (String c EmptyString) piece = false)
    (split c s).
Proof.
  induction s as [|a s IH]; [repeat constructor|].
  cbn [split]. destruct (Ascii.eqb a c) eqn:E.
  - constructor; [reflexivity | exact IH].
  - destruct (split c s) as [|h t]; inversion IH; subst;
      constructor; try assumption; rewrite contains_char_cons, E;
      try assumption; reflexivity.
Qed.

Lemma last_Forall {A : Type} (P : A -> Prop) (l : list A) (d : A) :
  P d -> Forall P l -> P (List.last l d).
Proof.
  intros Hd H. induction H as [|x l Hx H IH]; [exact Hd|].
  destruct l; [exact Hx | exact IH].
Qed.

Lemma Forall_filter_keeps {A : Type} (P : A -> Prop) (f : A -> bool)
    (l : list A) :
  Forall P l -> Forall P (List.filter f l).
Proof.
  induction 1 as [|x l Hx H IH]; [constructor|]. simpl.
  destruct (f x); [constructor; assumption | exact IH].
Qed.

(** [Path(s).name] holds no slash. *)
Lemma path_name_no_slash (s : string) :
  contains "/" (Docker.path_name s) = false.
Proof.
  unfold Docker.path_name. apply last_Forall; [reflexivity|].
  apply Forall_filter_keeps, split_pieces_clean.
Qed.

(** The presigned URL of a located file. *)
Lemma generate_presigned_url_located (self : R2.R2StorageProvider)
    (url a filename : string) (expiration : Z) :
  contains "/" filename = false ->
  R2.locate self url
  = Some (R2.bucket_name self, a +:+ "/" +:+ filename) ->
  R2.generate_presigned_url self url expiration
  = presign_reply
      (R2.s3_generate_presigned_url (R2.s3_client self)
         (R2.bucket_name self) (a +:+ "/" +:+ filename)
         (disposition filename) expiration).
Proof.
  intros Hname Hlocate. unfold R2.generate_presigned_url.
  rewrite Hlocate. change ("/" +:+ filename) with (String "/" filename).
  rewrite (last_component "/" a filename Hname). reflexivity.
Qed.

Lemma _get_s3_key_ends_in_name (self : R2.R2StorageProvider)
    (execution_id filename : string) :
  R2._get_s3_key self execution_id filename
  = (R2.prefix self +:+ "/executions/" +:+ execution_id)
    +:+ "/" +:+ filename.
Proof. unfold R2._get_s3_key. now rewrite !app_assoc_str. Qed.

(** X25.  A file saved by a provider is found again through the URL
    [save_file] returned.  For a provider made by [__init__] whose bucket
    name holds no slash and whose public URL, if one is configured, starts
    with http:// or https:// and comes with a prefix that is not empty
    once its slashes are stripped: when [save_file] returns a URL for a
    file name without a slash, [generate_presigned_url] on that URL asks
    the client for the bucket and the very key the file was stored under,
    with the file name in the disposition, and [delete_file] deletes that
    key. *)
Theorem saved_file_url_leads_to_its_key
    (bucket account access secret prefix : string)
    (public_url : option string) (self : R2.R2StorageProvider)
    (content : list Byte.byte) (filename execution_id : string)
    (metadata : option (list (string * string))) (url : string)
    (expiration : Z) :
  R2.__init__ boto3_client bucket account access secret prefix public_url
  = Return self ->
  contains "/" bucket = false ->
  (has_public_url self -> R2.prefix self <> EmptyString) ->
  (forall pub, R2.public_url self = Some pub -> nonempty pub = true ->
     startswith pub "http://" || startswith pub "https://" = true) ->
  contains "/" filename = false ->
  R2.save_file utcnow self content filename execution_id metadata
  = Return url ->
  let key := R2._get_s3_key self execution_id filename in
  R2.generate_presigned_url self url expiration
  = presign_reply
      (R2.s3_generate_presigned_url (R2.s3_client self) bucket key
         (disposition filename) expiration)
  /\ R2.delete_file self url
     = returned (R2.delete_object (R2.s3_client self) bucket key).
Proof.
  intros Hinit Hbucket Hprefix Hhttp Hname Hsave key.
  destruct (init_attributes _ _ _ _ _ _ _ Hinit) as [Eb Ep].
  assert (Hclean : clean_start "/" (R2.prefix self)).
  { rewrite Ep. apply strip_char_clean. }
  rewrite <- Eb in Hbucket.
  destruct (locate_saved_file self content filename execution_id metadata
              url Hbucket Hprefix Hclean Hhttp Hsave) as [Hlocate _].
  fold key in Hlocate. rewrite <- Eb. split.
  - unfold key in *. rewrite _get_s3_key_ends_in_name in *.
    now apply generate_presigned_url_located.
  - unfold R2.delete_file. rewrite Hlocate.
    now destruct (R2.delete_object _ _ _).
Qed.

(** X26.  With a public URL, an empty prefix loses the file.  When the
    configured prefix is empty or made of slashes only and a public URL
    starting with http:// or https:// is configured, [save_file] stores
    the file under a key that starts with a slash,
    [/executions/<id>/<name>], and [generate_presigned_url] on the URL
    it returned asks for another key, [executions/<id>/<name>]. *)
Theorem empty_prefix_public_url_asks_other_key
    (bucket account access secret prefix : string)
    (public_url : option string) (self : R2.R2StorageProvider)
    (pub : string) (content : list Byte.byte)
    (filename execution_id : string)
    (metadata : option (list (string * string))) (url : string)
    (expiration : Z) :
  R2.__init__ boto3_client bucket account access secret prefix public_url
  = Return self ->
  R2.strip_char "/" prefix = EmptyString ->
  R2.public_url self = Some pub ->
  nonempty pub = true ->
  startswith pub "http://" || startswith pub "https://" = true ->
  contains "/" filename = false ->
  R2.save_file utcnow self content filename execution_id metadata
  = Return url ->
  let stored := "/executions/" +:+ execution_id +:+ "/" +:+ filename in
  let asked := "executions/" +:+ execution_id +:+ "/" +:+ filename in
  R2.put_object (R2.s3_client self) bucket stored content
    (match metadata with
     | Some items =>
         List.fold_left
           (fun d item =>
              R2.dict_set d (R2.replace_char "_" "-" (lower (fst item)))
                (snd item))
           items [("execution-id", execution_id); ("saved-at", utcnow)]
     | None => [("execution-id", execution_id); ("saved-at", utcnow)]
     end)
  = Return tt
  /\ R2.generate_presigned_url self url expiration
     = presign_reply
         (R2.s3_generate_presigned_url (R2.s3_client self) bucket asked
            (disposition filename) expiration).
Proof.
  intros Hinit Hempty Epub Ene Hhttp Hname Hsave stored asked.
  destruct (init_attributes _ _ _ _ _ _ _ Hinit) as [Eb Ep].
  rewrite Hempty in Ep. revert Hsave. unfold R2.save_file.
  unfold R2._get_s3_key, R2._get_public_url. rewrite Ep, Eb, Epub, Ene.
  change (EmptyString +:+ "/executions/" +:+ execution_id +:+ "/"
          +:+ filename) with stored.
  destruct (R2.put_object _ _ _ _ _) as [[]|e]; [|discriminate].
  split; [reflexivity|].
  assert (Hurl : url = pub +:+ "/" +:+ stored).
  { destruct (nonempty (pub +:+ "/" +:+ stored)) eqn:E;
      [congruence|].
    destruct pub; discriminate. }
  clear Hsave. subst url.
  assert (Hlocate :
    R2.locate self (pub +:+ "/" +:+ stored)
    = Some (R2.bucket_name self,
            "executions/" +:+ execution_id +:+ "/" +:+ filename)).
  { unfold R2.locate. rewrite Epub, Ene.
    destruct pub as [|p0 pub']; [discriminate|].
    assert (Hh : p0 = "h"%char).
    { destruct (ascii_dec p0 "h") as [E|N]; [exact E|].
      rewrite !(startswith_not p0 "h") in Hhttp by exact N.
      discriminate. }
    subst p0. rewrite app_cons.
    rewrite (startswith_not "h" "r") by discriminate.
    rewrite <- app_cons.
    assert (Hs : startswith (String "h" pub' +:+ "/" +:+ stored) "http://"
                 || startswith (String "h" pub' +:+ "/" +:+ stored)
                      "https://"
                 = true).
    { apply orb_true_iff. apply orb_true_iff in Hhttp as [H|H];
        [left|right];
        exact (startswith_trans _ _ _ (startswith_app _ _) H). }
    rewrite Hs, startswith_app. cbn [andb].
    rewrite slice_from_app. reflexivity. }
  change asked with (("executions/" +:+ execution_id) +:+ "/" +:+ filename).
  rewrite <- Eb. apply generate_presigned_url_located; [exact Hname|].
  rewrite Hlocate. now rewrite !app_assoc_str.
Qed.

(** What the provider stores with a file of the Docker executor. *)
Lemma executor_metadata (execution_id : string) (member : Docker.TarInfo) :
  List.fold_left
    (fun d item =>
       R2.dict_set d (R2.replace_char "_" "-" (lower (fst item)))
         (snd item))
    [("size", str_int (size_of (Docker.data member)));
     ("original_path", Docker.name member)]
    [("execution-id", execution_id); ("saved-at", utcnow)]
  = stored_metadata utcnow execution_id member.
Proof. reflexivity. Qed.

(** X27.  What the Docker executor reports for an output file kept in R2.
    For a provider configured as in X25, the [try] block that saves one
    extracted file stores its content under
    [<prefix>/executions/<id>/<name>], [<name>] being the last component
    of the member's path, with the metadata keys [size] and
    [original-path], and appends the URL the client presigns for that
    bucket and key for 18000 seconds; it appends nothing when the upload
    or the presigning raises. *)
Theorem upload_presigns_the_stored_key
    (bucket account access secret prefix : string)
    (public_url : option string) (self : R2.R2StorageProvider)
    (execution_id : string) (member : Docker.TarInfo) :
  R2.__init__ boto3_client bucket account access secret prefix public_url
  = Return self ->
  contains "/" bucket = false ->
  (has_public_url self -> R2.prefix self <> EmptyString) ->
  (forall pub, R2.public_url self = Some pub -> nonempty pub = true ->
     startswith pub "http://" || startswith pub "https://" = true) ->
  let filename := Docker.path_name (Docker.name member) in
  let key := R2._get_s3_key self execution_id filename in
  Docker.upload execution_id
    (Storage.for_executor utcnow {| Storage.provider := Some self |})
    filename member
  = match R2.put_object (R2.s3_client self) bucket key
            (Docker.data member)
            (stored_metadata utcnow execution_id member) with
    | Return _ =>
        match R2.s3_generate_presigned_url (R2.s3_client self) bucket key
                (disposition filename) 18000 with
        | Return presigned_url => Some presigned_url
        | Raise _ => None
        end
    | Raise _ => None
    end.
Proof.
  intros Hinit Hbucket Hprefix Hhttp filename key.
  destruct (init_attributes _ _ _ _ _ _ _ Hinit) as [Eb Ep].
  assert (Hclean : clean_start "/" (R2.prefix self)).
  { rewrite Ep. apply strip_char_clean. }
  assert (Hname : contains "/" filename = false)
    by apply path_name_no_slash.
  rewrite <- Eb in Hbucket.
  pose proof (locate_saved_file self (Docker.data member) filename
                execution_id
                (Some [("size", str_int (size_of (Docker.data member)));
                       ("original_path", Docker.name member)])) as Hfound.
  unfold Docker.upload, Storage.for_executor.
  cbn [Docker.save_file Docker.generate_presigned_url].
  unfold Storage.save_file, Storage.generate_presigned_url.
  cbn [Storage.provider].
  destruct (R2.save_file utcnow self _ filename execution_id _)
    as [url|e] eqn:Esave.
  - destruct (Hfound url Hbucket Hprefix Hclean Hhttp eq_refl)
      as [Hlocate Hne].
    revert Esave. unfold R2.save_file. rewrite executor_metadata.
    fold key. rewrite <- Eb.
    destruct (R2.put_object _ _ _ _ _) as [[]|e]; [|discriminate].
    intros _. cbn [bind]. rewrite Hne.
    fold key in Hlocate. unfold key in *.
    rewrite _get_s3_key_ends_in_name in *.
    rewrite (generate_presigned_url_located self url _ filename 18000
               Hname Hlocate).
    now destruct (R2.s3_generate_presigned_url _ _ _ _ _).
  - revert Esave. unfold R2.save_file. rewrite executor_metadata.
    fold key. rewrite <- Eb.
    destruct (R2.put_object _ _ _ _ _) as [[]|e']; [|reflexivity].
    destruct (R2._get_public_url self key) as [u|];
      [destruct (nonempty u)|]; discriminate.
Qed.

End R2Facts.

(* ===================================================================== *)
(** * The properties above, on the samples *)
(* ===================================================================== *)

Section MoreInstances.

Import Samples MoreSamples.

(** [while True: pass] passes, and its one message is a warning. *)
Lemma validate_verdict_in_messages_witness :
  fst (validate default_settings (parse_as loop_tree) loop_code) = true
  /\ Forall (fun err => is_warning err = true)
       (snd (validate default_settings (parse_as loop_tree) loop_code)).
Proof.
  assert (H : fst (validate default_settings (parse_as loop_tree) loop_code)
              = true) by (vm_compute; reflexivity).
  split; [exact H|].
  exact (proj1
           (validate_verdict_in_messages default_settings
              (parse_as loop_tree) loop_code) H).
Defined.

(** A service that holds an executor keeps it, with a factory that would
    now fail. *)
Lemma execute_code_keeps_executor_witness :
  Service._executor started_service = Some idle_executor
  /\ Service._executor
       (snd (Service.execute_code default_settings (parse_as loop_tree)
               (Raise (DockerError "no daemon")) loop_code 10
               started_service))
     = Some idle_executor.
Proof.
  assert (H : Service._executor started_service = Some idle_executor)
    by reflexivity.
  split; [exact H|].
  exact (proj2
           (execute_code_keeps_executor default_settings
              (parse_as loop_tree) (Raise (DockerError "no daemon"))
              (Return idle_executor) loop_code 10 started_service
              idle_executor H)).
Defined.

(** Thirteen one-byte files under the default settings. *)
Lemma extraction_takes_a_bounded_selection_witness :
  Docker.get_archive thirteen_files_container = Return thirteen_files
  /\ exists taken,
       sublist taken thirteen_files
       /\ forallb (fun m => negb (skipped default_settings m)) taken = true
       /\ size_of taken <= MAX_FILE_COUNT default_settings
       /\ cumulative_size taken <= MAX_TOTAL_SIZE default_settings
       /\ Docker._extract_and_save_files default_settings
            (Some open_storage) "run-1" thirteen_files_container
          = urls_of "run-1" open_storage taken.
Proof.
  assert (H0 : 0 <= MAX_FILE_COUNT default_settings)
    by (vm_compute; discriminate).
  assert (H1 : 0 <= MAX_TOTAL_SIZE default_settings)
    by (vm_compute; discriminate).
  assert (H2 : Docker.is_enabled open_storage = true) by reflexivity.
  assert (H3 : Docker.get_archive thirteen_files_container
               = Return thirteen_files) by reflexivity.
  split; [exact H3|].
  exact (extraction_takes_a_bounded_selection default_settings "run-1"
           open_storage thirteen_files_container thirteen_files
           H0 H1 H2 H3).
Defined.

(** A container that ran to its end: a success, without an error tag. *)
Lemma execute_result_shape_witness :
  success
    (Docker.execute default_settings None
       (fun _ => Return thirteen_files_container) "run-1" "pass" 10)
  = true
  /\ error
       (Docker.execute default_settings None
          (fun _ => Return thirteen_files_container) "run-1" "pass" 10)
     = None.
Proof.
  assert (H : success
                (Docker.execute default_settings None
                   (fun _ => Return thirteen_files_container) "run-1"
                   "pass" 10)
              = true) by reflexivity.
  split; [exact H|].
  exact (proj1 (proj2
           (execute_result_shape default_settings "run-1" None
              (fun _ => Return thirteen_files_container) "pass" 10)) H).
Defined.

(** A daemon without the image. *)
Lemma docker_executor_init_witness :
  DockerClient.images_get bare_daemon "python-sandbox:latest"
  = DockerClient.ImageNotFound
  /\ DockerClient.__init__ "python-sandbox:latest" (Return bare_daemon)
     = Raise (DockerError
                ("Failed to initialize Docker client: Sandbox image '"
                 +:+ "python-sandbox:latest"
                 +:+ "' not found. Please build it first: "
                 +:+ "docker build -t " +:+ "python-sandbox:latest"
                 +:+ " sandbox-image/")).
Proof.
  assert (H : DockerClient.images_get bare_daemon "python-sandbox:latest"
              = DockerClient.ImageNotFound) by reflexivity.
  split; [exact H|].
  exact (proj2 (proj2
           (docker_executor_init "python-sandbox:latest"
              (Return bare_daemon))) bare_daemon eq_refl H).
Defined.

(** The executor built while the daemon ran is returned once it is
    gone. *)
Lemma get_executor_singleton_witness :
  let instance :=
    {| DockerClient.client := built_daemon;
       DockerClient.image := "python-sandbox:latest" |} in
  fst (DockerClient.get_executor "python-sandbox:latest"
         (Return built_daemon) None)
  = Return instance
  /\ DockerClient.get_executor "other-image"
       (Raise (OtherError "daemon gone"))
       (snd (DockerClient.get_executor "python-sandbox:latest"
               (Return built_daemon) None))
     = (Return instance, Some instance).
Proof.
  intros instance.
  assert (H : fst (DockerClient.get_executor "python-sandbox:latest"
                     (Return built_daemon) None)
              = Return instance) by reflexivity.
  split; [exact H|].
  exact (proj1
           (get_executor_singleton "python-sandbox:latest"
              (Return built_daemon) (Raise (OtherError "daemon gone"))
              "other-image" None) instance H).
Defined.

(** gvisor is not registered. *)
Lemma get_agrees_with_has_provider_witness :
  Factory.has_provider two_providers "gvisor" = false
  /\ exists available,
       Factory.get two_providers "gvisor"
       = Raise (ExecutionError
                  ("Unknown executor provider '" +:+ "gvisor"
                   +:+ "'. Available providers: " +:+ available)).
Proof.
  assert (H : Factory.has_provider two_providers "gvisor" = false)
    by (vm_compute; reflexivity).
  split; [exact H|].
  exact (proj2 (get_agrees_with_has_provider two_providers "gvisor") H).
Defined.

(** The docker instance, asked for again with an empty registry. *)
Lemma create_executor_reuses_instance_witness :
  fst (Factory.create_executor fallback_settings two_providers
         (Some "docker") ∅)
  = Return unhealthy_docker
  /\ Factory.create_executor fallback_settings [] (Some "docker")
       (snd (Factory.create_executor fallback_settings two_providers
               (Some "docker") ∅))
     = (Return unhealthy_docker,
        snd (Factory.create_executor fallback_settings two_providers
               (Some "docker") ∅)).
Proof.
  assert (H : fst (Factory.create_executor fallback_settings two_providers
                     (Some "docker") ∅)
              = Return unhealthy_docker) by reflexivity.
  split; [exact H|].
  exact (proj1
           (create_executor_reuses_instance fallback_settings two_providers
              [] "docker" ∅) unhealthy_docker H).
Defined.

(** Two names joined by a comma. *)
Lemma parse_fallback_providers_names_witness :
  forallb clean_name ["docker"; "gvisor"] = true
  /\ Factory._parse_fallback_providers (join "," ["docker"; "gvisor"])
     = ["docker"; "gvisor"].
Proof.
  assert (H : forallb clean_name ["docker"; "gvisor"] = true)
    by (vm_compute; reflexivity).
  split; [exact H|].
  exact (proj2 parse_fallback_providers_names ["docker"; "gvisor"] H).
Defined.

(** The fallback that is returned reported healthy. *)
Lemma get_healthy_executor_returns_healthy_witness :
  fst (Factory.get_healthy_executor fallback_settings two_providers ∅)
  = Return healthy_firecracker
  /\ health_check healthy_firecracker = Return true.
Proof.
  assert (H : fst (Factory.get_healthy_executor fallback_settings
                     two_providers ∅)
              = Return healthy_firecracker) by (vm_compute; reflexivity).
  split; [exact H|].
  exact (proj1
           (get_healthy_executor_returns_healthy fallback_settings
              two_providers ∅ healthy_firecracker H)).
Defined.

(** Starting from an empty cache. *)
Lemma get_healthy_executor_caches_registered_witness :
  cache_registered two_providers
    (snd (Factory.get_healthy_executor fallback_settings two_providers ∅)).
Proof.
  assert (H : cache_registered two_providers ∅).
  { intros provider executor E. rewrite lookup_empty in E. discriminate. }
  exact (get_healthy_executor_caches_registered fallback_settings
           two_providers ∅ H).
Defined.

(** The request for a missing file is taken off the stream whole. *)
Lemma handle_request_takes_one_frame_witness :
  Agent.inbox
    (snd (Agent.handle_request (loads_as "/tmp/output/none.txt")
            dumps_braces (fun _ => EmptyString) prints_one guest_fs
            missing_file_connection))
  = [].
Proof.
  refine (proj1
            (handle_request_takes_one_frame
               (loads_as "/tmp/output/none.txt") dumps_braces
               (fun _ => EmptyString) prints_one guest_fs
               missing_file_connection
               (List.firstn 4 (get_file_frame "/tmp/output/none.txt"))
               (get_file_body "/tmp/output/none.txt") [] _ _)).
  - vm_compute; reflexivity.
  - split; [reflexivity|]. split; [vm_compute; reflexivity|].
    vm_compute; discriminate.
Defined.

(** A body that is no JSON ends the connection without a reply. *)
Lemma handle_request_undecodable_witness :
  Agent.handle_request loads_nothing dumps_braces (fun _ => EmptyString)
    prints_one guest_fs missing_file_connection
  = (false, after_frame missing_file_connection []).
Proof.
  refine (handle_request_undecodable loads_nothing dumps_braces
            (fun _ => EmptyString) prints_one guest_fs
            missing_file_connection
            (List.firstn 4 (get_file_frame "/tmp/output/none.txt"))
            (get_file_body "/tmp/output/none.txt") [] _ _ _).
  - vm_compute; reflexivity.
  - split; [reflexivity|]. split; [vm_compute; reflexivity|].
    vm_compute; discriminate.
  - intros request. unfold loads_nothing. discriminate.
Defined.

(** The action [ping] is answered with an error object. *)
Lemma handle_request_unknown_action_witness :
  exists prefix,
    List.length prefix = 4%nat
    /\ unpack_I prefix = Some 2
    /\ Agent.handle_request (fun _ => Return (Agent.JDict ping_request))
         dumps_braces (fun _ => "ping") prints_one guest_fs
         missing_file_connection
       = (true,
          answered missing_file_connection []
            (prefix ++ [Byte.x7b; Byte.x7d])).
Proof.
  refine (handle_request_unknown_action
            (fun _ => Return (Agent.JDict ping_request)) dumps_braces
            (fun _ => "ping") prints_one guest_fs missing_file_connection
            (List.firstn 4 (get_file_frame "/tmp/output/none.txt"))
            (get_file_body "/tmp/output/none.txt") [] ping_request
            _ _ _ _ _ _ _ _).
  - reflexivity.
  - vm_compute; reflexivity.
  - split; [reflexivity|]. split; [vm_compute; reflexivity|].
    vm_compute; discriminate.
  - reflexivity.
  - reflexivity.
  - reflexivity.
  - reflexivity.
  - vm_compute; reflexivity.
Defined.

(** A number for a path ends the connection without a reply. *)
Lemma handle_request_get_file_bad_path_witness :
  Agent.handle_request
    (fun _ => Return (Agent.JDict numeric_path_request)) dumps_braces
    (fun _ => EmptyString) prints_one guest_fs missing_file_connection
  = (false, after_frame missing_file_connection []).
Proof.
  refine (handle_request_get_file_bad_path
            (fun _ => Return (Agent.JDict numeric_path_request))
            dumps_braces (fun _ => EmptyString) prints_one guest_fs
            missing_file_connection
            (List.firstn 4 (get_file_frame "/tmp/output/none.txt"))
            (get_file_body "/tmp/output/none.txt") [] numeric_path_request
            _ _ _ _ _).
  - vm_compute; reflexivity.
  - split; [reflexivity|]. split; [vm_compute; reflexivity|].
    vm_compute; discriminate.
  - reflexivity.
  - reflexivity.
  - intros path. vm_compute. discriminate.
Defined.

(** A directory that cannot be read: no name, and the failure. *)
Lemma handle_list_files_always_lists_witness :
  Agent.handle_list_files locked_fs list_files_request
  = Return
      (Agent.JDict
         [("error", Agent.JStr "[Errno 13] Permission denied: '/tmp/output'");
          ("files", Agent.JList [])]).
Proof.
  assert (H : Agent.dict_get list_files_request "path"
                (Agent.JStr "/tmp/output")
              = Agent.JStr "/tmp/output") by reflexivity.
  destruct (handle_list_files_always_lists locked_fs list_files_request
              "/tmp/output" H)
    as (response & files & Hreply & _ & _ & _ & Hfail).
  rewrite Hreply.
  destruct (Hfail (OtherError "[Errno 13] Permission denied: '/tmp/output'")
              (or_intror (conj eq_refl eq_refl))) as [_ ->].
  reflexivity.
Defined.

(** Two requests on one connection: the file, then the zero length. *)
Lemma serve_connection_answers_in_order_witness :
  Agent.outbox
    (Agent.serve_connection loads_two_paths dumps_braces
       (fun _ => EmptyString) prints_one guest_fs two_requests_connection)
  = ([Byte.x00; Byte.x00; Byte.x00; Byte.x06] ++ plot_bytes)
    ++ Agent.zero_length.
Proof.
  assert (Hw : Agent.writable two_requests_connection = true)
    by reflexivity.
  assert (Hin : Agent.inbox two_requests_connection
                = List.flat_map msg_bytes two_requests) by reflexivity.
  assert (Hwf : Forall (well_formed loads_two_paths) two_requests).
  { repeat constructor; try (vm_compute; reflexivity);
      vm_compute; discriminate. }
  rewrite (serve_connection_answers_in_order loads_two_paths dumps_braces
             (fun _ => EmptyString) prints_one guest_fs two_requests
             two_requests_connection Hw Hin Hwf).
  vm_compute. reflexivity.
Defined.

(** The host asks a guest agent to run [print(1)], which takes a
    second of the ten it has. *)
Lemma execute_in_vm_returns_agent_reply_witness :
  let reply :=
    Agent.handle_execute (fun _ => EmptyString) prints_one print_request in
  Firecracker._execute_code_in_vm dumps_braces
    (fun _ => Return (Agent.response_dict reply))
    (fun _ => OtherError "struct.error") (fun _ => OtherError "struct.error")
    (fun _ => OtherError "AttributeError")
    (agent_vsock (fun _ => Return (Agent.JDict print_request))
       dumps_braces (fun _ => EmptyString) prints_one guest_fs 1)
    "print(1)" 10
  = {| Firecracker.vm_success := Agent.JBool true;
       Firecracker.vm_stdout := Agent.JStr ("1" +:+ LF);
       Firecracker.vm_stderr := Agent.JStr EmptyString;
       Firecracker.vm_exit_code := Agent.JInt 0;
       Firecracker.vm_error := None |}.
Proof.
  refine (proj1 (proj1
            (execute_in_vm_returns_agent_reply dumps_braces
               (fun _ =>
                  Return
                    (Agent.response_dict
                       (Agent.handle_execute (fun _ => EmptyString)
                          prints_one print_request)))
               (fun _ => OtherError "struct.error")
               (fun _ => OtherError "struct.error")
               (fun _ => OtherError "AttributeError")
               (fun _ => Return (Agent.JDict print_request)) dumps_braces
               (fun _ => EmptyString) prints_one guest_fs "print(1)" 10 1
               _ _ _ _) _) 0 ("1" +:+ LF) EmptyString _).
  - reflexivity.
  - reflexivity.
  - vm_compute. split; reflexivity.
  - vm_compute. split; reflexivity.
  - reflexivity.
  - reflexivity.
Defined.

(** A guest that answers with the empty object: the defaults. *)
Lemma execute_in_vm_result_or_failure_witness :
  Firecracker._execute_code_in_vm dumps_braces
    (fun _ => Return (Agent.JDict []))
    (fun _ => OtherError "struct.error") (fun _ => OtherError "struct.error")
    (fun _ => OtherError "AttributeError") answers_braces "print(1)" 10
  = {| Firecracker.vm_success := Agent.JBool false;
       Firecracker.vm_stdout := Agent.JStr EmptyString;
       Firecracker.vm_stderr := Agent.JStr EmptyString;
       Firecracker.vm_exit_code := Agent.JInt (-1);
       Firecracker.vm_error := None |}.
Proof.
  refine (proj1
            (execute_in_vm_result_or_failure dumps_braces
               (fun _ => Return (Agent.JDict []))
               (fun _ => OtherError "struct.error")
               (fun _ => OtherError "struct.error")
               (fun _ => OtherError "AttributeError") answers_braces
               "print(1)" 10)
            ([Byte.x00; Byte.x00; Byte.x00; Byte.x02]
             ++ [Byte.x7b; Byte.x7d])
            [Byte.x00; Byte.x00; Byte.x00; Byte.x02]
            [Byte.x7b; Byte.x7d] [] [] _ _ _ _ _ _).
  - reflexivity.
  - reflexivity.
  - reflexivity.
  - reflexivity.
  - split; [reflexivity|]. split; [reflexivity | discriminate].
  - reflexivity.
Defined.

(** A plot saved without a public URL. *)
Lemma saved_file_url_leads_to_its_key_witness :
  R2.save_file "2026-01-01T00:00:00" private_provider [Byte.x61]
    "plot.png" "run-1" None
  = Return "r2://outputs/sandbox/executions/run-1/plot.png"
  /\ R2.generate_presigned_url private_provider
       "r2://outputs/sandbox/executions/run-1/plot.png" 18000
     = Return
         "https://signed.example/outputs/sandbox/executions/run-1/plot.png"
  /\ R2.delete_file private_provider
       "r2://outputs/sandbox/executions/run-1/plot.png"
     = true.
Proof.
  assert (Hsave : R2.save_file "2026-01-01T00:00:00" private_provider
                    [Byte.x61] "plot.png" "run-1" None
                  = Return "r2://outputs/sandbox/executions/run-1/plot.png")
    by reflexivity.
  split; [exact Hsave|].
  refine (saved_file_url_leads_to_its_key open_boto3 "2026-01-01T00:00:00"
            "outputs" "account" "key" "secret" "/sandbox/" None
            private_provider [Byte.x61] "plot.png" "run-1" None
            "r2://outputs/sandbox/executions/run-1/plot.png" 18000
            _ _ _ _ _ Hsave).
  - reflexivity.
  - reflexivity.
  - intros [url [E _]]. discriminate.
  - intros pub E. discriminate.
  - reflexivity.
Defined.

(** The prefix [/] with a public URL: stored under one key, asked for
    under another. *)
Lemma empty_prefix_public_url_asks_other_key_witness :
  R2.put_object open_client "outputs" "/executions/run-1/plot.png"
    [Byte.x61]
    [("execution-id", "run-1"); ("saved-at", "2026-01-01T00:00:00")]
  = Return tt
  /\ R2.generate_presigned_url rootless_provider
       "https://files.example//executions/run-1/plot.png" 18000
     = Return "https://signed.example/outputs/executions/run-1/plot.png".
Proof.
  refine (empty_prefix_public_url_asks_other_key open_boto3
            "2026-01-01T00:00:00" "outputs" "account" "key" "secret" "/"
            (Some "https://files.example/") rootless_provider
            "https://files.example" [Byte.x61] "plot.png" "run-1" None
            "https://files.example//executions/run-1/plot.png" 18000
            _ _ _ _ _ _ _).
  - reflexivity.
  - reflexivity.
  - reflexivity.
  - reflexivity.
  - reflexivity.
  - reflexivity.
  - reflexivity.
Defined.

(** The Docker executor uploads [output/plot.png]. *)
Lemma upload_presigns_the_stored_key_witness :
  Docker.upload "run-1"
    (Storage.for_executor "2026-01-01T00:00:00"
       {| Storage.provider := Some private_provider |})
    "plot.png" (small_file "plot.png")
  = Some "https://signed.example/outputs/sandbox/executions/run-1/plot.png".
Proof.
  refine (upload_presigns_the_stored_key open_boto3 "2026-01-01T00:00:00"
            "outputs" "account" "key" "secret" "/sandbox/" None
            private_provider "run-1" (small_file "plot.png") _ _ _ _).
  - reflexivity.
  - reflexivity.
  - intros [url [E _]]. discriminate.
  - intros pub E. discriminate.
Defined.

End MoreInstances.
